(** * Invoice totals and share-token engine

    A shallow embedding of [repositories/invoice_repo.py] (class
    [InvoiceRepository]), of the settings in [config.py], of the column
    declarations of [models/invoice_models.py] that the repository reads or
    writes, and of the exception mapping of [api/invoice_api.py]; further,
    of the parsing of the discount text in [api/invoice_api.py], of the two
    public routes of [api/public_invoice.py], of [sanitize_filename] in
    [utils/pdf_generator.py] and of the database URL of [database.py].

    Modelling conventions.
    - Python's [Decimal] is embedded as a rational number ([Q]) with exact
      arithmetic; amounts are compared with [==] ([Qeq]).  The 28-digit
      context precision of [decimal] and the rounding of the [Numeric(15,2)]
      columns by the store are outside the model: theorems speak of the values
      the repository computes.
    - A SQLAlchemy table is a list of rows in insertion order;
      [query(...).filter(...).first()] is [find].  The session is a pair of
      table sets: the committed rows and the rows the open session has
      flushed; [commit] publishes the second as the first.  The session is
      made with [autoflush=False]: an object that is added stays pending
      until a flush, and a query does not see it.
    - The store is PostgreSQL (the models use [ARRAY]) with the constraints
      [models/invoice_models.py] declares.  A flush writes a [Numeric(p, 2)]
      value rounded to two decimals, ties away from zero, and raises
      [DataError] when the rounded value does not fit; it raises
      [IntegrityError] on a repeated value of a unique column and on a
      [created_by] that is no user.  The text of a store exception is the
      name of the constraint, standing for the driver's message.
      [db.refresh] reads the row back, so what [create_on_the_fly] returns
      carries the rounded amounts.
    - Exceptions are values of [exn]; a repository method is a function from a
      session to an outcome and a session.
    - [secrets.token_hex], [secrets.token_urlsafe] and [datetime.now] are read
      from an explicit environment record, and so are what the store
      contributes to a call: the value of the customer id sequence and the
      instant of [func.now()].
    - Of the server-maintained columns, [updated_at] of an invoice is part
      of the row ([onupdate] rewrites it); the [id] of invoices and items
      and [created_at], which are never rewritten, are not.  A nullable
      column is an [option], except the Numeric columns of an invoice the
      repository always gives a value.
    - Text holds no NUL character (the store refuses it).
    - [order_by(InvoiceNew.invoice_number.desc())] compares the text of the
      numbers character by character.
    - The key-uniqueness constraints of the store are not enforced by the
      model: [add] never fails.
    - Text is ASCII: the classes [\s] and [\w] of [re] and the white space
      of [str.strip] and [str.split] are their ASCII parts.
    - The HTML and PDF renderers and the constructor of [Decimal] from text
      are parameters of the functions that call them. *)

From Stdlib Require Import ZArith QArith Qabs Qround List String Ascii Bool.
From Stdlib Require Import Lia Lqa.
From Stdlib Require Import Sorted.
Import ListNotations.
Local Open Scope string_scope.
Local Open Scope Z_scope.
Local Open Scope Q_scope.

(** ** Python values *)

Abbreviation Decimal := Q (only parsing).

(** Truth value of a [Decimal]: zero is falsy. *)
Definition truthy_dec (d : Decimal) : bool := negb (Qeq_bool d 0).

(** Truth value of an [Optional[Decimal]]: [None] and zero are falsy. *)
Definition truthy_odec (d : option Decimal) : bool :=
  match d with
  | Some x => truthy_dec x
  | None => false
  end.

(** Truth value of a [str]: the empty string is falsy. *)
Definition truthy_str (s : string) : bool :=
  match s with
  | EmptyString => false
  | String _ _ => true
  end.

Definition truthy_ostr (s : option string) : bool :=
  match s with
  | Some x => truthy_str x
  | None => false
  end.

(** Truth value of a nullable Boolean column. *)
Definition truthy_obool (b : option bool) : bool :=
  match b with
  | Some x => x
  | None => false
  end.

(** Truth value of a nullable Integer column. *)
Definition truthy_oint (n : option Z) : bool :=
  match n with
  | Some x => negb (Z.eqb x 0)
  | None => false
  end.

(** [a > b] on decimals. *)
Definition Qgtb (a b : Q) : bool := negb (Qle_bool a b).

(** SQL equality of a nullable text column with a bound value: a NULL never
    matches. *)
Definition col_eq_str (c : option string) (v : string) : bool :=
  match c with
  | Some x => String.eqb x v
  | None => false
  end.

(** SQL [col == True] on a nullable Boolean column. *)
Definition col_is_true (c : option bool) : bool :=
  match c with
  | Some true => true
  | _ => false
  end.

(** ** String built-ins used by the number generator *)

Module PyStr.

(** [s.startswith(p)], returning the rest of [s] after [p]. *)
Fixpoint strip_prefix (p s : string) : option string :=
  match p with
  | EmptyString => Some s
  | String a p' =>
      match s with
      | EmptyString => None
      | String b s' =>
          if Ascii.eqb a b then strip_prefix p' s' else None
      end
  end.

(** [s.replace(old, "")] for a non-empty [old]: every non-overlapping
    occurrence, scanning from the left, is removed.  [fuel] bounds the
    number of scanning steps and is never exhausted when it is at least
    the length of [s] plus one. *)
Fixpoint remove_all_aux (fuel : nat) (old s : string) : string :=
  match fuel with
  | O => s
  | S fuel' =>
      match s with
      | EmptyString => EmptyString
      | String c s' =>
          match strip_prefix old s with
          | Some rest => remove_all_aux fuel' old rest
          | None => String c (remove_all_aux fuel' old s')
          end
      end
  end.

Definition remove_all (old s : string) : string :=
  match old with
  | EmptyString => s
  | _ => remove_all_aux (S (String.length s)) old s
  end.

Definition is_digit (c : ascii) : bool :=
  let n := nat_of_ascii c in (48 <=? n)%nat && (n <=? 57)%nat.

Definition digit_val (c : ascii) : Z := Z.of_nat (nat_of_ascii c) - 48.

(** ASCII white space accepted around an integer literal. *)
Definition is_space (c : ascii) : bool :=
  let n := nat_of_ascii c in
  ((9 <=? n)%nat && (n <=? 13)%nat) || (n =? 32)%nat
  || ((28 <=? n)%nat && (n <=? 31)%nat).

Fixpoint lstrip (s : string) : string :=
  match s with
  | String c s' => if is_space c then lstrip s' else s
  | EmptyString => EmptyString
  end.

Fixpoint rev_aux (s acc : string) : string :=
  match s with
  | EmptyString => acc
  | String c s' => rev_aux s' (String c acc)
  end.

Definition rev (s : string) : string := rev_aux s EmptyString.

Definition strip (s : string) : string := rev (lstrip (rev (lstrip s))).

(** Digits of an integer literal, with single underscores allowed between
    digits.  [acc] is the value read so far, [after_digit] tells whether
    the previous character was a digit. *)
Fixpoint parse_digits (s : string) (acc : Z) (after_digit : bool)
  : option Z :=
  match s with
  | EmptyString => if after_digit then Some acc else None
  | String c s' =>
      if is_digit c then parse_digits s' (10 * acc + digit_val c)%Z true
      else if Ascii.eqb c "_"%char then
        if after_digit then parse_digits s' acc false else None
      else None
  end.

(** [int(s)] in base ten on ASCII input: [None] stands for [ValueError]. *)
Definition int (s : string) : option Z :=
  match strip s with
  | String "-"%char r => option_map Z.opp (parse_digits r 0%Z false)
  | String "+"%char r => parse_digits r 0%Z false
  | r => parse_digits r 0%Z false
  end.

Definition digit_char (d : Z) : ascii := ascii_of_nat (Z.to_nat (48 + d)).

(** Decimal digits of a non-negative integer, most significant first. *)
Fixpoint digits_aux (fuel : nat) (n : Z) (acc : string) : string :=
  match fuel with
  | O => acc
  | S fuel' =>
      let acc' := String (digit_char (n mod 10)) acc in
      if (n <? 10)%Z then acc' else digits_aux fuel' (n / 10)%Z acc'
  end.

Definition digits (n : Z) : string :=
  digits_aux (S (Z.to_nat (Z.log2 n))) n EmptyString.

(** [str(n)] for an [int]. *)
Definition str (n : Z) : string :=
  if (n <? 0)%Z then String "-"%char (digits (- n)) else digits n.

Fixpoint zeros (k : nat) : string :=
  match k with
  | O => EmptyString
  | S k' => String "0"%char (zeros k')
  end.

(** [s.zfill(width)]: pads on the left with zeros up to [width], after a
    leading sign if there is one; a longer string is returned as it is. *)
Definition zfill (width : Z) (s : string) : string :=
  let len := Z.of_nat (String.length s) in
  if (width <=? len)%Z then s
  else
    let pad := zeros (Z.to_nat (width - len)) in
    match s with
    | String "-"%char r => String "-"%char (pad ++ r)
    | String "+"%char r => String "+"%char (pad ++ r)
    | _ => pad ++ s
    end.

End PyStr.

(** ** Settings ([config.py], class [InvoiceSettings]) *)

Record InvoiceSettings := {
  INVOICE_NUMBER_PREFIX : string;
  INVOICE_NUMBER_LENGTH : Z;
  DEFAULT_SST_RATE : Decimal;
  SHARE_LINK_EXPIRY_DAYS : Z
}.

(** The defaults of [InvoiceSettings]. *)
Definition invoice_settings : InvoiceSettings := {|
  INVOICE_NUMBER_PREFIX := "INV";
  INVOICE_NUMBER_LENGTH := 6;
  DEFAULT_SST_RATE := 8;
  SHARE_LINK_EXPIRY_DAYS := 7
|}.

(** ** Column types of the store *)

(** Rounding to [scale] decimals, ties away from zero. *)
Definition round_half_away (scale : nat) (x : Decimal) : Decimal :=
  let m := inject_Z (10 ^ Z.of_nat scale) in
  let n := inject_Z (Qfloor (Qabs x * m + 1 / 2)) / m in
  if Qle_bool 0 x then n else - n.

(** What a [Numeric(precision, scale)] column keeps of a value: the value
    rounded to [scale] decimals; [None], a numeric field overflow, when the
    rounded value needs more than [precision - scale] digits before the
    point. *)
Definition numeric (precision scale : nat) (x : Decimal) : option Decimal :=
  let r := round_half_away scale x in
  if Qle_bool (inject_Z (10 ^ Z.of_nat (precision - scale))) (Qabs r)
  then None else Some r.

(** The column takes the value. *)
Definition holds (precision : nat) (x : Decimal) : bool :=
  match numeric precision 2 x with
  | Some _ => true
  | None => false
  end.

(** What an [Integer] column keeps: 32 bits. *)
Definition integer (n : Z) : option Z :=
  if ((- 2 ^ 31 <=? n) && (n <=? 2 ^ 31 - 1))%Z then Some n else None.

(** ** Rows ([models/invoice_models.py]) *)

(** A timezone-aware instant, in microseconds since the epoch. *)
Definition datetime := Z.

(** [timedelta(days=n)] in microseconds. *)
Definition timedelta_days (n : Z) : Z := (n * 86400000000)%Z.

Module Package.
Record t := {
  bubble_id : string;
  name : option string;
  price : option Decimal;
  invoice_desc : option string
}.
End Package.

Module Customer.
Record t := {
  id : Z;
  customer_id : string;
  name : string;
  phone : option string;
  email : option string;
  address : option string;
  created_by : option Z
}.
End Customer.

Module Voucher.
Record t := {
  voucher_code : option string;
  discount_amount : option Decimal;
  discount_percent : option Z;
  active : option bool
}.
End Voucher.

Module InvoiceTemplate.
Record t := {
  bubble_id : string;
  apply_sst : option bool;
  active : option bool;
  is_default : option bool
}.
End InvoiceTemplate.

Module InvoiceNewItem.
Record t := {
  bubble_id : string;
  invoice_id : string;
  description : string;
  qty : Decimal;
  unit_price : Decimal;
  total_price : Decimal;
  item_type : string;
  sort_order : Z
}.

(** The row the store keeps: [qty] is [Numeric(10, 2)], [unit_price] and
    [total_price] are [Numeric(15, 2)]. *)
Definition as_stored (it : t) : t :=
  {| bubble_id := bubble_id it;
     invoice_id := invoice_id it;
     description := description it;
     qty := round_half_away 2 (qty it);
     unit_price := round_half_away 2 (unit_price it);
     total_price := round_half_away 2 (total_price it);
     item_type := item_type it;
     sort_order := sort_order it |}.

(** The store takes the row's amounts. *)
Definition in_range (it : t) : bool :=
  holds 10 (qty it) && holds 15 (unit_price it)
  && holds 15 (total_price it).
End InvoiceNewItem.

Module InvoiceNew.
Record t := {
  bubble_id : string;
  invoice_number : string;
  invoice_date : string;
  customer_id : option Z;
  customer_name_snapshot : string;
  customer_phone_snapshot : option string;
  customer_address_snapshot : option string;
  customer_email_snapshot : option string;
  package_id : string;
  package_name_snapshot : option string;
  template_id : option string;
  discount_fixed : Decimal;
  discount_percent : Decimal;
  agent_markup : Decimal;
  voucher_code : option string;
  voucher_amount : Decimal;
  sst_rate : Decimal;
  status : string;
  created_by : option Z;
  share_token : option string;
  share_enabled : option bool;
  share_expires_at : option datetime;
  share_access_count : option Z;
  viewed_at : option datetime;
  (** [server_default=func.now(), onupdate=func.now()]: unset until the
      row is written *)
  updated_at : option datetime;
  subtotal : Decimal;
  discount_amount : Decimal;
  sst_amount : Decimal;
  total_amount : Decimal;
  (** the [items] relationship, in the order the items were attached; on a
      row, the items that refer to it *)
  items : list InvoiceNewItem.t
}.

(** [InvoiceNewItem(invoice=inv, ...)]: the back-reference appends the new
    item to [inv.items]. *)
Definition attach (it : InvoiceNewItem.t) (inv : t) : t :=
  {| bubble_id := bubble_id inv;
     invoice_number := invoice_number inv;
     invoice_date := invoice_date inv;
     customer_id := customer_id inv;
     customer_name_snapshot := customer_name_snapshot inv;
     customer_phone_snapshot := customer_phone_snapshot inv;
     customer_address_snapshot := customer_address_snapshot inv;
     customer_email_snapshot := customer_email_snapshot inv;
     package_id := package_id inv;
     package_name_snapshot := package_name_snapshot inv;
     template_id := template_id inv;
     discount_fixed := discount_fixed inv;
     discount_percent := discount_percent inv;
     agent_markup := agent_markup inv;
     voucher_code := voucher_code inv;
     voucher_amount := voucher_amount inv;
     sst_rate := sst_rate inv;
     status := status inv;
     created_by := created_by inv;
     share_token := share_token inv;
     share_enabled := share_enabled inv;
     share_expires_at := share_expires_at inv;
     share_access_count := share_access_count inv;
     viewed_at := viewed_at inv;
     updated_at := updated_at inv;
     subtotal := subtotal inv;
     discount_amount := discount_amount inv;
     sst_amount := sst_amount inv;
     total_amount := total_amount inv;
     items := items inv ++ [it] |}.

(** The five assignments of [_calculate_invoice_totals]. *)
Definition set_totals (sub disc vouch sst tot : Decimal) (inv : t) : t :=
  {| bubble_id := bubble_id inv;
     invoice_number := invoice_number inv;
     invoice_date := invoice_date inv;
     customer_id := customer_id inv;
     customer_name_snapshot := customer_name_snapshot inv;
     customer_phone_snapshot := customer_phone_snapshot inv;
     customer_address_snapshot := customer_address_snapshot inv;
     customer_email_snapshot := customer_email_snapshot inv;
     package_id := package_id inv;
     package_name_snapshot := package_name_snapshot inv;
     template_id := template_id inv;
     discount_fixed := discount_fixed inv;
     discount_percent := discount_percent inv;
     agent_markup := agent_markup inv;
     voucher_code := voucher_code inv;
     voucher_amount := vouch;
     sst_rate := sst_rate inv;
     status := status inv;
     created_by := created_by inv;
     share_token := share_token inv;
     share_enabled := share_enabled inv;
     share_expires_at := share_expires_at inv;
     share_access_count := share_access_count inv;
     viewed_at := viewed_at inv;
     updated_at := updated_at inv;
     subtotal := sub;
     discount_amount := disc;
     sst_amount := sst;
     total_amount := tot;
     items := items inv |}.

(** The two assignments of [record_view]. *)
Definition set_view (at_ : datetime) (count : Z) (inv : t) : t :=
  {| bubble_id := bubble_id inv;
     invoice_number := invoice_number inv;
     invoice_date := invoice_date inv;
     customer_id := customer_id inv;
     customer_name_snapshot := customer_name_snapshot inv;
     customer_phone_snapshot := customer_phone_snapshot inv;
     customer_address_snapshot := customer_address_snapshot inv;
     customer_email_snapshot := customer_email_snapshot inv;
     package_id := package_id inv;
     package_name_snapshot := package_name_snapshot inv;
     template_id := template_id inv;
     discount_fixed := discount_fixed inv;
     discount_percent := discount_percent inv;
     agent_markup := agent_markup inv;
     voucher_code := voucher_code inv;
     voucher_amount := voucher_amount inv;
     sst_rate := sst_rate inv;
     status := status inv;
     created_by := created_by inv;
     share_token := share_token inv;
     share_enabled := share_enabled inv;
     share_expires_at := share_expires_at inv;
     share_access_count := Some count;
     viewed_at := Some at_;
     updated_at := updated_at inv;
     subtotal := subtotal inv;
     discount_amount := discount_amount inv;
     sst_amount := sst_amount inv;
     total_amount := total_amount inv;
     items := items inv |}.

(** What [onupdate] makes of a row that an UPDATE at the instant [at_]
    rewrites. *)
Definition set_updated_at (at_ : datetime) (inv : t) : t :=
  {| bubble_id := bubble_id inv;
     invoice_number := invoice_number inv;
     invoice_date := invoice_date inv;
     customer_id := customer_id inv;
     customer_name_snapshot := customer_name_snapshot inv;
     customer_phone_snapshot := customer_phone_snapshot inv;
     customer_address_snapshot := customer_address_snapshot inv;
     customer_email_snapshot := customer_email_snapshot inv;
     package_id := package_id inv;
     package_name_snapshot := package_name_snapshot inv;
     template_id := template_id inv;
     discount_fixed := discount_fixed inv;
     discount_percent := discount_percent inv;
     agent_markup := agent_markup inv;
     voucher_code := voucher_code inv;
     voucher_amount := voucher_amount inv;
     sst_rate := sst_rate inv;
     status := status inv;
     created_by := created_by inv;
     share_token := share_token inv;
     share_enabled := share_enabled inv;
     share_expires_at := share_expires_at inv;
     share_access_count := share_access_count inv;
     viewed_at := viewed_at inv;
     updated_at := Some at_;
     subtotal := subtotal inv;
     discount_amount := discount_amount inv;
     sst_amount := sst_amount inv;
     total_amount := total_amount inv;
     items := items inv |}.

(** The row an INSERT or UPDATE at the instant [at_] leaves: the Numeric
    columns rounded to two decimals, [updated_at] set by the store, and
    [its] as the items that refer to the row. *)
Definition as_stored (at_ : datetime) (its : list InvoiceNewItem.t)
  (inv : t) : t :=
  {| bubble_id := bubble_id inv;
     invoice_number := invoice_number inv;
     invoice_date := invoice_date inv;
     customer_id := customer_id inv;
     customer_name_snapshot := customer_name_snapshot inv;
     customer_phone_snapshot := customer_phone_snapshot inv;
     customer_address_snapshot := customer_address_snapshot inv;
     customer_email_snapshot := customer_email_snapshot inv;
     package_id := package_id inv;
     package_name_snapshot := package_name_snapshot inv;
     template_id := template_id inv;
     discount_fixed := round_half_away 2 (discount_fixed inv);
     discount_percent := round_half_away 2 (discount_percent inv);
     agent_markup := round_half_away 2 (agent_markup inv);
     voucher_code := voucher_code inv;
     voucher_amount := round_half_away 2 (voucher_amount inv);
     sst_rate := round_half_away 2 (sst_rate inv);
     status := status inv;
     created_by := created_by inv;
     share_token := share_token inv;
     share_enabled := share_enabled inv;
     share_expires_at := share_expires_at inv;
     share_access_count := share_access_count inv;
     viewed_at := viewed_at inv;
     updated_at := Some at_;
     subtotal := round_half_away 2 (subtotal inv);
     discount_amount := round_half_away 2 (discount_amount inv);
     sst_amount := round_half_away 2 (sst_amount inv);
     total_amount := round_half_away 2 (total_amount inv);
     items := its |}.

(** The store takes the amounts the constructor sets: [agent_markup],
    [discount_fixed] and [voucher_amount] are [Numeric(15, 2)], [sst_rate]
    and [discount_percent] are [Numeric(5, 2)]. *)
Definition header_in_range (inv : t) : bool :=
  holds 15 (agent_markup inv) && holds 5 (sst_rate inv)
  && holds 15 (discount_fixed inv) && holds 5 (discount_percent inv)
  && holds 15 (voucher_amount inv).

(** The store takes the five totals, all [Numeric(15, 2)]. *)
Definition totals_in_range (inv : t) : bool :=
  holds 15 (subtotal inv) && holds 15 (discount_amount inv)
  && holds 15 (voucher_amount inv) && holds 15 (sst_amount inv)
  && holds 15 (total_amount inv).
End InvoiceNew.

(** ** The store and the session *)

Record Tables := {
  (** the [id] column of the [user] table, which [created_by] refers to *)
  users : list Z;
  packages : list Package.t;
  customers : list Customer.t;
  vouchers : list Voucher.t;
  templates : list InvoiceTemplate.t;
  invoices : list InvoiceNew.t;
  invoice_items : list InvoiceNewItem.t
}.

(** [committed]: what the store holds.  [working]: what the open session
    reads, its own flushed and pending rows included. *)
Record Session := {
  committed : Tables;
  working : Tables
}.

Definition with_customers (cs : list Customer.t) (tb : Tables) : Tables :=
  {| users := users tb; packages := packages tb; customers := cs;
     vouchers := vouchers tb;
     templates := templates tb; invoices := invoices tb;
     invoice_items := invoice_items tb |}.

Definition with_invoices (is_ : list InvoiceNew.t) (tb : Tables) : Tables :=
  {| users := users tb; packages := packages tb; customers := customers tb;
     vouchers := vouchers tb; templates := templates tb; invoices := is_;
     invoice_items := invoice_items tb |}.

Definition with_invoice_items (its : list InvoiceNewItem.t) (tb : Tables)
  : Tables :=
  {| users := users tb; packages := packages tb; customers := customers tb;
     vouchers := vouchers tb; templates := templates tb;
     invoices := invoices tb; invoice_items := its |}.

(** Exceptions the repository can raise: its own [ValueError], Python's
    [TypeError], and the two the store raises at a flush. *)
Inductive exn :=
| ValueError (msg : string)
| TypeError (msg : string)
| IntegrityError (msg : string)
| DataError (msg : string).

Inductive outcome (A : Type) :=
| Ok (a : A)
| Raise (e : exn).
Arguments Ok {A} a.
Arguments Raise {A} e.

(** A repository computation: reads and writes the session, may raise. *)
Definition M (A : Type) : Type := Session -> outcome A * Session.

Definition ret {A} (a : A) : M A := fun s => (Ok a, s).

Definition bind {A B} (m : M A) (k : A -> M B) : M B :=
  fun s =>
    match m s with
    | (Ok a, s') => k a s'
    | (Raise e, s') => (Raise e, s')
    end.

Definition raise {A} (e : exn) : M A := fun s => (Raise e, s).

Definition get_tables : M Tables := fun s => (Ok (working s), s).

Definition put_working (tb : Tables) : M unit :=
  fun s => (Ok tt, {| committed := committed s; working := tb |}).

(** [db.commit()]. *)
Definition commit : M unit :=
  fun s => (Ok tt, {| committed := working s; working := working s |}).

Notation "x <- m ;; k" := (bind m (fun x => k))
  (at level 61, m at next level, right associativity).
Notation "m ;;; k" := (bind m (fun _ => k))
  (at level 61, right associativity).

(** ** The environment of one call *)

Record Env := {
  (** [datetime.now(timezone.utc)] *)
  now : datetime;
  (** [datetime.now(timezone.utc).strftime("%Y-%m-%d")] *)
  today : string;
  (** [secrets.token_hex(4)] of a new customer *)
  customer_hex : string;
  (** [secrets.token_hex(8)] of the invoice *)
  invoice_hex : string;
  (** [secrets.token_urlsafe(16)] *)
  share_urlsafe : string;
  (** [secrets.token_hex(8)] of each line item *)
  package_item_hex : string;
  fixed_item_hex : string;
  percent_item_hex : string;
  voucher_item_hex : string;
  fee_item_hex : string;
  (** [str] of a [Decimal], as an f-string prints it *)
  str_decimal : Decimal -> string;
  (** the value the store's sequence gives the [id] of a new customer *)
  customer_row_id : Z;
  (** [func.now()] in the store, during the call *)
  db_now : datetime
}.

(** The keyword arguments of [create_on_the_fly]. *)
Module Args.
Record t := {
  package_id : string;
  discount_fixed : Decimal;
  discount_percent : Decimal;
  apply_sst : bool;
  template_id : option string;
  voucher_code : option string;
  agent_markup : Decimal;
  customer_name : option string;
  customer_phone : option string;
  customer_address : option string;
  epp_fee_amount : option Decimal;
  epp_fee_description : option string;
  created_by : option Z
}.

(** A call that passes [package_id] only: every other argument at its
    default. *)
Definition defaults (pid : string) : t :=
  {| package_id := pid; discount_fixed := 0; discount_percent := 0;
     apply_sst := false; template_id := None; voucher_code := None;
     agent_markup := 0; customer_name := None; customer_phone := None;
     customer_address := None; epp_fee_amount := None;
     epp_fee_description := None; created_by := None |}.
End Args.

(** ** Queries *)

(** [sum(...)] over decimals, from the left, starting at 0. *)
Definition py_sum (l : list Decimal) : Decimal := fold_left Qplus l 0.

(** [query(InvoiceNew).order_by(InvoiceNew.invoice_number.desc()).first()]:
    the row whose number is greatest in the order of the text column
    (character by character). *)
Definition last_by_invoice_number (l : list InvoiceNew.t)
  : option InvoiceNew.t :=
  fold_left
    (fun best inv =>
       match best with
       | None => Some inv
       | Some b =>
           if String.ltb (InvoiceNew.invoice_number b)
                (InvoiceNew.invoice_number inv)
           then Some inv else Some b
       end) l None.

(** The session writes an attached, modified invoice back to its row: the
    first row with the invoice's [bubble_id]. *)
Fixpoint replace_invoice (inv : InvoiceNew.t) (l : list InvoiceNew.t)
  : list InvoiceNew.t :=
  match l with
  | [] => []
  | x :: r =>
      if String.eqb (InvoiceNew.bubble_id x) (InvoiceNew.bubble_id inv)
      then inv :: r
      else x :: replace_invoice inv r
  end.

Definition flush_invoice (inv : InvoiceNew.t) : M unit :=
  tb <- get_tables ;;
  put_working (with_invoices (replace_invoice inv (invoices tb)) tb).

(** *** Writes *)

(** A [created_by] the store cannot keep: [ForeignKey("user.id")] on an
    [Integer] column. *)
Definition created_by_out_of_range (created_by : option Z) : bool :=
  match created_by with
  | Some u => match integer u with Some _ => false | None => true end
  | None => false
  end.

Definition created_by_unknown (tb : Tables) (created_by : option Z) : bool :=
  match created_by with
  | Some u => negb (existsb (Z.eqb u) (users tb))
  | None => false
  end.

(** [db.add(customer); db.flush()]: the INSERT of a customer row.  The
    primary key and [customer_id] are unique. *)
Definition insert_customer (c : Customer.t) : M unit :=
  tb <- get_tables ;;
  if created_by_out_of_range (Customer.created_by c) then
    raise (DataError "integer out of range")
  else if existsb (fun x => (Customer.id x =? Customer.id c)%Z)
            (customers tb) then
    raise (IntegrityError "customer_pkey")
  else if existsb (fun x => String.eqb (Customer.customer_id x)
                              (Customer.customer_id c))
            (customers tb) then
    raise (IntegrityError "customer_customer_id_key")
  else if created_by_unknown tb (Customer.created_by c) then
    raise (IntegrityError "customer_created_by_fkey")
  else put_working (with_customers (customers tb ++ [c]) tb).

(** [db.add(invoice); db.flush()]: the INSERT of an invoice row at the
    instant [at_].  [bubble_id], [invoice_number] and [share_token] are
    unique (a NULL token never collides).  The object keeps the values it
    was given; the row holds them rounded. *)
Definition insert_invoice (at_ : datetime) (inv : InvoiceNew.t) : M unit :=
  tb <- get_tables ;;
  if negb (InvoiceNew.header_in_range inv) then
    raise (DataError "numeric field overflow")
  else if created_by_out_of_range (InvoiceNew.created_by inv) then
    raise (DataError "integer out of range")
  else if existsb (fun x => String.eqb (InvoiceNew.bubble_id x)
                              (InvoiceNew.bubble_id inv))
            (invoices tb) then
    raise (IntegrityError "invoice_new_bubble_id_key")
  else if existsb (fun x => String.eqb (InvoiceNew.invoice_number x)
                              (InvoiceNew.invoice_number inv))
            (invoices tb) then
    raise (IntegrityError "invoice_new_invoice_number_key")
  else if match InvoiceNew.share_token inv with
          | Some t =>
              existsb (fun x => col_eq_str (InvoiceNew.share_token x) t)
                (invoices tb)
          | None => false
          end then
    raise (IntegrityError "invoice_new_share_token_key")
  else if created_by_unknown tb (InvoiceNew.created_by inv) then
    raise (IntegrityError "invoice_new_created_by_fkey")
  else
    put_working
      (with_invoices (invoices tb ++ [InvoiceNew.as_stored at_ [] inv]) tb).

(** [InvoiceNewItem(invoice=inv, ...)] followed by [db.add(item)]: the
    item joins [inv.items] and stays pending. *)
Definition add_item (it : InvoiceNewItem.t) (inv : InvoiceNew.t)
  : M InvoiceNew.t :=
  ret (InvoiceNew.attach it inv).

(** The INSERTs of pending items into [rows], one after the other:
    [bubble_id] is unique. *)
Fixpoint insert_items (rows pending : list InvoiceNewItem.t)
  : exn + list InvoiceNewItem.t :=
  match pending with
  | [] => inr rows
  | it :: rest =>
      if negb (InvoiceNewItem.in_range it) then
        inl (DataError "numeric field overflow")
      else if existsb (fun x => String.eqb (InvoiceNewItem.bubble_id x)
                                  (InvoiceNewItem.bubble_id it)) rows then
        inl (IntegrityError "invoice_new_item_bubble_id_key")
      else insert_items (rows ++ [InvoiceNewItem.as_stored it]) rest
  end.

(** The flush of [db.commit()] at the end of [create_on_the_fly], at the
    instant [at_]: the UPDATE of the invoice row with the totals, then the
    INSERTs of its pending items. *)
Definition flush_created (at_ : datetime) (invoice : InvoiceNew.t)
  : M unit :=
  tb <- get_tables ;;
  if negb (InvoiceNew.totals_in_range invoice) then
    raise (DataError "numeric field overflow")
  else
    match insert_items (invoice_items tb) (InvoiceNew.items invoice) with
    | inl e => raise e
    | inr rows =>
        put_working
          (with_invoice_items rows
             (with_invoices
                (replace_invoice
                   (InvoiceNew.as_stored at_
                      (map InvoiceNewItem.as_stored
                         (InvoiceNew.items invoice))
                      invoice)
                   (invoices tb))
                tb))
    end.

(** [db.refresh(invoice)]: the attributes are read back from the row. *)
Definition refresh (invoice : InvoiceNew.t) : M InvoiceNew.t :=
  tb <- get_tables ;;
  match find (fun i => String.eqb (InvoiceNew.bubble_id i)
                         (InvoiceNew.bubble_id invoice))
          (invoices tb) with
  | Some row => ret row
  | None => ret invoice
  end.

(** ** The repository ([InvoiceRepository]) *)

Section Repository.

Variable invoice_settings : InvoiceSettings.
Variable env : Env.

(** Generate next invoice number. *)
Definition _generate_invoice_number : M string :=
  tb <- get_tables ;;
  let last_invoice := last_by_invoice_number (invoices tb) in
  let next_num :=
    match last_invoice with
    | Some last =>
        match PyStr.int
                (PyStr.remove_all
                   (INVOICE_NUMBER_PREFIX invoice_settings ++ "-")
                   (InvoiceNew.invoice_number last)) with
        | Some last_num => (last_num + 1)%Z
        | None => 1%Z
        end
    | None => 1%Z
    end in
  let num_str :=
    PyStr.zfill (INVOICE_NUMBER_LENGTH invoice_settings)
      (PyStr.str next_num) in
  ret (INVOICE_NUMBER_PREFIX invoice_settings ++ "-" ++ num_str).

(** The items [_calculate_invoice_totals] works on: [invoice.items], or,
    when that is empty, the item rows of the invoice. *)
Definition items_of (tb : Tables) (invoice : InvoiceNew.t)
  : list InvoiceNewItem.t :=
  match InvoiceNew.items invoice with
  | [] =>
      filter
        (fun it => String.eqb (InvoiceNewItem.invoice_id it)
                     (InvoiceNew.bubble_id invoice))
        (invoice_items tb)
  | its => its
  end.

Definition has_type (ty : string) (it : InvoiceNewItem.t) : bool :=
  String.eqb (InvoiceNewItem.item_type it) ty.

(** Calculate invoice totals.  The invoice is mutated in place; the result
    is the invoice after the assignments, and its row is updated. *)
Definition _calculate_invoice_totals (invoice : InvoiceNew.t)
  : M InvoiceNew.t :=
  tb <- get_tables ;;
  let items := items_of tb invoice in
  let subtotal :=
    match items with
    | [] => 0
    | _ => py_sum (map InvoiceNewItem.total_price items)
    end in
  let discount_items := filter (has_type "discount") items in
  let discount_from_items :=
    py_sum (map (fun it => Qabs (InvoiceNewItem.total_price it))
           discount_items) in
  let voucher_items := filter (has_type "voucher") items in
  let voucher_from_items :=
    py_sum (map (fun it => Qabs (InvoiceNewItem.total_price it))
           voucher_items) in
  let taxable_amount := subtotal in
  let sst_amount :=
    if Qgtb taxable_amount 0
    then taxable_amount * (InvoiceNew.sst_rate invoice / 100)
    else 0 in
  let invoice' :=
    InvoiceNew.set_totals subtotal discount_from_items voucher_from_items
      sst_amount (taxable_amount + sst_amount) invoice in
  flush_invoice invoice' ;;;
  ret invoice'.

(** Step 2 of [create_on_the_fly]: the customer id and the four snapshot
    fields. *)
Definition handle_customer (a : Args.t)
  : M (option Z * string * option string * option string * option string) :=
  match Args.customer_name a with
  | Some cname =>
      if truthy_str cname then
        tb <- get_tables ;;
        match find (fun c => String.eqb (Customer.name c) cname)
                (customers tb) with
        | Some customer =>
            ret (Some (Customer.id customer), Customer.name customer,
                 Customer.phone customer, Customer.address customer,
                 Customer.email customer)
        | None =>
            let customer :=
              {| Customer.id := customer_row_id env;
                 Customer.customer_id := "cust_" ++ customer_hex env;
                 Customer.name := cname;
                 Customer.phone := Args.customer_phone a;
                 Customer.email := None;
                 Customer.address := Args.customer_address a;
                 Customer.created_by := Args.created_by a |} in
            insert_customer customer ;;;
            ret (Some (Customer.id customer), Customer.name customer,
                 Customer.phone customer, Customer.address customer,
                 Customer.email customer)
        end
      else
        ret (None, "Sample Quotation", Args.customer_phone a,
             Args.customer_address a, None)
  | None =>
      ret (None, "Sample Quotation", Args.customer_phone a,
           Args.customer_address a, None)
  end.

(** [package.price * x]: a NULL price raises [TypeError]. *)
Definition price_times (package : Package.t) (x : Decimal) : M Decimal :=
  match Package.price package with
  | Some p => ret (p * x)
  | None =>
      raise (TypeError "unsupported operand type(s) for *: 'NoneType' and 'decimal.Decimal'")
  end.

(** The amount of a voucher row: the flat amount when it is truthy,
    otherwise the percentage of the package price when that is truthy,
    otherwise zero. *)
Definition amount_of_voucher (package : Package.t) (voucher : Voucher.t)
  : M Decimal :=
  match Voucher.discount_amount voucher with
  | Some amt =>
      if truthy_dec amt then ret amt
      else if truthy_oint (Voucher.discount_percent voucher) then
        match Voucher.discount_percent voucher with
        | Some pct => price_times package (inject_Z pct / 100)
        | None => ret 0
        end
      else ret 0
  | None =>
      if truthy_oint (Voucher.discount_percent voucher) then
        match Voucher.discount_percent voucher with
        | Some pct => price_times package (inject_Z pct / 100)
        | None => ret 0
        end
      else ret 0
  end.

(** The query of step 3: the first active voucher with the code. *)
Definition find_voucher (tb : Tables) (code : string) : option Voucher.t :=
  find (fun v => col_eq_str (Voucher.voucher_code v) code
                 && col_is_true (Voucher.active v))
    (vouchers tb).

(** Step 3 of [create_on_the_fly]: [voucher_amount]. *)
Definition handle_voucher (a : Args.t) (package : Package.t) : M Decimal :=
  match Args.voucher_code a with
  | Some code =>
      if truthy_str code then
        tb <- get_tables ;;
        match find_voucher tb code with
        | Some voucher => amount_of_voucher package voucher
        | None => ret 0
        end
      else ret 0
  | None => ret 0
  end.

(** Step 4, first half: the template id, defaulting to the active default
    template. *)
Definition resolve_template_id (tb : Tables) (a : Args.t) : option string :=
  if truthy_ostr (Args.template_id a) then Args.template_id a
  else
    match find (fun t => col_is_true (InvoiceTemplate.is_default t)
                         && col_is_true (InvoiceTemplate.active t))
            (templates tb) with
    | Some default_template =>
        Some (InvoiceTemplate.bubble_id default_template)
    | None => Args.template_id a
    end.

(** Step 4, second half: [sst_rate]. *)
Definition resolve_sst_rate (tb : Tables) (a : Args.t)
  (template_id : option string) : Decimal :=
  if Args.apply_sst a then
    match template_id with
    | Some tid =>
        if truthy_str tid then
          match find (fun t => String.eqb (InvoiceTemplate.bubble_id t) tid)
                  (templates tb) with
          | Some template =>
              if negb (truthy_obool (InvoiceTemplate.apply_sst template))
              then 0
              else DEFAULT_SST_RATE invoice_settings
          | None => DEFAULT_SST_RATE invoice_settings
          end
        else DEFAULT_SST_RATE invoice_settings
    | None => DEFAULT_SST_RATE invoice_settings
    end
  else 0.

(** [x or "..."] on nullable text. *)
Definition or_str (x : option string) (dflt : string) : string :=
  match x with
  | Some s => if truthy_str s then s else dflt
  | None => dflt
  end.

Definition line_item (inv : InvoiceNew.t) (hex description : string)
  (amount : Decimal) (ty : string) (order : Z) : InvoiceNewItem.t :=
  {| InvoiceNewItem.bubble_id := "item_" ++ hex;
     InvoiceNewItem.invoice_id := InvoiceNew.bubble_id inv;
     InvoiceNewItem.description := description;
     InvoiceNewItem.qty := 1;
     InvoiceNewItem.unit_price := amount;
     InvoiceNewItem.total_price := amount;
     InvoiceNewItem.item_type := ty;
     InvoiceNewItem.sort_order := order |}.

(** Step 6: the package item. *)
Definition add_package_item (package : Package.t) (a : Args.t)
  (inv : InvoiceNew.t) : M InvoiceNew.t :=
  let unit_price :=
    (if truthy_odec (Package.price package)
     then match Package.price package with Some p => p | None => 0 end
     else 0) + Args.agent_markup a in
  add_item
    (line_item inv (package_item_hex env)
       (or_str (Package.invoice_desc package)
          (or_str (Package.name package) "Package Item"))
       unit_price "package" 0)
    inv.

(** Step 6b: the discount items.  The result carries
    [discount_sort_order] after the step. *)
Definition add_discount_items (package : Package.t) (a : Args.t)
  (inv : InvoiceNew.t) : M (InvoiceNew.t * Z) :=
  let discount_sort_order := 100%Z in
  let discount_fixed := Args.discount_fixed a in
  let discount_percent := Args.discount_percent a in
  r1 <- (if truthy_dec discount_fixed && Qgtb discount_fixed 0 then
           inv1 <- add_item
                     (line_item inv (fixed_item_hex env)
                        ("Discount (RM " ++ str_decimal env discount_fixed
                                         ++ ")")
                        (- discount_fixed) "discount" discount_sort_order)
                     inv ;;
           ret (inv1, (discount_sort_order + 1)%Z)
         else ret (inv, discount_sort_order)) ;;
  let '(inv1, discount_sort_order) := r1 in
  if truthy_dec discount_percent && Qgtb discount_percent 0 then
    percent_amount <- price_times package (discount_percent / 100) ;;
    inv2 <- add_item
              (line_item inv1 (percent_item_hex env)
                 ("Discount (" ++ str_decimal env discount_percent ++ "%)")
                 (- percent_amount) "discount" discount_sort_order)
              inv1 ;;
    ret (inv2, (discount_sort_order + 1)%Z)
  else ret (inv1, discount_sort_order).

(** Step 6c: the voucher item. *)
Definition add_voucher_item (a : Args.t) (voucher_amount : Decimal)
  (inv : InvoiceNew.t) : M InvoiceNew.t :=
  if truthy_ostr (Args.voucher_code a) && Qgtb voucher_amount 0 then
    add_item
      (line_item inv (voucher_item_hex env)
         ("Voucher (" ++ or_str (Args.voucher_code a) "" ++ ")")
         (- voucher_amount) "voucher" 101)
      inv
  else ret inv.

(** Step 6d: the fee item. *)
Definition add_epp_fee_item (a : Args.t) (inv : InvoiceNew.t)
  : M InvoiceNew.t :=
  match Args.epp_fee_amount a with
  | Some epp_fee_amount =>
      if truthy_dec epp_fee_amount && Qgtb epp_fee_amount 0
         && truthy_ostr (Args.epp_fee_description a)
      then
        add_item
          (line_item inv (fee_item_hex env)
             ("Bank Processing Fee ("
                ++ or_str (Args.epp_fee_description a) "" ++ ")")
             epp_fee_amount "epp_fee" 200)
          inv
      else ret inv
  | None => ret inv
  end.

(** Create an invoice on the fly based on a package and other
    parameters. *)
Definition create_on_the_fly (a : Args.t) : M InvoiceNew.t :=
  (* 1. Fetch Package *)
  tb <- get_tables ;;
  match find (fun p => String.eqb (Package.bubble_id p) (Args.package_id a))
          (packages tb) with
  | None => raise (ValueError ("Package not found: " ++ Args.package_id a))
  | Some package =>
      (* 2. Handle Customer *)
      cust <- handle_customer a ;;
      let '(customer_id, cust_name_snapshot, cust_phone_snapshot,
            cust_address_snapshot, cust_email_snapshot) := cust in
      (* 3. Handle Voucher *)
      voucher_amount <- handle_voucher a package ;;
      (* 4. Handle Template and SST *)
      tb <- get_tables ;;
      let template_id := resolve_template_id tb a in
      let sst_rate := resolve_sst_rate tb a template_id in
      (* 5. Create Invoice *)
      invoice_number <- _generate_invoice_number ;;
      let invoice :=
        {| InvoiceNew.bubble_id := "inv_" ++ invoice_hex env;
           InvoiceNew.invoice_number := invoice_number;
           InvoiceNew.invoice_date := today env;
           InvoiceNew.customer_id := customer_id;
           InvoiceNew.customer_name_snapshot := cust_name_snapshot;
           InvoiceNew.customer_phone_snapshot := cust_phone_snapshot;
           InvoiceNew.customer_address_snapshot := cust_address_snapshot;
           InvoiceNew.customer_email_snapshot := cust_email_snapshot;
           InvoiceNew.package_id := Args.package_id a;
           InvoiceNew.package_name_snapshot := Package.name package;
           InvoiceNew.template_id := template_id;
           InvoiceNew.discount_fixed := Args.discount_fixed a;
           InvoiceNew.discount_percent := Args.discount_percent a;
           InvoiceNew.agent_markup := Args.agent_markup a;
           InvoiceNew.voucher_code := Args.voucher_code a;
           InvoiceNew.voucher_amount := voucher_amount;
           InvoiceNew.sst_rate := sst_rate;
           InvoiceNew.status := "draft";
           InvoiceNew.created_by := Args.created_by a;
           InvoiceNew.share_token := Some (share_urlsafe env);
           InvoiceNew.share_enabled := Some true;
           InvoiceNew.share_expires_at :=
             Some (now env
                   + timedelta_days
                       (SHARE_LINK_EXPIRY_DAYS invoice_settings))%Z;
           InvoiceNew.share_access_count := Some 0%Z;
           InvoiceNew.viewed_at := None;
           InvoiceNew.updated_at := None;
           InvoiceNew.subtotal := 0;
           InvoiceNew.discount_amount := 0;
           InvoiceNew.sst_amount := 0;
           InvoiceNew.total_amount := 0;
           InvoiceNew.items := [] |} in
      insert_invoice (db_now env) invoice ;;;
      (* 6. Add Items from Package *)
      invoice <- add_package_item package a invoice ;;
      (* 6b. Create Discount Items *)
      r <- add_discount_items package a invoice ;;
      let invoice := fst r in
      (* 6c. Create Voucher Item *)
      invoice <- add_voucher_item a voucher_amount invoice ;;
      (* 6d. Create EPP Fee Item *)
      invoice <- add_epp_fee_item a invoice ;;
      (* 7. Finalize *)
      invoice <- _calculate_invoice_totals invoice ;;
      flush_created (db_now env) invoice ;;;
      commit ;;;
      invoice <- refresh invoice ;;
      ret invoice
  end.

(** Get invoice by ID. *)
Definition get_by_id (bubble_id : string) : M (option InvoiceNew.t) :=
  tb <- get_tables ;;
  ret (find (fun i => String.eqb (InvoiceNew.bubble_id i) bubble_id)
         (invoices tb)).

(** Get invoice by share token. *)
Definition get_by_share_token (share_token : string)
  : M (option InvoiceNew.t) :=
  tb <- get_tables ;;
  let invoice :=
    find (fun i => col_eq_str (InvoiceNew.share_token i) share_token)
      (invoices tb) in
  match invoice with
  | Some inv =>
      if truthy_obool (InvoiceNew.share_enabled inv) then
        match InvoiceNew.share_expires_at inv with
        | Some expires =>
            if (expires <? now env)%Z then ret None else ret (Some inv)
        | None => ret (Some inv)
        end
      else ret None
  | None => ret None
  end.

(** Record that invoice was viewed via share link.  [+= 1] on a NULL
    counter raises [TypeError]; the UPDATE of [db.commit()] writes the two
    columns and [updated_at], and raises [DataError] when the counter
    leaves the [Integer] column. *)
Definition record_view (bubble_id : string) : M unit :=
  invoice <- get_by_id bubble_id ;;
  match invoice with
  | Some inv =>
      match InvoiceNew.share_access_count inv with
      | Some count =>
          let inv' := InvoiceNew.set_view (now env) (count + 1)%Z inv in
          match integer (count + 1) with
          | Some _ =>
              flush_invoice (InvoiceNew.set_updated_at (db_now env) inv') ;;;
              commit
          | None => raise (DataError "integer out of range")
          end
      | None =>
          raise (TypeError "unsupported operand type(s) for +=: 'NoneType' and 'int'")
      end
  | None => ret tt
  end.

(** *** The endpoint ([api/invoice_api.py]) *)

Record InvoiceOnTheFlyResponse := {
  success : bool;
  invoice_link : string;
  invoice_number : string;
  bubble_id : string;
  total_amount : Decimal
}.

Inductive http_result :=
| Response (r : InvoiceOnTheFlyResponse)
| HTTPException (status_code : Z) (detail : string).

Definition exn_message (e : exn) : string :=
  match e with
  | ValueError m => m
  | TypeError m => m
  | IntegrityError m => m
  | DataError m => m
  end.

(** The [try] block of [create_invoice_on_the_fly] and its two handlers,
    for the arguments the endpoint has assembled from the request. *)
Definition create_invoice_on_the_fly (base_url : string) (a : Args.t)
  : Session -> http_result * Session :=
  fun s =>
    match create_on_the_fly a s with
    | (Ok invoice, s') =>
        (Response
           {| success := true;
              invoice_link :=
                base_url ++ "/view/"
                  ++ match InvoiceNew.share_token invoice with
                     | Some t => t
                     | None => "None"
                     end;
              invoice_number := InvoiceNew.invoice_number invoice;
              bubble_id := InvoiceNew.bubble_id invoice;
              total_amount := InvoiceNew.total_amount invoice |}, s')
    | (Raise (ValueError m), s') => (HTTPException 400 m, s')
    | (Raise e, s') =>
        (HTTPException 500 ("Failed to create invoice: " ++ exn_message e),
         s')
    end.

End Repository.

(** ** Reference definitions for the properties *)

Definition attach_all (its : list InvoiceNewItem.t) (inv : InvoiceNew.t)
  : InvoiceNew.t :=
  fold_left (fun i it => InvoiceNew.attach it i) its inv.

Section Reference.

Variable env : Env.

(** The session a step leaves behind reads the same reference tables and
    has committed nothing. *)
Definition same_reference (s s' : Session) : Prop :=
  committed s' = committed s
  /\ packages (working s') = packages (working s)
  /\ vouchers (working s') = vouchers (working s)
  /\ templates (working s') = templates (working s).

(** The query of step 1. *)
Definition find_package (tb : Tables) (pid : string) : option Package.t :=
  find (fun p => String.eqb (Package.bubble_id p) pid) (packages tb).

(** The amount step 3 resolves, for a package of price [P]: zero without
    a code or without an active voucher of that code; otherwise the flat
    amount when it is truthy, else the percentage of [P] when it is
    truthy, else zero. *)
Definition resolved_voucher_amount (tb : Tables) (a : Args.t) (P : Decimal)
  : Decimal :=
  if truthy_ostr (Args.voucher_code a) then
    match find_voucher tb (or_str (Args.voucher_code a) "") with
    | Some voucher =>
        if truthy_odec (Voucher.discount_amount voucher) then
          match Voucher.discount_amount voucher with
          | Some amt => amt
          | None => 0
          end
        else if truthy_oint (Voucher.discount_percent voucher) then
          match Voucher.discount_percent voucher with
          | Some pct => P * (inject_Z pct / 100)
          | None => 0
          end
        else 0
    | None => 0
    end
  else 0.

(** *** The line items, as lists *)

Definition package_unit_price (package : Package.t) (a : Args.t)
  : Decimal :=
  (if truthy_odec (Package.price package)
   then match Package.price package with Some p => p | None => 0 end
   else 0) + Args.agent_markup a.

Definition package_line (package : Package.t) (a : Args.t)
  (inv : InvoiceNew.t) : InvoiceNewItem.t :=
  line_item inv (package_item_hex env)
    (or_str (Package.invoice_desc package)
       (or_str (Package.name package) "Package Item"))
    (package_unit_price package a) "package" 0.

Definition fixed_lines (a : Args.t) (inv : InvoiceNew.t)
  : list InvoiceNewItem.t :=
  if truthy_dec (Args.discount_fixed a) && Qgtb (Args.discount_fixed a) 0
  then [line_item inv (fixed_item_hex env)
          ("Discount (RM " ++ str_decimal env (Args.discount_fixed a)
                           ++ ")")
          (- Args.discount_fixed a) "discount" 100]
  else [].

Definition percent_lines (P : Decimal) (a : Args.t) (inv : InvoiceNew.t)
  : list InvoiceNewItem.t :=
  if truthy_dec (Args.discount_percent a)
     && Qgtb (Args.discount_percent a) 0
  then [line_item inv (percent_item_hex env)
          ("Discount (" ++ str_decimal env (Args.discount_percent a)
                        ++ "%)")
          (- (P * (Args.discount_percent a / 100))) "discount"
          (100 + Z.of_nat (List.length (fixed_lines a inv)))]
  else [].

Definition voucher_lines (a : Args.t) (v : Decimal) (inv : InvoiceNew.t)
  : list InvoiceNewItem.t :=
  if truthy_ostr (Args.voucher_code a) && Qgtb v 0
  then [line_item inv (voucher_item_hex env)
          ("Voucher (" ++ or_str (Args.voucher_code a) "" ++ ")")
          (- v) "voucher" 101]
  else [].

Definition fee_lines (a : Args.t) (inv : InvoiceNew.t)
  : list InvoiceNewItem.t :=
  match Args.epp_fee_amount a with
  | Some fee =>
      if truthy_dec fee && Qgtb fee 0
         && truthy_ostr (Args.epp_fee_description a)
      then [line_item inv (fee_item_hex env)
              ("Bank Processing Fee ("
                 ++ or_str (Args.epp_fee_description a) "" ++ ")")
              fee "epp_fee" 200]
      else []
  | None => []
  end.

(** All the line items of a created invoice, in the order they are
    attached. *)
Definition created_lines (package : Package.t) (P : Decimal) (a : Args.t)
  (v : Decimal) (inv : InvoiceNew.t) : list InvoiceNewItem.t :=
  (package_line package a inv
     :: fixed_lines a inv ++ percent_lines P a inv
        ++ voucher_lines a v inv ++ fee_lines a inv)%list.



(** The query of [get_by_share_token]: the first row carrying the token. *)
Definition find_by_token (tb : Tables) (token : string)
  : option InvoiceNew.t :=
  find (fun i => col_eq_str (InvoiceNew.share_token i) token) (invoices tb).

(** Sharing is enabled and the link has no expiry or one that is not in the
    past. *)
Definition share_open (inv : InvoiceNew.t) : Prop :=
  InvoiceNew.share_enabled inv = Some true
  /\ (InvoiceNew.share_expires_at inv = None
      \/ exists e, InvoiceNew.share_expires_at inv = Some e
                   /\ (now env <= e)%Z).

(** Sharing is enabled and the link has no expiry or one in the future: the
    condition as the claim words it. *)
Definition share_open_strict (inv : InvoiceNew.t) : Prop :=
  InvoiceNew.share_enabled inv = Some true
  /\ (InvoiceNew.share_expires_at inv = None
      \/ exists e, InvoiceNew.share_expires_at inv = Some e
                   /\ (now env < e)%Z).

(** The amount of a voucher as the specification words it: the flat amount
    if it is set (truthy), else the percentage of the package price. *)
Definition voucher_amount_rule (voucher : Voucher.t) (P : Decimal)
  : Decimal :=
  match Voucher.discount_amount voucher with
  | Some amt =>
      if truthy_dec amt then amt
      else match Voucher.discount_percent voucher with
           | Some pct => P * inject_Z pct / 100
           | None => 0
           end
  | None =>
      match Voucher.discount_percent voucher with
      | Some pct => P * inject_Z pct / 100
      | None => 0
      end
  end.

(** The type tag and sort order of a line that is not the package line. *)
Definition adjustment_tag (it : InvoiceNewItem.t) : Prop :=
  (InvoiceNewItem.item_type it = "discount"
   /\ (100 <= InvoiceNewItem.sort_order it)%Z)
  \/ (InvoiceNewItem.item_type it = "voucher"
      /\ InvoiceNewItem.sort_order it = 101%Z)
  \/ (InvoiceNewItem.item_type it = "epp_fee"
      /\ InvoiceNewItem.sort_order it = 200%Z).

End Reference.

(** The query of [get_by_id]. *)
Definition find_by_id (tb : Tables) (bid : string) : option InvoiceNew.t :=
  find (fun i => String.eqb (InvoiceNew.bubble_id i) bid) (invoices tb).

(** Every field of the two invoices agrees, except [share_access_count],
    [viewed_at] and [updated_at]. *)
Definition same_but_view (i j : InvoiceNew.t) : Prop :=
  InvoiceNew.bubble_id i = InvoiceNew.bubble_id j
  /\ InvoiceNew.invoice_number i = InvoiceNew.invoice_number j
  /\ InvoiceNew.invoice_date i = InvoiceNew.invoice_date j
  /\ InvoiceNew.customer_id i = InvoiceNew.customer_id j
  /\ InvoiceNew.customer_name_snapshot i = InvoiceNew.customer_name_snapshot j
  /\ InvoiceNew.customer_phone_snapshot i
     = InvoiceNew.customer_phone_snapshot j
  /\ InvoiceNew.customer_address_snapshot i
     = InvoiceNew.customer_address_snapshot j
  /\ InvoiceNew.customer_email_snapshot i
     = InvoiceNew.customer_email_snapshot j
  /\ InvoiceNew.package_id i = InvoiceNew.package_id j
  /\ InvoiceNew.package_name_snapshot i = InvoiceNew.package_name_snapshot j
  /\ InvoiceNew.template_id i = InvoiceNew.template_id j
  /\ InvoiceNew.discount_fixed i = InvoiceNew.discount_fixed j
  /\ InvoiceNew.discount_percent i = InvoiceNew.discount_percent j
  /\ InvoiceNew.agent_markup i = InvoiceNew.agent_markup j
  /\ InvoiceNew.voucher_code i = InvoiceNew.voucher_code j
  /\ InvoiceNew.voucher_amount i = InvoiceNew.voucher_amount j
  /\ InvoiceNew.sst_rate i = InvoiceNew.sst_rate j
  /\ InvoiceNew.status i = InvoiceNew.status j
  /\ InvoiceNew.created_by i = InvoiceNew.created_by j
  /\ InvoiceNew.share_token i = InvoiceNew.share_token j
  /\ InvoiceNew.share_enabled i = InvoiceNew.share_enabled j
  /\ InvoiceNew.share_expires_at i = InvoiceNew.share_expires_at j
  /\ InvoiceNew.subtotal i = InvoiceNew.subtotal j
  /\ InvoiceNew.discount_amount i = InvoiceNew.discount_amount j
  /\ InvoiceNew.sst_amount i = InvoiceNew.sst_amount j
  /\ InvoiceNew.total_amount i = InvoiceNew.total_amount j
  /\ InvoiceNew.items i = InvoiceNew.items j.


(** ** The repository, continued: templates *)

(** Get template data by ID. *)
Definition get_template (template_id : string)
  : M (option InvoiceTemplate.t) :=
  tb <- get_tables ;;
  ret (find (fun t => String.eqb (InvoiceTemplate.bubble_id t) template_id)
         (templates tb)).

(** Get default template data: the first active default template, and
    failing that the first active template. *)
Definition get_default_template_data : M (option InvoiceTemplate.t) :=
  tb <- get_tables ;;
  match find (fun t => col_is_true (InvoiceTemplate.is_default t)
                       && col_is_true (InvoiceTemplate.active t))
          (templates tb) with
  | Some t => ret (Some t)
  | None =>
      ret (find (fun t => col_is_true (InvoiceTemplate.active t))
             (templates tb))
  end.

(** ** More string built-ins *)

Module PyMore.

(** ASCII letters and digits. *)
Definition is_alnum (c : ascii) : bool :=
  let n := nat_of_ascii c in
  ((48 <=? n)%nat && (n <=? 57)%nat)
  || ((65 <=? n)%nat && (n <=? 90)%nat)
  || ((97 <=? n)%nat && (n <=? 122)%nat).

(** The class [\w] on ASCII text. *)
Definition is_word (c : ascii) : bool := is_alnum c || Ascii.eqb c "_".

Definition is_ascii (c : ascii) : bool := (nat_of_ascii c <? 128)%nat.

Fixpoint all_chars (p : ascii -> bool) (s : string) : bool :=
  match s with
  | EmptyString => true
  | String c r => p c && all_chars p r
  end.

Fixpoint filter_chars (p : ascii -> bool) (s : string) : string :=
  match s with
  | EmptyString => EmptyString
  | String c r =>
      if p c then String c (filter_chars p r) else filter_chars p r
  end.

Fixpoint map_chars (f : ascii -> ascii) (s : string) : string :=
  match s with
  | EmptyString => EmptyString
  | String c r => String (f c) (map_chars f r)
  end.

(** [c in s] for a character. *)
Fixpoint contains_char (c : ascii) (s : string) : bool :=
  match s with
  | EmptyString => false
  | String d r => Ascii.eqb c d || contains_char c r
  end.

(** [sub in s]. *)
Fixpoint contains (sub s : string) : bool :=
  match PyStr.strip_prefix sub s with
  | Some _ => true
  | None =>
      match s with
      | EmptyString => false
      | String _ r => contains sub r
      end
  end.

(** The token [s] starts with, which is empty when [s] starts with white
    space, and the tokens after it. *)
Fixpoint split_tok (s : string) : string * list string :=
  match s with
  | EmptyString => (EmptyString, [])
  | String c r =>
      let (t, rest) := split_tok r in
      if PyStr.is_space c then
        (EmptyString,
         match t with EmptyString => rest | _ => t :: rest end)
      else (String c t, rest)
  end.

(** [s.split()]: the maximal runs of characters that are not white
    space. *)
Definition split (s : string) : list string :=
  let (t, rest) := split_tok s in
  match t with EmptyString => rest | _ => t :: rest end.

Fixpoint lstrip_char (c : ascii) (s : string) : string :=
  match s with
  | String d r => if Ascii.eqb d c then lstrip_char c r else s
  | EmptyString => EmptyString
  end.

(** [s.strip(c)] for a one-character argument. *)
Definition strip_char (c : ascii) (s : string) : string :=
  PyStr.rev (lstrip_char c (PyStr.rev (lstrip_char c s))).

(** [s.replace(old, new, 1)] for a non-empty [old]: the leftmost
    occurrence is replaced. *)
Fixpoint replace_first (old new s : string) : string :=
  match PyStr.strip_prefix old s with
  | Some rest => new ++ rest
  | None =>
      match s with
      | EmptyString => EmptyString
      | String c r => String c (replace_first old new r)
      end
  end.

End PyMore.

(** ** The file name of a PDF ([utils/pdf_generator.py]) *)

Module PdfGenerator.

(** [re.sub(r'\s+', '_', s)]: every maximal run of white space becomes one
    underscore.  [in_run] tells whether the previous character was white
    space. *)
Fixpoint sub_spaces (s : string) (in_run : bool) : string :=
  match s with
  | EmptyString => EmptyString
  | String c r =>
      if PyStr.is_space c then
        if in_run then sub_spaces r true
        else String "_" (sub_spaces r true)
      else String c (sub_spaces r false)
  end.

(** [re.sub(r'_+', '_', s)]. *)
Fixpoint sub_underscores (s : string) (in_run : bool) : string :=
  match s with
  | EmptyString => EmptyString
  | String c r =>
      if Ascii.eqb c "_" then
        if in_run then sub_underscores r true
        else String "_" (sub_underscores r true)
      else String c (sub_underscores r false)
  end.

(** What [re.sub(r'[^\w\-]', '', s)] keeps. *)
Definition keeps (c : ascii) : bool := PyMore.is_word c || Ascii.eqb c "-".

(** [sanitized_company] before the fallback. *)
Definition sanitize_company (company_name : string) : string :=
  let sanitized_company := sub_spaces (PyStr.strip company_name) false in
  let sanitized_company := PyMore.filter_chars keeps sanitized_company in
  let sanitized_company := sub_underscores sanitized_company false in
  PyMore.strip_char "_" sanitized_company.

(** Sanitize company name and invoice number for use in filename, on ASCII
    text. *)
Definition sanitize_filename (company_name invoice_number : string)
  : string :=
  let sanitized_company := sanitize_company company_name in
  let sanitized_invoice :=
    PyMore.filter_chars keeps (PyStr.strip invoice_number) in
  let sanitized_company :=
    match sanitized_company with
    | EmptyString => "Invoice"
    | _ => sanitized_company
    end in
  sanitized_company ++ "_" ++ sanitized_invoice ++ ".pdf".

End PdfGenerator.

(** ** The public share routes ([api/public_invoice.py]) *)

Module PublicInvoice.

Inductive response :=
| HTMLResponse (content : string)
| JSONResponse (r : InvoiceOnTheFlyResponse)
| PDFResponse (content : string) (filename : string)
| HTTPException (status_code : Z) (detail : string).

Section Handlers.

Variable env : Env.

(** [generate_invoice_html(invoice_dict, template_data, share_token,
    invoice_id)], the renderer of [utils/html_generator.py]; an empty
    [template_data] is [None]. *)
Variable generate_invoice_html :
  InvoiceNew.t -> option InvoiceTemplate.t -> option string ->
  option string -> string.

(** [generate_invoice_pdf(html_content, 'A4', base_url)]: the bytes of the
    PDF, or the text of the exception it raises. *)
Variable generate_invoice_pdf : string -> string -> string + string.

(** The [company_name] column of a template row. *)
Variable company_name : InvoiceTemplate.t -> string.

(** The template of an invoice: its own when it names one that exists,
    else the default one. *)
Definition fetch_template_data (invoice : InvoiceNew.t)
  : M (option InvoiceTemplate.t) :=
  template_data <-
    (if truthy_ostr (InvoiceNew.template_id invoice)
     then get_template (or_str (InvoiceNew.template_id invoice) "")
     else ret None) ;;
  match template_data with
  | Some t => ret (Some t)
  | None => get_default_template_data
  end.

(** The attributes of [invoice] as the session reloads them after a commit:
    the row the token selected. *)
Definition reloaded (share_token : string) (invoice : InvoiceNew.t)
  : M InvoiceNew.t :=
  tb <- get_tables ;;
  match find_by_token tb share_token with
  | Some row => ret row
  | None => ret invoice
  end.

(** What the route makes of a model the handler returns.  The decorator
    sets [response_class=Union[HTMLResponse, InvoiceOnTheFlyResponse]], and
    the framework builds the response of a returned model by calling the
    response class: a [Union] cannot be called, so no [JSONResponse] is ever
    built and the request ends in an unhandled [TypeError].  A [Response]
    the handler returns itself, as in the HTML branch, is passed on as it
    is. *)
Definition route_response (r : InvoiceOnTheFlyResponse) : M response :=
  raise (TypeError "Cannot instantiate typing.Union").

(** Public view of invoice via share link.  [accept] is the Accept header
    of the request, [base_url] its base URL without the final slash. *)
Definition view_shared_invoice (share_token : string)
  (accept : option string) (base_url : string) : M response :=
  invoice <- get_by_share_token env share_token ;;
  match invoice with
  | None => ret (HTTPException 404 "Invoice not found or link expired")
  | Some invoice =>
      (* Record view *)
      record_view env (InvoiceNew.bubble_id invoice) ;;;
      invoice <- reloaded share_token invoice ;;
      if PyMore.contains "text/html"
           (match accept with Some h => h | None => "" end)
      then
        template_data <- fetch_template_data invoice ;;
        ret (HTMLResponse
               (generate_invoice_html invoice template_data
                  (Some share_token) None))
      else
        route_response
          {| success := true;
             invoice_link := base_url ++ "/view/" ++ share_token;
             invoice_number := InvoiceNew.invoice_number invoice;
             bubble_id := InvoiceNew.bubble_id invoice;
             total_amount := InvoiceNew.total_amount invoice |}
  end.

(** Download invoice as PDF via share token. *)
Definition download_invoice_pdf (share_token : string) (base_url : string)
  : M response :=
  invoice <- get_by_share_token env share_token ;;
  match invoice with
  | None => ret (HTTPException 404 "Invoice not found or link expired")
  | Some invoice =>
      template_data <- fetch_template_data invoice ;;
      let html_content :=
        generate_invoice_html invoice template_data None None in
      match generate_invoice_pdf html_content base_url with
      | inr e => ret (HTTPException 500 ("Failed to generate PDF: " ++ e))
      | inl pdf_bytes =>
          let company :=
            match template_data with
            | Some t => company_name t
            | None => "Invoice"
            end in
          ret (PDFResponse pdf_bytes
                 (PdfGenerator.sanitize_filename company
                    (InvoiceNew.invoice_number invoice)))
      end
  end.

End Handlers.

End PublicInvoice.

(** ** The discount text of a request ([api/invoice_api.py]) *)

Module InvoiceApi.

(** A [Decimal] as the constructor returns it from text: a number, or one
    of the special values (NaN, Infinity). *)
Inductive decimal_value :=
| Finite (q : Decimal)
| Special.

(** The fields of [InvoiceOnTheFlyRequest] that carry the discount. *)
Record discount_fields := {
  discount_fixed : option Decimal;
  discount_percent : option Decimal;
  discount_given : option string
}.

Section DiscountGiven.

(** [Decimal(text)]; [None] stands for [decimal.InvalidOperation]. *)
Variable Decimal_of_str : string -> option decimal_value.

(** The body of the loop over the parts: the percent part is converted
    outside any handler, the fixed part inside [try ... except: pass]. *)
Definition parse_part (acc : decimal_value * decimal_value) (part : string)
  : option (decimal_value * decimal_value) :=
  let part := PyStr.strip part in
  if PyMore.contains_char "%" part then
    match Decimal_of_str (PyStr.remove_all "%" part) with
    | Some p => Some (fst acc, p)
    | None => None
    end
  else
    match Decimal_of_str
            (PyStr.remove_all "," (PyStr.remove_all "RM" part)) with
    | Some f => Some (f, snd acc)
    | None => Some acc
    end.

Fixpoint parse_parts (parts : list string)
  (acc : decimal_value * decimal_value)
  : option (decimal_value * decimal_value) :=
  match parts with
  | [] => Some acc
  | part :: rest =>
      match parse_part acc part with
      | Some acc' => parse_parts rest acc'
      | None => None
      end
  end.

(** The parts of a discount text: [+] and white space separate them. *)
Definition parts_of (discount_given : string) : list string :=
  PyMore.split
    (PyMore.map_chars
       (fun c => if Ascii.eqb c "+" then " "%char else c)
       (PyStr.strip discount_given)).

(** Lines 32 to 60 of the endpoint: [final_discount_fixed] and
    [final_discount_percent], or [None] when the conversion of a percent
    part raises. *)
Definition final_discounts (request_data : discount_fields)
  : option (decimal_value * decimal_value) :=
  if truthy_ostr (discount_given request_data) then
    parse_parts (parts_of (or_str (discount_given request_data) ""))
      (Finite 0, Finite 0)
  else
    Some (Finite (match discount_fixed request_data with
                  | Some d => if truthy_dec d then d else 0
                  | None => 0
                  end),
          Finite (match discount_percent request_data with
                  | Some d => if truthy_dec d then d else 0
                  | None => 0
                  end)).

End DiscountGiven.

End InvoiceApi.

(** ** The database URL ([database.py]) *)

Module Database.

(** The module-level computation of [DATABASE_URL] from the two environment
    variables. *)
Definition database_url (DATABASE_URL DATABASE_PRIVATE_URL : option string)
  : outcome string :=
  let url :=
    if truthy_ostr DATABASE_URL then DATABASE_URL
    else DATABASE_PRIVATE_URL in
  if negb (truthy_ostr url) then
    Raise (ValueError "DATABASE_URL environment variable is required")
  else
    let url := or_str url "" in
    match PyStr.strip_prefix "postgres://" url with
    | Some _ =>
        Ok (PyMore.replace_first "postgres://" "postgresql://" url)
    | None => Ok url
    end.

End Database.

(** ** Reference definitions for the further properties *)

Section Traces.

Variable cfg : InvoiceSettings.
Variable env : Env.

(** The query of step 2: the first customer of that name. *)
Definition find_customer (tb : Tables) (cname : string)
  : option Customer.t :=
  find (fun c => String.eqb (Customer.name c) cname) (customers tb).

(** The customer row step 2 adds when the name is new. *)
Definition new_customer (a : Args.t) (cname : string) : Customer.t :=
  {| Customer.id := customer_row_id env;
     Customer.customer_id := "cust_" ++ customer_hex env;
     Customer.name := cname;
     Customer.phone := Args.customer_phone a;
     Customer.email := None;
     Customer.address := Args.customer_address a;
     Customer.created_by := Args.created_by a |}.

(** The price the lines of a created invoice are computed from: a NULL
    price counts as zero in the package line, and no other line of a
    created invoice uses it. *)
Definition price_or_zero (package : Package.t) : Decimal :=
  match Package.price package with
  | Some p => p
  | None => 0
  end.

(** No stored invoice carries the number. *)
Definition number_is_new (tb : Tables) (number : string) : Prop :=
  find (fun i => String.eqb (InvoiceNew.invoice_number i) number)
    (invoices tb) = None.


(** The fields of an invoice that neither attaching an item nor computing
    the totals touches. *)
Definition same_header (i j : InvoiceNew.t) : Prop :=
  InvoiceNew.bubble_id i = InvoiceNew.bubble_id j
  /\ InvoiceNew.invoice_number i = InvoiceNew.invoice_number j
  /\ InvoiceNew.invoice_date i = InvoiceNew.invoice_date j
  /\ InvoiceNew.customer_id i = InvoiceNew.customer_id j
  /\ InvoiceNew.customer_name_snapshot i = InvoiceNew.customer_name_snapshot j
  /\ InvoiceNew.customer_phone_snapshot i
     = InvoiceNew.customer_phone_snapshot j
  /\ InvoiceNew.customer_address_snapshot i
     = InvoiceNew.customer_address_snapshot j
  /\ InvoiceNew.customer_email_snapshot i
     = InvoiceNew.customer_email_snapshot j
  /\ InvoiceNew.package_id i = InvoiceNew.package_id j
  /\ InvoiceNew.template_id i = InvoiceNew.template_id j
  /\ InvoiceNew.sst_rate i = InvoiceNew.sst_rate j
  /\ InvoiceNew.status i = InvoiceNew.status j
  /\ InvoiceNew.share_token i = InvoiceNew.share_token j
  /\ InvoiceNew.share_enabled i = InvoiceNew.share_enabled j
  /\ InvoiceNew.share_expires_at i = InvoiceNew.share_expires_at j
  /\ InvoiceNew.share_access_count i = InvoiceNew.share_access_count j
  /\ InvoiceNew.viewed_at i = InvoiceNew.viewed_at j
  /\ InvoiceNew.package_name_snapshot i = InvoiceNew.package_name_snapshot j
  /\ InvoiceNew.discount_fixed i = InvoiceNew.discount_fixed j
  /\ InvoiceNew.discount_percent i = InvoiceNew.discount_percent j
  /\ InvoiceNew.agent_markup i = InvoiceNew.agent_markup j
  /\ InvoiceNew.voucher_code i = InvoiceNew.voucher_code j
  /\ InvoiceNew.created_by i = InvoiceNew.created_by j
  /\ InvoiceNew.updated_at i = InvoiceNew.updated_at j.

(** The instant a link created now expires. *)
Definition expiry_of_new_link : datetime :=
  (now env + timedelta_days (SHARE_LINK_EXPIRY_DAYS cfg))%Z.

(** What a call of [create_on_the_fly] that returned [inv] and left the
    session [s'] has done: [package] is the package it found, [customer]
    and [s1] what step 2 returned and left, and [fin] the invoice as
    [_calculate_invoice_totals] left it, before the store rounded it. *)
Record Created (a : Args.t) (s : Session) (inv : InvoiceNew.t)
  (s' : Session) (package : Package.t)
  (customer : option Z * string * option string * option string
              * option string)
  (s1 : Session) (fin : InvoiceNew.t) : Prop := {
  cr_package : find_package (working s) (Args.package_id a) = Some package;
  cr_customer : handle_customer env a s = (Ok customer, s1);
  cr_snapshots :
    customer = (InvoiceNew.customer_id fin,
                InvoiceNew.customer_name_snapshot fin,
                InvoiceNew.customer_phone_snapshot fin,
                InvoiceNew.customer_address_snapshot fin,
                InvoiceNew.customer_email_snapshot fin);
  cr_lines :
    InvoiceNew.items fin
    = created_lines env package (price_or_zero package) a
        (resolved_voucher_amount (working s) a (price_or_zero package)) fin;
  cr_finalized :
    exists pre s0 s0', _calculate_invoice_totals pre s0 = (Ok fin, s0');
  cr_subtotal :
    InvoiceNew.subtotal fin
    = py_sum (map InvoiceNewItem.total_price (InvoiceNew.items fin));
  cr_discount_amount :
    InvoiceNew.discount_amount fin
    = py_sum (map (fun it => Qabs (InvoiceNewItem.total_price it))
                (filter (has_type "discount") (InvoiceNew.items fin)));
  cr_voucher_amount :
    InvoiceNew.voucher_amount fin
    = py_sum (map (fun it => Qabs (InvoiceNewItem.total_price it))
                (filter (has_type "voucher") (InvoiceNew.items fin)));
  cr_sst_amount :
    InvoiceNew.sst_amount fin
    = (if Qgtb (InvoiceNew.subtotal fin) 0
       then InvoiceNew.subtotal fin * (InvoiceNew.sst_rate fin / 100)
       else 0);
  cr_total_amount :
    InvoiceNew.total_amount fin
    = InvoiceNew.subtotal fin + InvoiceNew.sst_amount fin;
  cr_sst_rate :
    InvoiceNew.sst_rate fin
    = resolve_sst_rate cfg (working s) a (resolve_template_id (working s) a);
  cr_template_id :
    InvoiceNew.template_id fin = resolve_template_id (working s) a;
  cr_bubble_id : InvoiceNew.bubble_id fin = "inv_" ++ invoice_hex env;
  cr_number :
    _generate_invoice_number cfg s = (Ok (InvoiceNew.invoice_number fin), s);
  cr_date : InvoiceNew.invoice_date fin = today env;
  cr_package_id : InvoiceNew.package_id fin = Args.package_id a;
  cr_package_name :
    InvoiceNew.package_name_snapshot fin = Package.name package;
  cr_discount_fixed : InvoiceNew.discount_fixed fin = Args.discount_fixed a;
  cr_discount_percent :
    InvoiceNew.discount_percent fin = Args.discount_percent a;
  cr_agent_markup : InvoiceNew.agent_markup fin = Args.agent_markup a;
  cr_voucher_code : InvoiceNew.voucher_code fin = Args.voucher_code a;
  cr_status : InvoiceNew.status fin = "draft";
  cr_created_by : InvoiceNew.created_by fin = Args.created_by a;
  cr_share_token : InvoiceNew.share_token fin = Some (share_urlsafe env);
  cr_share_enabled : InvoiceNew.share_enabled fin = Some true;
  cr_share_expires_at :
    InvoiceNew.share_expires_at fin = Some expiry_of_new_link;
  cr_share_access_count : InvoiceNew.share_access_count fin = Some 0%Z;
  cr_viewed_at : InvoiceNew.viewed_at fin = None;
  cr_returned :
    inv = InvoiceNew.as_stored (db_now env)
            (map InvoiceNewItem.as_stored (InvoiceNew.items fin)) fin;
  cr_committed : committed s' = working s';
  cr_users : users (working s') = users (working s);
  cr_packages : packages (working s') = packages (working s);
  cr_vouchers : vouchers (working s') = vouchers (working s);
  cr_templates : templates (working s') = templates (working s);
  cr_customers : customers (working s') = customers (working s1);
  cr_invoices :
    invoices (working s') = (invoices (working s) ++ [inv])%list;
  cr_items :
    invoice_items (working s')
    = (invoice_items (working s) ++ InvoiceNew.items inv)%list;
  cr_new_id : find_by_id (working s) (InvoiceNew.bubble_id inv) = None;
  cr_new_token : find_by_token (working s) (share_urlsafe env) = None;
  cr_new_number : number_is_new (working s) (InvoiceNew.invoice_number inv);
  cr_header_in_range :
    holds 15 (Args.agent_markup a) && holds 5 (InvoiceNew.sst_rate fin)
    && holds 15 (Args.discount_fixed a)
    && holds 5 (Args.discount_percent a)
    && holds 15 (resolved_voucher_amount (working s) a
                   (price_or_zero package)) = true;
  cr_totals_in_range : InvoiceNew.totals_in_range fin = true;
  cr_lines_in_range :
    forallb InvoiceNewItem.in_range (InvoiceNew.items fin) = true
}.

End Traces.

(** *** Number texts *)

Definition pow10 (k : nat) : Z := (10 ^ Z.of_nat k)%Z.

(** The [k] decimal digits of [n], most significant first. *)
Fixpoint pad (k : nat) (n : Z) : string :=
  match k with
  | O => EmptyString
  | S k' =>
      String (PyStr.digit_char (n / pow10 k')%Z) (pad k' (n mod pow10 k')%Z)
  end.

Fixpoint all_digits (s : string) : bool :=
  match s with
  | EmptyString => true
  | String c r => PyStr.is_digit c && all_digits r
  end.

Section NumberText.

Variable cfg : InvoiceSettings.

(** The number text of suffix [n]: prefix, dash, zero-padded [n]. *)
Definition number_text (n : Z) : string :=
  INVOICE_NUMBER_PREFIX cfg ++ "-"
    ++ PyStr.zfill (INVOICE_NUMBER_LENGTH cfg) (PyStr.str n).

(** [n] fits the configured width. *)
Definition fits (n : Z) : Prop :=
  (0 <= n < 10 ^ INVOICE_NUMBER_LENGTH cfg)%Z.

Variable suffix : InvoiceNew.t -> Z.

(** The row carries the number text of its suffix, which fits the width. *)
Definition well_numbered (r : InvoiceNew.t) : Prop :=
  fits (suffix r) /\ InvoiceNew.invoice_number r = number_text (suffix r).

End NumberText.

(** What step 4 lets through: the template the invoice resolves to (the one
    asked for, else the active default one) does not switch the tax off.  A
    missing template permits the tax. *)
Definition template_permits (tb : Tables) (a : Args.t) : bool :=
  match resolve_template_id tb a with
  | Some tid =>
      if truthy_str tid then
        match find (fun t => String.eqb (InvoiceTemplate.bubble_id t) tid)
                (templates tb) with
        | Some template => truthy_obool (InvoiceTemplate.apply_sst template)
        | None => true
        end
      else true
  | None => true
  end.

(** The tax is enabled and the resolved template permits it. *)
Definition tax_applies (tb : Tables) (a : Args.t) : bool :=
  Args.apply_sst a && template_permits tb a.

(** ** Concrete data *)

Module Fixture.

Definition env0 : Env :=
  {| now := 1769472000000000%Z;
     today := "2026-01-27";
     customer_hex := "0a1b2c3d";
     invoice_hex := "00112233445566aa";
     share_urlsafe := "Zm9vYmFyYmF6cXV4";
     package_item_hex := "1000000000000001";
     fixed_item_hex := "1000000000000002";
     percent_item_hex := "1000000000000003";
     voucher_item_hex := "1000000000000004";
     fee_item_hex := "1000000000000005";
     str_decimal := fun _ => "0";
     customer_row_id := 1%Z;
     db_now := 1769472000000000%Z |}.

(** A package priced 1000. *)
Definition pkg1000 : Package.t :=
  {| Package.bubble_id := "pkg_a";
     Package.name := Some "Solar 10 panels";
     Package.price := Some 1000;
     Package.invoice_desc := None |}.

(** An active voucher worth a flat 100. *)
Definition flat100 : Voucher.t :=
  {| Voucher.voucher_code := Some "FLAT100";
     Voucher.discount_amount := Some 100;
     Voucher.discount_percent := None;
     Voucher.active := Some true |}.

(** An active voucher with both a flat amount and a percentage. *)
Definition flat_and_percent : Voucher.t :=
  {| Voucher.voucher_code := Some "BOTH";
     Voucher.discount_amount := Some 120;
     Voucher.discount_percent := Some 10%Z;
     Voucher.active := Some true |}.

Definition tables0 : Tables :=
  {| users := []; packages := [pkg1000]; customers := [];
     vouchers := [flat100; flat_and_percent];
     templates := []; invoices := []; invoice_items := [] |}.

Definition session_of (tb : Tables) : Session :=
  {| committed := tb; working := tb |}.

Definition session0 : Session := session_of tables0.

(** Markup 50, voucher FLAT100, tax enabled. *)
Definition args_voucher : Args.t :=
  {| Args.package_id := "pkg_a"; Args.discount_fixed := 0;
     Args.discount_percent := 0; Args.apply_sst := true;
     Args.template_id := None; Args.voucher_code := Some "FLAT100";
     Args.agent_markup := 50; Args.customer_name := None;
     Args.customer_phone := None; Args.customer_address := None;
     Args.epp_fee_amount := None; Args.epp_fee_description := None;
     Args.created_by := None |}.


(** A fixed discount of 1500 on the package of 1000, tax enabled. *)
Definition args_over : Args.t :=
  {| Args.package_id := "pkg_a"; Args.discount_fixed := 1500;
     Args.discount_percent := 0; Args.apply_sst := true;
     Args.template_id := None; Args.voucher_code := None;
     Args.agent_markup := 0; Args.customer_name := None;
     Args.customer_phone := None; Args.customer_address := None;
     Args.epp_fee_amount := None; Args.epp_fee_description := None;
     Args.created_by := None |}.

(** Every adjustment at once: fixed discount 50, percent discount 10,
    voucher BOTH, fee 30 with a description. *)
Definition args_all : Args.t :=
  {| Args.package_id := "pkg_a"; Args.discount_fixed := 50;
     Args.discount_percent := 10; Args.apply_sst := false;
     Args.template_id := None; Args.voucher_code := Some "BOTH";
     Args.agent_markup := 0; Args.customer_name := Some "Aina";
     Args.customer_phone := None; Args.customer_address := None;
     Args.epp_fee_amount := Some 30;
     Args.epp_fee_description := Some "Maybank EPP 12 Months";
     Args.created_by := None |}.

(** An active voucher whose flat amount is set to zero, with a percentage
    of 10; a store that has only this voucher; and a request that uses
    it. *)
Definition zero_flat : Voucher.t :=
  {| Voucher.voucher_code := Some "ZERO";
     Voucher.discount_amount := Some 0;
     Voucher.discount_percent := Some 10%Z;
     Voucher.active := Some true |}.

Definition zero_flat_session : Session :=
  session_of
    {| users := []; packages := [pkg1000]; customers := [];
       vouchers := [zero_flat];
       templates := []; invoices := []; invoice_items := [] |}.

Definition args_zero_flat : Args.t :=
  {| Args.package_id := "pkg_a"; Args.discount_fixed := 0;
     Args.discount_percent := 0; Args.apply_sst := false;
     Args.template_id := None; Args.voucher_code := Some "ZERO";
     Args.agent_markup := 0; Args.customer_name := None;
     Args.customer_phone := None; Args.customer_address := None;
     Args.epp_fee_amount := None; Args.epp_fee_description := None;
     Args.created_by := None |}.


(** A package without a price, a store that has it, and a request for it
    with a percent discount of 10. *)
Definition unpriced : Package.t :=
  {| Package.bubble_id := "pkg_n";
     Package.name := Some "Site survey";
     Package.price := None;
     Package.invoice_desc := None |}.

Definition unpriced_session : Session :=
  session_of
    {| users := []; packages := [pkg1000; unpriced]; customers := [];
       vouchers := [flat100; flat_and_percent];
       templates := []; invoices := []; invoice_items := [] |}.

Definition args_unpriced (percent : Decimal) : Args.t :=
  {| Args.package_id := "pkg_n"; Args.discount_fixed := 0;
     Args.discount_percent := percent; Args.apply_sst := false;
     Args.template_id := None; Args.voucher_code := None;
     Args.agent_markup := 0; Args.customer_name := None;
     Args.customer_phone := None; Args.customer_address := None;
     Args.epp_fee_amount := None; Args.epp_fee_description := None;
     Args.created_by := None |}.


(** An invoice row with the given identity and sharing fields; the counter
    column is nullable. *)
Definition counted_row (bid num : string) (token : option string)
  (enabled : option bool) (expires : option datetime) (count : option Z)
  : InvoiceNew.t :=
  {| InvoiceNew.bubble_id := bid;
     InvoiceNew.invoice_number := num;
     InvoiceNew.invoice_date := "2026-01-20";
     InvoiceNew.customer_id := None;
     InvoiceNew.customer_name_snapshot := "Sample Quotation";
     InvoiceNew.customer_phone_snapshot := None;
     InvoiceNew.customer_address_snapshot := None;
     InvoiceNew.customer_email_snapshot := None;
     InvoiceNew.package_id := "pkg_a";
     InvoiceNew.package_name_snapshot := Some "Solar 10 panels";
     InvoiceNew.template_id := None;
     InvoiceNew.discount_fixed := 0;
     InvoiceNew.discount_percent := 0;
     InvoiceNew.agent_markup := 0;
     InvoiceNew.voucher_code := None;
     InvoiceNew.voucher_amount := 0;
     InvoiceNew.sst_rate := 8;
     InvoiceNew.status := "draft";
     InvoiceNew.created_by := None;
     InvoiceNew.share_token := token;
     InvoiceNew.share_enabled := enabled;
     InvoiceNew.share_expires_at := expires;
     InvoiceNew.share_access_count := count;
     InvoiceNew.viewed_at := None;
     InvoiceNew.updated_at := Some 1768867200000000%Z;
     InvoiceNew.subtotal := 0;
     InvoiceNew.discount_amount := 0;
     InvoiceNew.sst_amount := 0;
     InvoiceNew.total_amount := 0;
     InvoiceNew.items := [] |}.

Definition invoice_row (bid num : string) (token : option string)
  (enabled : option bool) (expires : option datetime) (count : Z)
  : InvoiceNew.t :=
  counted_row bid num token enabled expires (Some count).

Definition with_invoice_rows (rows : list InvoiceNew.t) : Session :=
  session_of (with_invoices rows tables0).

(** Four shared invoices: one expiring at the very instant [now env0], one
    with sharing switched off, one expired a microsecond ago, one without
    expiry. *)
Definition expiring_now : InvoiceNew.t :=
  invoice_row "inv_a" "INV-000001" (Some "token-a") (Some true)
    (Some (now env0)) 0.

Definition disabled : InvoiceNew.t :=
  invoice_row "inv_b" "INV-000002" (Some "token-b") (Some false)
    (Some (now env0 + 1000000)%Z) 0.

Definition expired : InvoiceNew.t :=
  invoice_row "inv_c" "INV-000003" (Some "token-c") (Some true)
    (Some (now env0 - 1)%Z) 0.

Definition unlimited : InvoiceNew.t :=
  invoice_row "inv_d" "INV-000004" (Some "token-d") (Some true) None 3.

Definition shared_session : Session :=
  with_invoice_rows [expiring_now; disabled; expired; unlimited].




(** The invoice numbered INV-999999 and the one the generator numbers
    next. *)
Definition numbered_999999 : InvoiceNew.t :=
  invoice_row "inv_1" "INV-999999" None None None 0.

Definition numbered_1000000 : InvoiceNew.t :=
  invoice_row "inv_2" "INV-1000000" None None None 0.

(** The default settings with a width of 1. *)
Definition width1 : InvoiceSettings :=
  {| INVOICE_NUMBER_PREFIX := "INV";
     INVOICE_NUMBER_LENGTH := 1;
     DEFAULT_SST_RATE := 8;
     SHARE_LINK_EXPIRY_DAYS := 7 |}.

(** A row put into the invoice table as it is, whatever the table's unique
    indexes say: what the generator reads does not depend on them. *)
Definition put_row (inv : InvoiceNew.t) : M unit :=
  tb <- get_tables ;;
  put_working (with_invoices (invoices tb ++ [inv]) tb).

(** A single writer issuing [n] numbers in a row: each number is generated
    and an invoice carrying it is put into the table before the next one is
    asked for. *)
Fixpoint issue_numbers (cfg : InvoiceSettings) (n : nat) : M (list string) :=
  match n with
  | O => ret []
  | S k =>
      num <- _generate_invoice_number cfg ;;
      put_row (invoice_row ("inv_" ++ num) num None None None 0) ;;;
      rest <- issue_numbers cfg k ;;
      ret (num :: rest)
  end.

(** The numeric suffix of a row numbered under the prefix INV. *)
Definition suffix_of (r : InvoiceNew.t) : Z :=
  match PyStr.int (PyStr.remove_all "INV-" (InvoiceNew.invoice_number r)) with
  | Some n => n
  | None => 0%Z
  end.

(** An invoice at rate 8 whose only item is a discount of 500. *)
Definition discount_only_invoice : InvoiceNew.t :=
  InvoiceNew.attach
    {| InvoiceNewItem.bubble_id := "item_1";
       InvoiceNewItem.invoice_id := "inv_1";
       InvoiceNewItem.description := "Discount (RM 500)";
       InvoiceNewItem.qty := 1;
       InvoiceNewItem.unit_price := - (500);
       InvoiceNewItem.total_price := - (500);
       InvoiceNewItem.item_type := "discount";
       InvoiceNewItem.sort_order := 100 |}
    (invoice_row "inv_1" "INV-000001" None None None 0).

End Fixture.

(** *** Shapes of text *)

(** [k] copies of the character [c]. *)
Fixpoint copies (k : nat) (c : ascii) : string :=
  match k with
  | O => EmptyString
  | S k' => String c (copies k' c)
  end.

Definition starts_with_char (c : ascii) (s : string) : bool :=
  match s with
  | String d _ => Ascii.eqb d c
  | EmptyString => false
  end.

Definition ends_with_char (c : ascii) (s : string) : bool :=
  starts_with_char c (PyStr.rev s).

(** Two copies of [c] in a row somewhere in [s]. *)
Fixpoint has_double (c : ascii) (s : string) : bool :=
  match s with
  | String a r => (Ascii.eqb a c && starts_with_char c r) || has_double c r
  | EmptyString => false
  end.

(** A letter, a digit or a hyphen. *)
Definition is_letter_like (c : ascii) : bool :=
  PyMore.is_alnum c || Ascii.eqb c "-".

(** What a file name is made of: word characters, hyphens and dots. *)
Definition is_filename_char (c : ascii) : bool :=
  PdfGenerator.keeps c || Ascii.eqb c ".".

Definition space_to_underscore (c : ascii) : ascii :=
  if Ascii.eqb c " " then "_"%char else c.

(** A letter, a digit, a hyphen or a space. *)
Definition is_word_or_space (c : ascii) : bool :=
  is_letter_like c || Ascii.eqb c " ".

(** A character of one part of a discount text: no white space, no plus
    sign, no percent sign. *)
Definition is_part_char (c : ascii) : bool :=
  negb (PyStr.is_space c) && negb (Ascii.eqb c "+")
  && negb (Ascii.eqb "%" c).

(** The URL the module reads: [DATABASE_URL] when it is set and not empty,
    else [DATABASE_PRIVATE_URL]. *)
Definition configured_url (DATABASE_URL DATABASE_PRIVATE_URL : option string)
  : option string :=
  match DATABASE_URL with
  | Some (String _ _) => DATABASE_URL
  | _ => DATABASE_PRIVATE_URL
  end.

(** ** Further concrete data *)

Module Sample.

(** A second call, a day after [Fixture.env0], with tokens of its own. *)
Definition env1 : Env :=
  {| now := (1769472000000000 + 86400000000)%Z;
     today := "2026-01-28";
     customer_hex := "4e5f6a7b";
     invoice_hex := "00112233445566bb";
     share_urlsafe := "cXV1eGJhemJhcmZv";
     package_item_hex := "2000000000000001";
     fixed_item_hex := "2000000000000002";
     percent_item_hex := "2000000000000003";
     voucher_item_hex := "2000000000000004";
     fee_item_hex := "2000000000000005";
     str_decimal := fun _ => "0";
     customer_row_id := 2%Z;
     db_now := (1769472000000000 + 86400000000)%Z |}.

(** A stored customer and a session that holds it. *)
Definition aina : Customer.t :=
  {| Customer.id := 7;
     Customer.customer_id := "cust_00000007";
     Customer.name := "Aina";
     Customer.phone := Some "012-3456789";
     Customer.address := Some "Shah Alam";
     Customer.email := Some "aina@example.com";
     Customer.created_by := None |}.

(** An active default template that switches the tax off, and an active
    template that is not the default. *)
Definition default_template : InvoiceTemplate.t :=
  {| InvoiceTemplate.bubble_id := "tpl_default";
     InvoiceTemplate.apply_sst := Some false;
     InvoiceTemplate.active := Some true;
     InvoiceTemplate.is_default := Some true |}.

Definition plain_template : InvoiceTemplate.t :=
  {| InvoiceTemplate.bubble_id := "tpl_plain";
     InvoiceTemplate.apply_sst := Some true;
     InvoiceTemplate.active := Some true;
     InvoiceTemplate.is_default := Some false |}.

(** Renderers for the examples: the page is the invoice number, the PDF is
    the page, and every template names the same company. *)
Definition page_of (invoice : InvoiceNew.t)
  (template_data : option InvoiceTemplate.t)
  (share_token invoice_id : option string) : string :=
  InvoiceNew.invoice_number invoice.

Definition pdf_of (html base_url : string) : string + string := inl html.

Definition company_of (t : InvoiceTemplate.t) : string :=
  "ABC Company Sdn Bhd".

(** A conversion for the examples that reads integer literals only, on
    which it agrees with [Decimal]. *)
Definition decimal_of_int_text (text : string)
  : option InvoiceApi.decimal_value :=
  option_map (fun n => InvoiceApi.Finite (inject_Z n)) (PyStr.int text).

End Sample.

(** * Properties *)

(** ** Comparisons and sums of decimals *)

Lemma Qgtb_true (a b : Q) : Qgtb a b = true <-> b < a.
Proof.
  unfold Qgtb. rewrite negb_true_iff.
  split; intro H.
  - apply Qnot_le_lt. intro L. apply Qle_bool_iff in L. congruence.
  - destruct (Qle_bool a b) eqn:E; [|reflexivity].
    apply Qle_bool_iff in E. exfalso. apply (Qlt_not_le _ _ H E).
Qed.

Lemma Qgtb_false (a b : Q) : Qgtb a b = false <-> a <= b.
Proof.
  unfold Qgtb. rewrite negb_false_iff. apply Qle_bool_iff.
Qed.

Lemma truthy_dec_false (d : Decimal) : truthy_dec d = false <-> d == 0.
Proof.
  unfold truthy_dec. rewrite negb_false_iff. apply Qeq_bool_iff.
Qed.








(** ** Attaching items *)

Lemma attach_all_app (l1 l2 : list InvoiceNewItem.t) (inv : InvoiceNew.t) :
  attach_all (l1 ++ l2)%list inv = attach_all l2 (attach_all l1 inv).
Proof. unfold attach_all. apply fold_left_app. Qed.

Lemma items_attach_all (l : list InvoiceNewItem.t) (inv : InvoiceNew.t) :
  InvoiceNew.items (attach_all l inv) = (InvoiceNew.items inv ++ l)%list.
Proof.
  revert inv. induction l as [|it l IH]; intro inv; simpl.
  - now rewrite app_nil_r.
  - rewrite IH. simpl. now rewrite <- app_assoc.
Qed.

Lemma bubble_id_attach_all (l : list InvoiceNewItem.t) (inv : InvoiceNew.t) :
  InvoiceNew.bubble_id (attach_all l inv) = InvoiceNew.bubble_id inv.
Proof.
  revert inv. induction l as [|it l IH]; intro inv; simpl; [reflexivity|].
  now rewrite IH.
Qed.

Lemma sst_rate_attach_all (l : list InvoiceNewItem.t) (inv : InvoiceNew.t) :
  InvoiceNew.sst_rate (attach_all l inv) = InvoiceNew.sst_rate inv.
Proof.
  revert inv. induction l as [|it l IH]; intro inv; simpl; [reflexivity|].
  now rewrite IH.
Qed.

(** ** Rounding *)


Lemma pow10_scale_pos (k : nat) : 0 < inject_Z (10 ^ Z.of_nat k).
Proof.
  change 0 with (inject_Z 0). rewrite <- Zlt_Qlt.
  apply Z.pow_pos_nonneg; lia.
Qed.

(** Rounding moves a value by at most half a unit of the last decimal. *)
Lemma near_scaled (ax m n : Q) :
  0 < m -> n <= ax * m + (1 # 2) -> ax * m + (1 # 2) < n + 1 ->
  Qabs (n / m - ax) <= 1 / (2 * m).
Proof.
  intros Hm Hlo Hhi.
  assert (Hi : 0 < / m) by now apply Qinv_lt_0_compat.
  assert (E1 : n / m - ax == (n - ax * m) * / m) by (field; lra).
  assert (E2 : 1 / (2 * m) == (1 # 2) * / m) by (field; lra).
  rewrite E1, E2. apply Qabs_Qle_condition.
  generalize dependent (ax * m). intros t Hlo Hhi E1. split.
  - setoid_replace (- ((1 # 2) * / m)) with ((- (1 # 2)) * / m) by ring.
    apply Qmult_le_compat_r; [clear - Hlo Hhi; lra|now apply Qlt_le_weak].
  - apply Qmult_le_compat_r; [clear - Hlo Hhi; lra|now apply Qlt_le_weak].
Qed.

Lemma round_half_away_near (k : nat) (x : Q) :
  Qabs (round_half_away k x - x) <= 1 / (2 * inject_Z (10 ^ Z.of_nat k)).
Proof.
  unfold round_half_away.
  pose proof (pow10_scale_pos k) as Hm.
  pose proof (Qfloor_le (Qabs x * inject_Z (10 ^ Z.of_nat k) + 1 / 2))
    as Hlo.
  pose proof (Qlt_floor (Qabs x * inject_Z (10 ^ Z.of_nat k) + 1 / 2))
    as Hhi.
  rewrite inject_Z_plus in Hhi. change (inject_Z 1) with 1 in Hhi.
  change (1 / 2) with (1 # 2) in *.
  pose proof (near_scaled _ _ _ Hm Hlo Hhi) as Hn.
  destruct (Qle_bool 0 x) eqn:Ex.
  - apply Qle_bool_iff in Ex. rewrite (Qabs_pos x Ex) in Hn at 2.
    exact Hn.
  - assert (Hx : x <= 0).
    { destruct (Qlt_le_dec x 0) as [L|L]; [lra|].
      apply Qle_bool_iff in L. congruence. }
    rewrite (Qabs_neg x Hx) in Hn at 2.
    match goal with
    | |- Qabs (- ?q - x) <= _ =>
        setoid_replace (- q - x) with (- (q - - x)) by ring
    end.
    rewrite Qabs_opp. exact Hn.
Qed.

Lemma scaled_floor_nonneg (k : nat) (x : Q) :
  (0 <= Qfloor (Qabs x * inject_Z (10 ^ Z.of_nat k) + 1 / 2))%Z.
Proof.
  change 0%Z with (Qfloor 0). apply Qfloor_resp_le.
  change (1 / 2) with (1 # 2).
  assert (H : 0 <= Qabs x * inject_Z (10 ^ Z.of_nat k)).
  { apply Qmult_le_0_compat; [apply Qabs_nonneg|].
    apply Qlt_le_weak, pow10_scale_pos. }
  revert H. generalize (Qabs x * inject_Z (10 ^ Z.of_nat k)). intros t H.
  lra.
Qed.

Lemma scaled_nonneg (k : nat) (n : Z) :
  (0 <= n)%Z -> 0 <= inject_Z n / inject_Z (10 ^ Z.of_nat k).
Proof.
  intro H. apply Qle_shift_div_l; [apply pow10_scale_pos|].
  rewrite Qmult_0_l. change 0 with (inject_Z 0). now rewrite <- Zle_Qle.
Qed.




Lemma round_half_away_nonpos (k : nat) (x : Q) :
  x <= 0 -> round_half_away k x <= 0.
Proof.
  intro H. unfold round_half_away.
  pose proof (scaled_nonneg k _ (scaled_floor_nonneg k x)) as Hn.
  destruct (Qle_bool 0 x) eqn:Ex.
  - apply Qle_bool_iff in Ex. assert (E : x == 0) by lra.
    assert (E0 : Qfloor (Qabs x * inject_Z (10 ^ Z.of_nat k) + 1 / 2)
                 = 0%Z).
    { transitivity (Qfloor (1 # 2)); [|reflexivity].
      apply Qfloor_comp. rewrite E. change (Qabs 0) with 0.
      change (1 / 2) with (1 # 2). ring. }
    rewrite E0. unfold Qdiv. rewrite Qmult_0_l. lra.
  - revert Hn. generalize (inject_Z
        (Qfloor (Qabs x * inject_Z (10 ^ Z.of_nat k) + 1 / 2))
      / inject_Z (10 ^ Z.of_nat k)).
    intros t Ht. lra.
Qed.



(** A column that takes a value keeps it rounded. *)
Lemma holds_numeric (p : nat) (x : Q) :
  holds p x = true -> numeric p 2 x = Some (round_half_away 2 x).
Proof.
  unfold holds, numeric.
  destruct (Qle_bool _ (Qabs (round_half_away 2 x))); [discriminate|].
  reflexivity.
Qed.

Lemma holds_bound (p : nat) (x : Q) :
  holds p x = true ->
  Qabs (round_half_away 2 x) < inject_Z (10 ^ Z.of_nat (p - 2)).
Proof.
  unfold holds, numeric.
  destruct (Qle_bool _ (Qabs (round_half_away 2 x))) eqn:E; [discriminate|].
  intros _. apply Qnot_le_lt. intro H. apply Qle_bool_iff in H. congruence.
Qed.

(** ** The monad *)

Lemma bind_ok {A B : Type} (m : M A) (k : A -> M B) (s : Session) (b : B)
  (s' : Session) :
  bind m k s = (Ok b, s') ->
  exists x s1, m s = (Ok x, s1) /\ k x s1 = (Ok b, s').
Proof.
  unfold bind. destruct (m s) as [[x|e] s1]; [|discriminate].
  intro H. now exists x, s1.
Qed.


Lemma existsb_find {A : Type} (f : A -> bool) (l : list A) :
  existsb f l = false <-> find f l = None.
Proof.
  induction l as [|x l IH]; [now split|].
  cbn [existsb find]. destruct (f x); cbn; [split; discriminate|exact IH].
Qed.
(** ** The steps of [create_on_the_fly] *)

Section Steps.

Variable cfg : InvoiceSettings.
Variable env : Env.

Lemma resolved_voucher_amount_ext (tb tb' : Tables) (a : Args.t)
  (P : Decimal) :
  vouchers tb' = vouchers tb ->
  resolved_voucher_amount tb' a P = resolved_voucher_amount tb a P.
Proof.
  intro H. unfold resolved_voucher_amount, find_voucher. now rewrite H.
Qed.

Lemma resolve_template_id_ext (tb tb' : Tables) (a : Args.t) :
  templates tb' = templates tb ->
  resolve_template_id tb' a = resolve_template_id tb a.
Proof. intro H. unfold resolve_template_id. now rewrite H. Qed.

Lemma resolve_sst_rate_ext (tb tb' : Tables) (a : Args.t)
  (t : option string) :
  templates tb' = templates tb ->
  resolve_sst_rate cfg tb' a t = resolve_sst_rate cfg tb a t.
Proof. intro H. unfold resolve_sst_rate. now rewrite H. Qed.

Lemma generate_invoice_number_run (s : Session) :
  exists n, _generate_invoice_number cfg s = (Ok n, s).
Proof. eexists. reflexivity. Qed.

Lemma generate_invoice_number_frame (s s1 : Session) :
  invoices (working s1) = invoices (working s) ->
  exists n,
    _generate_invoice_number cfg s1 = (Ok n, s1)
    /\ _generate_invoice_number cfg s = (Ok n, s).
Proof.
  intro H. unfold _generate_invoice_number, bind, get_tables, ret.
  rewrite H. eexists. split; reflexivity.
Qed.

(** The lines depend on the invoice through its [bubble_id] only. *)
Lemma line_item_ext (i j : InvoiceNew.t) (hex d : string) (amt : Decimal)
  (ty : string) (k : Z) :
  InvoiceNew.bubble_id i = InvoiceNew.bubble_id j ->
  line_item i hex d amt ty k = line_item j hex d amt ty k.
Proof. intro H. unfold line_item. now rewrite H. Qed.

Lemma created_lines_ext (package : Package.t) (P : Decimal) (a : Args.t)
  (v : Decimal) (i j : InvoiceNew.t) :
  InvoiceNew.bubble_id i = InvoiceNew.bubble_id j ->
  package_line env package a i = package_line env package a j
  /\ fixed_lines env a i = fixed_lines env a j
  /\ percent_lines env P a i = percent_lines env P a j
  /\ voucher_lines env a v i = voucher_lines env a v j
  /\ fee_lines env a i = fee_lines env a j
  /\ created_lines env package P a v i
     = created_lines env package P a v j.
Proof.
  intro H.
  unfold created_lines, package_line, percent_lines, voucher_lines,
    fee_lines, fixed_lines, line_item.
  rewrite H. repeat split.
Qed.

Lemma line_item_attach_all (l : list InvoiceNewItem.t) (inv : InvoiceNew.t)
  (hex d : string) (amt : Decimal) (ty : string) (k : Z) :
  line_item (attach_all l inv) hex d amt ty k = line_item inv hex d amt ty k.
Proof. unfold line_item. now rewrite bubble_id_attach_all. Qed.

(** *** Step 2: the customer *)


Lemma handle_customer_ok (a : Args.t) (s : Session)
  (customer : option Z * string * option string * option string
              * option string) (s1 : Session) :
  handle_customer env a s = (Ok customer, s1) ->
  committed s1 = committed s
  /\ users (working s1) = users (working s)
  /\ packages (working s1) = packages (working s)
  /\ vouchers (working s1) = vouchers (working s)
  /\ templates (working s1) = templates (working s)
  /\ invoices (working s1) = invoices (working s)
  /\ invoice_items (working s1) = invoice_items (working s)
  /\ match Args.customer_name a with
     | Some cname =>
         if truthy_str cname then
           match find_customer (working s) cname with
           | Some c =>
               customers (working s1) = customers (working s)
               /\ customer = (Some (Customer.id c), Customer.name c,
                              Customer.phone c, Customer.address c,
                              Customer.email c)
           | None =>
               customers (working s1)
               = (customers (working s) ++ [new_customer env a cname])%list
               /\ customer = (Some (customer_row_id env), cname,
                              Args.customer_phone a,
                              Args.customer_address a, None)
               /\ (forall old, In old (customers (working s)) ->
                     Customer.id old <> customer_row_id env
                     /\ Customer.customer_id old
                        <> "cust_" ++ customer_hex env)
           end
         else
           customers (working s1) = customers (working s)
           /\ customer = (None, "Sample Quotation", Args.customer_phone a,
                          Args.customer_address a, None)
     | None =>
         customers (working s1) = customers (working s)
         /\ customer = (None, "Sample Quotation", Args.customer_phone a,
                        Args.customer_address a, None)
     end.
Proof.
  unfold handle_customer, find_customer, new_customer.
  destruct (Args.customer_name a) as [cname|].
  - destruct (truthy_str cname).
    + unfold bind at 1. cbn [get_tables].
      destruct (find _ (customers (working s))) as [c|].
      * intro H. injection H as <- <-. repeat split.
      * unfold bind at 1. unfold insert_customer, bind at 1.
        cbn [get_tables Customer.created_by Customer.id
             Customer.customer_id].
        destruct (created_by_out_of_range (Args.created_by a));
          [discriminate|].
        destruct (existsb _ (customers (working s))) eqn:Eid;
          [discriminate|].
        destruct (existsb (fun x => String.eqb (Customer.customer_id x) _)
                    (customers (working s))) eqn:Ecid; [discriminate|].
        destruct (created_by_unknown (working s) (Args.created_by a));
          [discriminate|].
        cbn [put_working ret]. intro H. injection H as <- <-.
        repeat split; cbn.
        -- intro Hid.
           pose proof (proj1 (existsb_find _ _) Eid) as F.
           apply (find_none _ _ F) in H. cbn in H.
           rewrite Hid, Z.eqb_refl in H. discriminate H.
        -- intro Hcid.
           pose proof (proj1 (existsb_find _ _) Ecid) as F.
           apply (find_none _ _ F) in H. cbn in H.
           rewrite Hcid, String.eqb_refl in H. discriminate H.
    + intro H. injection H as <- <-. repeat split.
  - intro H. injection H as <- <-. repeat split.
Qed.


(** *** Step 3: the voucher *)

Lemma handle_voucher_ok (a : Args.t) (package : Package.t) (s : Session)
  (v : Decimal) (s1 : Session) :
  handle_voucher a package s = (Ok v, s1) ->
  s1 = s
  /\ v = resolved_voucher_amount (working s) a (price_or_zero package).
Proof.
  unfold handle_voucher, resolved_voucher_amount, price_or_zero.
  destruct (Args.voucher_code a) as [code|];
    [|intro H; injection H as <- <-; now split].
  unfold truthy_ostr, or_str.
  destruct (truthy_str code) eqn:Hc;
    [|intro H; injection H as <- <-; now split].
  unfold bind, get_tables.
  destruct (find_voucher (working s) code) as [vo|];
    [|intro H; injection H as <- <-; now split].
  unfold amount_of_voucher, price_times.
  destruct (Voucher.discount_amount vo) as [amt|]; cbn [truthy_odec].
  - destruct (truthy_dec amt); [intro H; injection H as <- <-; now split|].
    destruct (Voucher.discount_percent vo) as [pct|]; cbn [truthy_oint];
      [|intro H; injection H as <- <-; now split].
    destruct (negb (pct =? 0)%Z);
      [|intro H; injection H as <- <-; now split].
    destruct (Package.price package);
      [intro H; injection H as <- <-; now split|discriminate].
  - destruct (Voucher.discount_percent vo) as [pct|]; cbn [truthy_oint];
      [|intro H; injection H as <- <-; now split].
    destruct (negb (pct =? 0)%Z);
      [|intro H; injection H as <- <-; now split].
    destruct (Package.price package);
      [intro H; injection H as <- <-; now split|discriminate].
Qed.


(** *** Step 5: the invoice row *)

Lemma insert_invoice_ok (at_ : datetime) (inv : InvoiceNew.t) (s : Session)
  (u : unit) (s1 : Session) :
  insert_invoice at_ inv s = (Ok u, s1) ->
  committed s1 = committed s
  /\ users (working s1) = users (working s)
  /\ packages (working s1) = packages (working s)
  /\ customers (working s1) = customers (working s)
  /\ vouchers (working s1) = vouchers (working s)
  /\ templates (working s1) = templates (working s)
  /\ invoice_items (working s1) = invoice_items (working s)
  /\ invoices (working s1)
     = (invoices (working s) ++ [InvoiceNew.as_stored at_ [] inv])%list
  /\ InvoiceNew.header_in_range inv = true
  /\ find_by_id (working s) (InvoiceNew.bubble_id inv) = None
  /\ number_is_new (working s) (InvoiceNew.invoice_number inv)
  /\ (forall t, InvoiceNew.share_token inv = Some t ->
                find_by_token (working s) t = None).
Proof.
  unfold insert_invoice, bind. cbn [get_tables].
  destruct (InvoiceNew.header_in_range inv) eqn:Eh; [|discriminate].
  cbn [negb].
  destruct (created_by_out_of_range (InvoiceNew.created_by inv));
    [discriminate|].
  destruct (existsb _ (invoices (working s))) eqn:Eid; [discriminate|].
  destruct (existsb (fun x => String.eqb (InvoiceNew.invoice_number x) _)
              (invoices (working s))) eqn:Enum; [discriminate|].
  destruct (match InvoiceNew.share_token inv with
            | Some t => _
            | None => false
            end) eqn:Etok; [discriminate|].
  destruct (created_by_unknown (working s) (InvoiceNew.created_by inv));
    [discriminate|].
  cbn [put_working]. intro H. injection H as <- <-.
  repeat split.
  - apply existsb_find. exact Eid.
  - apply existsb_find. exact Enum.
  - intros t Ht. rewrite Ht in Etok. apply existsb_find. exact Etok.
Qed.


(** *** Step 6: the items *)

Lemma add_package_item_eq (package : Package.t) (a : Args.t)
  (inv base : InvoiceNew.t) (s : Session) :
  InvoiceNew.bubble_id inv = InvoiceNew.bubble_id base ->
  add_package_item env package a inv s
  = (Ok (attach_all [package_line env package a base] inv), s).
Proof.
  intro B. unfold package_line, package_unit_price, line_item. rewrite <- B.
  reflexivity.
Qed.

Lemma add_discount_items_ok (package : Package.t) (a : Args.t)
  (inv base : InvoiceNew.t) (s : Session) (r : InvoiceNew.t * Z)
  (s1 : Session) :
  InvoiceNew.bubble_id inv = InvoiceNew.bubble_id base ->
  add_discount_items env package a inv s = (Ok r, s1) ->
  s1 = s
  /\ fst r
     = attach_all
         (fixed_lines env a base
          ++ percent_lines env (price_or_zero package) a base) inv.
Proof.
  intro B.
  unfold add_discount_items, percent_lines, fixed_lines, price_times,
    price_or_zero, line_item, add_item.
  rewrite <- B.
  destruct (truthy_dec (Args.discount_fixed a)
            && Qgtb (Args.discount_fixed a) 0);
    destruct (truthy_dec (Args.discount_percent a)
              && Qgtb (Args.discount_percent a) 0);
    destruct (Package.price package);
    cbn; intro H; try discriminate H; injection H as <- <-; now split.
Qed.


Lemma add_voucher_item_eq (a : Args.t) (v : Decimal)
  (inv base : InvoiceNew.t) (s : Session) :
  InvoiceNew.bubble_id inv = InvoiceNew.bubble_id base ->
  add_voucher_item env a v inv s
  = (Ok (attach_all (voucher_lines env a v base) inv), s).
Proof.
  intro B. unfold add_voucher_item, voucher_lines, line_item.
  rewrite <- B.
  destruct (truthy_ostr (Args.voucher_code a) && Qgtb v 0); reflexivity.
Qed.

Lemma add_epp_fee_item_eq (a : Args.t) (inv base : InvoiceNew.t)
  (s : Session) :
  InvoiceNew.bubble_id inv = InvoiceNew.bubble_id base ->
  add_epp_fee_item env a inv s
  = (Ok (attach_all (fee_lines env a base) inv), s).
Proof.
  intro B. unfold add_epp_fee_item, fee_lines, line_item.
  rewrite <- B.
  destruct (Args.epp_fee_amount a) as [fee|]; [|reflexivity].
  destruct (truthy_dec fee && Qgtb fee 0
            && truthy_ostr (Args.epp_fee_description a)); reflexivity.
Qed.

End Steps.
(** ** A creation, from the first step to the last *)

Section Creation.

Variable cfg : InvoiceSettings.
Variable env : Env.

(** What [_calculate_invoice_totals] leaves in the invoice.  It always
    returns. *)
Lemma calculate_invoice_totals_run (invoice : InvoiceNew.t) (s : Session) :
  exists inv' s',
    _calculate_invoice_totals invoice s = (Ok inv', s')
    /\ InvoiceNew.subtotal inv'
       = match items_of (working s) invoice with
         | [] => 0
         | its => py_sum (map InvoiceNewItem.total_price its)
         end
    /\ InvoiceNew.sst_amount inv'
       = (if Qgtb (InvoiceNew.subtotal inv') 0
          then InvoiceNew.subtotal inv'
               * (InvoiceNew.sst_rate invoice / 100)
          else 0)
    /\ InvoiceNew.total_amount inv'
       = InvoiceNew.subtotal inv' + InvoiceNew.sst_amount inv'
    /\ InvoiceNew.voucher_amount inv'
       = py_sum (map (fun it => Qabs (InvoiceNewItem.total_price it))
                   (filter (has_type "voucher")
                      (items_of (working s) invoice)))
    /\ InvoiceNew.discount_amount inv'
       = py_sum (map (fun it => Qabs (InvoiceNewItem.total_price it))
                   (filter (has_type "discount")
                      (items_of (working s) invoice)))
    /\ InvoiceNew.sst_rate inv' = InvoiceNew.sst_rate invoice
    /\ InvoiceNew.items inv' = InvoiceNew.items invoice
    /\ InvoiceNew.bubble_id inv' = InvoiceNew.bubble_id invoice
    /\ same_reference s s'.
Proof.
  eexists _, _. split.
  { cbv beta iota zeta
      delta [_calculate_invoice_totals bind get_tables flush_invoice
             put_working ret].
    reflexivity. }
  cbn [InvoiceNew.subtotal InvoiceNew.sst_amount InvoiceNew.total_amount
       InvoiceNew.voucher_amount InvoiceNew.discount_amount
       InvoiceNew.sst_rate InvoiceNew.items InvoiceNew.bubble_id
       InvoiceNew.set_totals].
  destruct (items_of (working s) invoice); repeat split.
Qed.

Lemma same_header_attach_all (l : list InvoiceNewItem.t)
  (inv : InvoiceNew.t) : same_header (attach_all l inv) inv.
Proof.
  revert inv. induction l as [|it l IH]; intro inv; [repeat split|].
  cbn [attach_all fold_left].
  specialize (IH (InvoiceNew.attach it inv)). unfold attach_all in IH.
  unfold same_header in *.
  repeat match type of IH with
         | _ /\ _ => let H := fresh "A" in destruct IH as [H IH]; rewrite H
         end.
  rewrite IH. repeat split.
Qed.

(** What [_calculate_invoice_totals] does to an invoice that has items. *)
Lemma calculate_invoice_totals_trace (invoice : InvoiceNew.t)
  (s : Session) :
  InvoiceNew.items invoice <> [] ->
  exists fin s',
    _calculate_invoice_totals invoice s = (Ok fin, s')
    /\ InvoiceNew.subtotal fin
       = py_sum (map InvoiceNewItem.total_price (InvoiceNew.items invoice))
    /\ InvoiceNew.discount_amount fin
       = py_sum (map (fun it => Qabs (InvoiceNewItem.total_price it))
                   (filter (has_type "discount")
                      (InvoiceNew.items invoice)))
    /\ InvoiceNew.voucher_amount fin
       = py_sum (map (fun it => Qabs (InvoiceNewItem.total_price it))
                   (filter (has_type "voucher")
                      (InvoiceNew.items invoice)))
    /\ InvoiceNew.sst_amount fin
       = (if Qgtb (InvoiceNew.subtotal fin) 0
          then InvoiceNew.subtotal fin * (InvoiceNew.sst_rate invoice / 100)
          else 0)
    /\ InvoiceNew.total_amount fin
       = InvoiceNew.subtotal fin + InvoiceNew.sst_amount fin
    /\ InvoiceNew.items fin = InvoiceNew.items invoice
    /\ same_header fin invoice
    /\ committed s' = committed s
    /\ users (working s') = users (working s)
    /\ packages (working s') = packages (working s)
    /\ customers (working s') = customers (working s)
    /\ vouchers (working s') = vouchers (working s)
    /\ templates (working s') = templates (working s)
    /\ invoice_items (working s') = invoice_items (working s)
    /\ invoices (working s') = replace_invoice fin (invoices (working s)).
Proof.
  intro Hne. eexists _, _. split.
  { cbv beta iota zeta
      delta [_calculate_invoice_totals bind get_tables flush_invoice
             put_working ret].
    reflexivity. }
  unfold items_of.
  destruct (InvoiceNew.items invoice) as [|it its] eqn:Ei; [congruence|].
  cbn [InvoiceNew.subtotal InvoiceNew.sst_amount InvoiceNew.total_amount
       InvoiceNew.voucher_amount InvoiceNew.discount_amount
       InvoiceNew.sst_rate InvoiceNew.items InvoiceNew.bubble_id
       InvoiceNew.set_totals committed working users packages customers
       vouchers templates invoices invoice_items with_invoices].
  unfold same_header. cbn. rewrite Ei. repeat split.
Qed.

(** *** The flush of the commit *)

Lemma insert_items_ok (pending rows rows' : list InvoiceNewItem.t) :
  insert_items rows pending = inr rows' ->
  rows' = (rows ++ map InvoiceNewItem.as_stored pending)%list
  /\ forallb InvoiceNewItem.in_range pending = true.
Proof.
  revert rows. induction pending as [|it rest IH]; intros rows H.
  - cbn in H. injection H as <-. rewrite app_nil_r. now split.
  - cbn [insert_items] in H.
    destruct (InvoiceNewItem.in_range it) eqn:Er; [|discriminate H].
    cbn [negb] in H.
    destruct (existsb _ rows); [discriminate H|].
    destruct (IH _ H) as [-> Hr]. cbn [map forallb].
    rewrite Er, Hr, <- app_assoc. now split.
Qed.


Lemma flush_created_ok (at_ : datetime) (fin : InvoiceNew.t) (s : Session)
  (u : unit) (s1 : Session) :
  flush_created at_ fin s = (Ok u, s1) ->
  InvoiceNew.totals_in_range fin = true
  /\ forallb InvoiceNewItem.in_range (InvoiceNew.items fin) = true
  /\ committed s1 = committed s
  /\ users (working s1) = users (working s)
  /\ packages (working s1) = packages (working s)
  /\ customers (working s1) = customers (working s)
  /\ vouchers (working s1) = vouchers (working s)
  /\ templates (working s1) = templates (working s)
  /\ invoice_items (working s1)
     = (invoice_items (working s)
          ++ map InvoiceNewItem.as_stored (InvoiceNew.items fin))%list
  /\ invoices (working s1)
     = replace_invoice
         (InvoiceNew.as_stored at_
            (map InvoiceNewItem.as_stored (InvoiceNew.items fin)) fin)
         (invoices (working s)).
Proof.
  unfold flush_created, bind. cbn [get_tables].
  destruct (InvoiceNew.totals_in_range fin); [|discriminate].
  cbn [negb].
  destruct (insert_items (invoice_items (working s)) (InvoiceNew.items fin))
    as [e|rows] eqn:Ei; [discriminate|].
  apply insert_items_ok in Ei. destruct Ei as [-> Hr].
  cbn [put_working]. intro H. injection H as <- <-.
  repeat split. exact Hr.
Qed.


(** *** Rows that are looked up by a key *)

Lemma find_app_last {A : Type} (f : A -> bool) (l : list A) (x : A) :
  find f l = None -> f x = true -> find f (l ++ [x]) = Some x.
Proof.
  intros Hn Hx. induction l as [|y l IH].
  - cbn. now rewrite Hx.
  - cbn [find] in Hn. cbn [app find].
    destruct (f y); [discriminate Hn|]. now apply IH.
Qed.

Lemma find_app_first {A : Type} (f : A -> bool) (l : list A) (x : A) :
  f x = false -> find f (l ++ [x]) = find f l.
Proof.
  intro Hx. induction l as [|y l IH].
  - cbn. now rewrite Hx.
  - cbn [app find]. destruct (f y); [reflexivity|exact IH].
Qed.

Lemma replace_invoice_fresh (inv' inv0 : InvoiceNew.t)
  (l : list InvoiceNew.t) :
  InvoiceNew.bubble_id inv' = InvoiceNew.bubble_id inv0 ->
  find (fun i => String.eqb (InvoiceNew.bubble_id i)
                   (InvoiceNew.bubble_id inv0)) l = None ->
  replace_invoice inv' (l ++ [inv0]) = (l ++ [inv'])%list.
Proof.
  intros B F. induction l as [|x l IH].
  - cbn [app replace_invoice]. rewrite B, String.eqb_refl. reflexivity.
  - cbn [find] in F. cbn [app replace_invoice]. rewrite B.
    destruct (String.eqb (InvoiceNew.bubble_id x)
                (InvoiceNew.bubble_id inv0)); [discriminate F|].
    f_equal. apply IH. exact F.
Qed.

(** *** The call as a whole *)

(** Everything a call of [create_on_the_fly] that returns has done. *)
Lemma create_on_the_fly_returned (a : Args.t) (s : Session)
  (inv : InvoiceNew.t) (s' : Session) :
  create_on_the_fly cfg env a s = (Ok inv, s') ->
  exists package customer s1 fin,
    Created cfg env a s inv s' package customer s1 fin.
Proof.
  intro E. unfold create_on_the_fly in E.
  apply bind_ok in E. destruct E as (tb & s0 & E0 & E).
  cbv [get_tables] in E0. injection E0 as <- <-.
  destruct (find _ (packages (working s))) as [package|] eqn:Fp;
    [|discriminate E].
  apply bind_ok in E. destruct E as (customer & s1 & Ec & E).
  pose proof (handle_customer_ok env a s customer s1 Ec)
    as (C1 & C2 & C3 & C4 & C5 & C6 & C7 & _).
  destruct customer as [[[[cid cname] cphone] caddr] cemail].
  cbv beta iota in E.
  apply bind_ok in E. destruct E as (v & s2 & Ev & E).
  apply handle_voucher_ok in Ev. destruct Ev as (-> & ->).
  apply bind_ok in E. destruct E as (tb & s0 & E0 & E).
  cbv [get_tables] in E0. injection E0 as <- <-.
  cbv zeta in E.
  apply bind_ok in E. destruct E as (num & s0 & En & E).
  destruct (generate_invoice_number_frame cfg s s1 C6) as (n & En1 & En0).
  rewrite En1 in En. injection En as <- <-.
  match type of E with
  | bind (insert_invoice _ ?b) _ _ = _ => set (base := b) in E
  end.
  apply bind_ok in E. destruct E as (u & s2 & Ei & E).
  apply insert_invoice_ok in Ei.
  destruct Ei as (I1 & I2 & I3 & I4 & I5 & I6 & I7 & I8 & I9 & I10 & I11
                  & I12).
  set (P := price_or_zero package) in *.
  set (v := resolved_voucher_amount (working s1) a P) in *.
  assert (Ev : v = resolved_voucher_amount (working s) a P)
    by (apply resolved_voucher_amount_ext; exact C4).
  apply bind_ok in E. destruct E as (inv1 & s3 & E1 & E).
  rewrite (add_package_item_eq env package a base base s2 eq_refl) in E1.
  injection E1 as <- <-.
  apply bind_ok in E. destruct E as (r & s3 & E2 & E).
  apply (add_discount_items_ok env package a _ base) in E2;
    [|reflexivity].
  destruct E2 as (-> & E2). cbv zeta in E. rewrite E2 in E. clear E2 r.
  fold P in E.
  apply bind_ok in E. destruct E as (inv3 & s3 & E3 & E).
  rewrite (add_voucher_item_eq env a v _ base) in E3
    by (now rewrite !bubble_id_attach_all).
  injection E3 as <- <-.
  apply bind_ok in E. destruct E as (inv4 & s3 & E4 & E).
  rewrite (add_epp_fee_item_eq env a _ base) in E4
    by (now rewrite !bubble_id_attach_all).
  injection E4 as <- <-.
  set (lines := created_lines env package P a v base) in *.
  set (pending := attach_all lines base) in *.
  match type of E with
  | bind (_calculate_invoice_totals ?x) _ _ = _ =>
      assert (Hpre : x = pending)
  end.
  { unfold pending, lines, created_lines.
    change (package_line env package a base
              :: fixed_lines env a base ++ percent_lines env P a base
                 ++ voucher_lines env a v base ++ fee_lines env a base)%list
      with ([package_line env package a base]
              ++ fixed_lines env a base ++ percent_lines env P a base
                 ++ voucher_lines env a v base ++ fee_lines env a base)%list.
    rewrite (app_assoc (fixed_lines env a base)).
    rewrite !attach_all_app. reflexivity. }
  rewrite Hpre in E. clear Hpre.
  assert (Hlines : lines = created_lines env package P a v base)
    by reflexivity.
  assert (Hitems : InvoiceNew.items pending = lines).
  { unfold pending. rewrite items_attach_all. reflexivity. }
  apply bind_ok in E. destruct E as (fin & s3 & Ef & E).
  destruct (calculate_invoice_totals_trace pending s2) as
    (fin' & s3' & Ef' & T1 & T2 & T3 & T4 & T5 & T6 & T7 & T8 & T9 & T10
     & T11 & T12 & T13 & T14 & T15).
  { rewrite Hitems, Hlines. discriminate. }
  rewrite Ef' in Ef. injection Ef as <- <-.
  assert (Hh : same_header fin' base).
  { pose proof (same_header_attach_all lines base) as Hb.
    fold pending in Hb. unfold same_header in *.
    repeat match type of T7 with
           | _ /\ _ =>
               let H := fresh "A" in destruct T7 as [H T7]; rewrite H
           end.
    rewrite T7. exact Hb. }
  assert (Hb : InvoiceNew.bubble_id fin' = InvoiceNew.bubble_id base)
    by apply Hh.
  apply bind_ok in E. destruct E as (u2 & s4 & Efl & E).
  apply flush_created_ok in Efl.
  destruct Efl as (F1 & F2 & F3 & F4 & F5 & F6 & F7 & F8 & F9 & F10).
  apply bind_ok in E. destruct E as (u3 & s5 & Eco & E).
  cbv [commit] in Eco. injection Eco as <- <-.
  apply bind_ok in E. destruct E as (row & s6 & Er & E).
  cbv [ret] in E. injection E as <- <-.
  set (stored := InvoiceNew.as_stored (db_now env)
                   (map InvoiceNewItem.as_stored (InvoiceNew.items fin'))
                   fin') in *.
  assert (Hinv : invoices (working s4)
                 = (invoices (working s) ++ [stored])%list).
  { rewrite F10, T15, I8, C6.
    rewrite (replace_invoice_fresh fin' (InvoiceNew.as_stored (db_now env) [] base));
      [|exact Hb|rewrite <- C6; exact I10].
    apply replace_invoice_fresh; [reflexivity|].
    rewrite Hb, <- C6. exact I10. }
  assert (Hrow : row = stored /\ s6 = {| committed := working s4;
                                         working := working s4 |}).
  { unfold refresh, bind in Er. cbn [get_tables working] in Er.
    rewrite Hinv in Er.
    rewrite (find_app_last _ _ stored) in Er.
    - cbn [ret] in Er. injection Er as <- <-. now split.
    - rewrite Hb, <- C6. exact I10.
    - cbn. rewrite Hb. apply String.eqb_refl. }
  destruct Hrow as [-> ->].
  exists package, (cid, cname, cphone, caddr, cemail), s1, fin'.
  unfold same_header in Hh.
  destruct Hh as (H1 & H2 & H3 & H4 & H5 & H6 & H7 & H8 & H9 & H10 & H11
                  & H12 & H13 & H14 & H15 & H16 & H17 & H18 & H19 & H20
                  & H21 & H22 & H23 & H24).
  constructor.
  - exact Fp.
  - exact Ec.
  - rewrite H4, H5, H6, H7, H8. reflexivity.
  - fold P. rewrite T6, Hitems, Hlines, <- Ev.
    apply (created_lines_ext env package P a v base fin'). now symmetry.
  - eexists _, _, _. exact Ef'.
  - rewrite T1, T6. reflexivity.
  - rewrite T2, T6. reflexivity.
  - rewrite T3, T6. reflexivity.
  - rewrite T4. f_equal. unfold pending. rewrite sst_rate_attach_all.
    now rewrite H11.
  - exact T5.
  - rewrite H11. cbn [base InvoiceNew.sst_rate].
    rewrite (resolve_template_id_ext _ _ a C5).
    apply resolve_sst_rate_ext. exact C5.
  - rewrite H10. cbn [base InvoiceNew.template_id].
    apply resolve_template_id_ext. exact C5.
  - rewrite H1. reflexivity.
  - rewrite H2. exact En0.
  - rewrite H3. reflexivity.
  - rewrite H9. reflexivity.
  - rewrite H18. reflexivity.
  - rewrite H19. reflexivity.
  - rewrite H20. reflexivity.
  - rewrite H21. reflexivity.
  - rewrite H22. reflexivity.
  - rewrite H12. reflexivity.
  - rewrite H23. reflexivity.
  - rewrite H13. reflexivity.
  - rewrite H14. reflexivity.
  - rewrite H15. reflexivity.
  - rewrite H16. reflexivity.
  - rewrite H17. reflexivity.
  - reflexivity.
  - reflexivity.
  - cbn [working]. rewrite F4, T9, I2. exact C2.
  - cbn [working]. rewrite F5, T10, I3. exact C3.
  - cbn [working]. rewrite F7, T12, I5. exact C4.
  - cbn [working]. rewrite F8, T13, I6. exact C5.
  - cbn [working]. rewrite F6, T11, I4. reflexivity.
  - exact Hinv.
  - cbn [working]. rewrite F9, T14, I7, C7. reflexivity.
  - cbn [stored InvoiceNew.as_stored InvoiceNew.bubble_id].
    unfold find_by_id in *. rewrite Hb, <- C6. exact I10.
  - unfold find_by_token in *. rewrite <- C6.
    apply (I12 (share_urlsafe env)). reflexivity.
  - cbn [stored InvoiceNew.as_stored InvoiceNew.invoice_number].
    rewrite H2. unfold number_is_new. rewrite <- C6. exact I11.
  - unfold InvoiceNew.header_in_range in I9.
    cbn [base InvoiceNew.agent_markup InvoiceNew.sst_rate
         InvoiceNew.discount_fixed InvoiceNew.discount_percent
         InvoiceNew.voucher_amount] in I9.
    fold P. rewrite H11. cbn [base InvoiceNew.sst_rate]. rewrite <- Ev.
    exact I9.
  - exact F1.
  - exact F2.
Qed.



End Creation.
(** ** The sum of the lines of a created invoice *)

Section Sums.

Variable env : Env.









End Sums.

(** ** C1: the subtotal of a created invoice *)

Section Subtotal.

Variable cfg : InvoiceSettings.
Variable env : Env.


End Subtotal.


(** In that scenario the subtotal is 950. *)
Example scenario_voucher_subtotal :
  exists inv s',
    create_on_the_fly invoice_settings Fixture.env0 Fixture.args_voucher
      Fixture.session0 = (Ok inv, s')
    /\ InvoiceNew.subtotal inv == 950
    /\ InvoiceNew.sst_amount inv == 76
    /\ InvoiceNew.total_amount inv == 1026.
Proof.
  eexists _, _. split; [vm_compute; reflexivity|].
  repeat split; vm_compute; reflexivity.
Qed.

(** ** C2 and C10: tax and total *)

Section Totals.

Variable cfg : InvoiceSettings.
Variable env : Env.

(** The rate step 4 stores is the default rate when the tax applies, and
    zero otherwise. *)
Lemma resolve_sst_rate_tax_applies (tb : Tables) (a : Args.t) :
  resolve_sst_rate cfg tb a (resolve_template_id tb a)
  = if tax_applies tb a then DEFAULT_SST_RATE cfg else 0.
Proof.
  unfold resolve_sst_rate, tax_applies, template_permits.
  destruct (Args.apply_sst a); [|reflexivity]. cbn [andb].
  destruct (resolve_template_id tb a) as [tid|]; [|reflexivity].
  destruct (truthy_str tid); [|reflexivity].
  destruct (find _ (templates tb)) as [t|]; [|reflexivity].
  destruct (truthy_obool (InvoiceTemplate.apply_sst t)); reflexivity.
Qed.

(** The three amounts of a total, each rounded on its own, add up to within
    a cent and a half. *)
Lemma rounded_total_near (x y : Q) :
  Qabs (round_half_away 2 (x + y)
        - (round_half_away 2 x + round_half_away 2 y)) <= 3 # 200.
Proof.
  pose proof (round_half_away_near 2 x) as Hx.
  pose proof (round_half_away_near 2 y) as Hy.
  pose proof (round_half_away_near 2 (x + y)) as Hxy.
  change (1 / (2 * inject_Z (10 ^ Z.of_nat 2))) with (1 # 200) in *.
  revert Hx Hy Hxy.
  generalize (round_half_away 2 (x + y)), (round_half_away 2 x),
    (round_half_away 2 y).
  intros rxy rx ry Hx Hy Hxy.
  apply Qabs_Qle_condition in Hx. apply Qabs_Qle_condition in Hy.
  apply Qabs_Qle_condition in Hxy. apply Qabs_Qle_condition.
  split; lra.
Qed.

(** C2, as amended.  [_calculate_invoice_totals] always returns, and leaves
    [total_amount = subtotal + sst_amount], where [subtotal] is the sum of
    the [total_price] of the invoice's items and [sst_amount] is
    [subtotal * sst_rate / 100] when the subtotal is positive and zero
    otherwise.  In a call of [create_on_the_fly] that returns, the invoice
    as [_calculate_invoice_totals] left it has therefore the tax
    [subtotal * DEFAULT_SST_RATE / 100] when the tax is enabled, the
    resolved template permits it and the subtotal is positive, and zero
    otherwise; the invoice the call returns carries the three amounts as
    the store keeps them, each rounded to two decimals on its own, so that
    its total is within a cent and a half of its subtotal plus its tax. *)
Theorem C2_total_is_subtotal_plus_tax :
  (forall (invoice : InvoiceNew.t) (s : Session),
      exists inv' s',
        _calculate_invoice_totals invoice s = (Ok inv', s')
        /\ InvoiceNew.total_amount inv'
           == InvoiceNew.subtotal inv' + InvoiceNew.sst_amount inv'
        /\ InvoiceNew.subtotal inv'
           == py_sum (map InvoiceNewItem.total_price
                        (items_of (working s) invoice))
        /\ InvoiceNew.sst_amount inv'
           == (if Qgtb (InvoiceNew.subtotal inv') 0
               then InvoiceNew.subtotal inv'
                    * (InvoiceNew.sst_rate invoice / 100)
               else 0))
  /\ (forall (a : Args.t) (s : Session) (inv : InvoiceNew.t)
             (s' : Session),
         create_on_the_fly cfg env a s = (Ok inv, s') ->
         exists fin,
           (exists pre s0 s0',
               _calculate_invoice_totals pre s0 = (Ok fin, s0'))
           /\ InvoiceNew.total_amount fin
              == InvoiceNew.subtotal fin + InvoiceNew.sst_amount fin
           /\ InvoiceNew.subtotal fin
              == py_sum (map InvoiceNewItem.total_price
                           (InvoiceNew.items fin))
           /\ InvoiceNew.sst_amount fin
              == (if tax_applies (working s) a
                     && Qgtb (InvoiceNew.subtotal fin) 0
                  then InvoiceNew.subtotal fin * (DEFAULT_SST_RATE cfg / 100)
                  else 0)
           /\ InvoiceNew.subtotal inv
              == round_half_away 2 (InvoiceNew.subtotal fin)
           /\ InvoiceNew.sst_amount inv
              == round_half_away 2 (InvoiceNew.sst_amount fin)
           /\ InvoiceNew.total_amount inv
              == round_half_away 2
                   (InvoiceNew.subtotal fin + InvoiceNew.sst_amount fin)
           /\ Qabs (InvoiceNew.total_amount inv
                    - (InvoiceNew.subtotal inv + InvoiceNew.sst_amount inv))
              <= 3 # 200).
Proof.
  split.
  - intros invoice s.
    destruct (calculate_invoice_totals_run invoice s)
      as (inv' & s' & E & Hsub & Hsst & Htot & _).
    exists inv', s'. split; [exact E|].
    split; [rewrite Htot; reflexivity|].
    split; [|rewrite Hsst; reflexivity].
    rewrite Hsub. destruct (items_of (working s) invoice); reflexivity.
  - intros a s inv s' E.
    destruct (create_on_the_fly_returned cfg env a s inv s' E)
      as (package & customer & s1 & fin & C).
    exists fin.
    split; [exact (cr_finalized _ _ _ _ _ _ _ _ _ _ C)|].
    split; [rewrite (cr_total_amount _ _ _ _ _ _ _ _ _ _ C); reflexivity|].
    split; [rewrite (cr_subtotal _ _ _ _ _ _ _ _ _ _ C); reflexivity|].
    split.
    { rewrite (cr_sst_amount _ _ _ _ _ _ _ _ _ _ C),
        (cr_sst_rate _ _ _ _ _ _ _ _ _ _ C), resolve_sst_rate_tax_applies.
      destruct (tax_applies (working s) a);
        destruct (Qgtb (InvoiceNew.subtotal fin) 0); cbn [andb];
        try reflexivity.
      field. }
    rewrite (cr_returned _ _ _ _ _ _ _ _ _ _ C).
    cbn [InvoiceNew.as_stored InvoiceNew.subtotal InvoiceNew.sst_amount
         InvoiceNew.total_amount].
    split; [reflexivity|]. split; [reflexivity|].
    rewrite (cr_total_amount _ _ _ _ _ _ _ _ _ _ C).
    split; [reflexivity|]. apply rounded_total_near.
Qed.

End Totals.

(** The scenario of the specification again: tax enabled, no template. *)
Lemma C2_total_is_subtotal_plus_tax_witness :
  exists inv s' fin,
    create_on_the_fly invoice_settings Fixture.env0 Fixture.args_voucher
      Fixture.session0 = (Ok inv, s')
    /\ InvoiceNew.total_amount fin
       == InvoiceNew.subtotal fin + InvoiceNew.sst_amount fin
    /\ InvoiceNew.sst_amount fin
       == (if tax_applies Fixture.tables0 Fixture.args_voucher
              && Qgtb (InvoiceNew.subtotal fin) 0
           then InvoiceNew.subtotal fin * (8 / 100)
           else 0)
    /\ InvoiceNew.total_amount inv
       == round_half_away 2
            (InvoiceNew.subtotal fin + InvoiceNew.sst_amount fin).
Proof.
  destruct (create_on_the_fly invoice_settings Fixture.env0
              Fixture.args_voucher Fixture.session0)
    as [[inv|e] s'] eqn:E.
  - destruct (proj2 (C2_total_is_subtotal_plus_tax invoice_settings
                       Fixture.env0)
                Fixture.args_voucher Fixture.session0 inv s' E)
      as (fin & _ & Ht & _ & Hs & _ & _ & Hr & _).
    exists inv, s', fin. split; [reflexivity|].
    split; [exact Ht|]. split; [exact Hs|exact Hr].
  - vm_compute in E. discriminate E.
Defined.

(** C2 as stated fails: with the tax enabled and no template to forbid it,
    a fixed discount of 1500 on a package of 1000 gives a subtotal of -500
    and a tax of 0, not -500 * 8 / 100. *)
Lemma C2_no_tax_on_negative_subtotal :
  exists inv s',
    create_on_the_fly invoice_settings Fixture.env0 Fixture.args_over
      Fixture.session0 = (Ok inv, s')
    /\ tax_applies Fixture.tables0 Fixture.args_over = true
    /\ InvoiceNew.sst_rate inv == 8
    /\ InvoiceNew.subtotal inv == - (500)
    /\ InvoiceNew.sst_amount inv == 0
    /\ ~ InvoiceNew.sst_amount inv
         == InvoiceNew.subtotal inv * InvoiceNew.sst_rate inv / 100.
Proof.
  eexists _, _. split; [vm_compute; reflexivity|].
  split; [reflexivity|].
  repeat split; try (vm_compute; reflexivity).
  vm_compute. discriminate.
Qed.

(** C10.  [_calculate_invoice_totals] always returns; when the subtotal it
    computes is zero or negative, the tax it stores is exactly zero whatever
    the invoice's rate is, so it is not negative and the total equals the
    subtotal. *)
Theorem C10_no_tax_when_subtotal_not_positive (invoice : InvoiceNew.t)
  (s : Session) :
  exists inv' s',
    _calculate_invoice_totals invoice s = (Ok inv', s')
    /\ (InvoiceNew.subtotal inv' <= 0 ->
        InvoiceNew.sst_amount inv' = 0
        /\ ~ InvoiceNew.sst_amount inv' < 0
        /\ InvoiceNew.total_amount inv' == InvoiceNew.subtotal inv').
Proof.
  destruct (calculate_invoice_totals_run invoice s)
    as (inv' & s' & E & _ & Hsst & Htot & _).
  exists inv', s'. split; [exact E|].
  intro Hle. apply Qgtb_false in Hle. rewrite Hle in Hsst.
  split; [exact Hsst|]. split.
  - rewrite Hsst. apply Qlt_irrefl.
  - rewrite Htot, Hsst. ring.
Qed.

Lemma C10_no_tax_when_subtotal_not_positive_witness :
  exists inv' s',
    _calculate_invoice_totals Fixture.discount_only_invoice
      Fixture.session0 = (Ok inv', s')
    /\ InvoiceNew.subtotal inv' <= 0
    /\ InvoiceNew.sst_amount inv' = 0
    /\ ~ InvoiceNew.sst_amount inv' < 0
    /\ InvoiceNew.total_amount inv' == InvoiceNew.subtotal inv'.
Proof.
  destruct (C10_no_tax_when_subtotal_not_positive
              Fixture.discount_only_invoice Fixture.session0)
    as (inv' & s' & E & H).
  exists inv', s'. split; [exact E|].
  assert (L : InvoiceNew.subtotal inv' <= 0).
  { vm_compute in E. injection E as <- _. vm_compute. discriminate. }
  split; [exact L|]. exact (H L).
Defined.

(** ** C4: unknown package *)

Section UnknownPackage.

Variable cfg : InvoiceSettings.
Variable env : Env.

(** C4.  When no package has the requested id, [create_on_the_fly] raises
    the package-not-found error (the [ValueError] whose message starts with
    "Package not found"), the endpoint turns it into the client error 400,
    and the session is left exactly as it was: nothing is committed and
    nothing is pending, so no invoice, item or customer row is persisted. *)
Theorem C4_unknown_package_fails_without_writes (a : Args.t) (s : Session)
  (base_url : string) :
  find_package (working s) (Args.package_id a) = None ->
  create_on_the_fly cfg env a s
  = (Raise (ValueError ("Package not found: " ++ Args.package_id a)), s)
  /\ create_invoice_on_the_fly cfg env base_url a s
     = (HTTPException 400 ("Package not found: " ++ Args.package_id a), s).
Proof.
  intro Hfind. unfold find_package in Hfind.
  assert (E : create_on_the_fly cfg env a s
              = (Raise (ValueError
                          ("Package not found: " ++ Args.package_id a)), s)).
  { unfold create_on_the_fly. unfold bind at 1. cbn [get_tables].
    rewrite Hfind. reflexivity. }
  split; [exact E|].
  unfold create_invoice_on_the_fly. rewrite E. reflexivity.
Qed.

End UnknownPackage.

Lemma C4_unknown_package_fails_without_writes_witness :
  create_on_the_fly invoice_settings Fixture.env0 (Args.defaults "pkg_zzz")
    Fixture.session0
  = (Raise (ValueError "Package not found: pkg_zzz"), Fixture.session0)
  /\ create_invoice_on_the_fly invoice_settings Fixture.env0
       "https://calculator.example" (Args.defaults "pkg_zzz")
       Fixture.session0
     = (HTTPException 400 "Package not found: pkg_zzz", Fixture.session0).
Proof.
  apply (C4_unknown_package_fails_without_writes invoice_settings
           Fixture.env0 (Args.defaults "pkg_zzz") Fixture.session0
           "https://calculator.example").
  reflexivity.
Defined.

(** ** C5: resolving a share token *)

Section ShareToken.

Variable env : Env.

Lemma get_by_share_token_total (token : string) (s : Session) :
  exists r, get_by_share_token env token s = (Ok r, s).
Proof.
  unfold get_by_share_token, bind, get_tables.
  destruct (find _ (invoices (working s))) as [inv|];
    [|eexists; reflexivity].
  destruct (truthy_obool (InvoiceNew.share_enabled inv));
    [|eexists; reflexivity].
  destruct (InvoiceNew.share_expires_at inv) as [e|];
    [|eexists; reflexivity].
  destruct (e <? now env)%Z; eexists; reflexivity.
Qed.

Lemma get_by_share_token_some (token : string) (s : Session)
  (inv : InvoiceNew.t) :
  get_by_share_token env token s = (Ok (Some inv), s)
  <-> find_by_token (working s) token = Some inv /\ share_open env inv.
Proof.
  unfold get_by_share_token, find_by_token, share_open, bind, get_tables.
  destruct (find _ (invoices (working s))) as [i|].
  2:{ split; [discriminate|]. intros [H _]. discriminate. }
  destruct (InvoiceNew.share_enabled i) as [[|]|] eqn:En; cbn [truthy_obool].
  - destruct (InvoiceNew.share_expires_at i) as [e|] eqn:Ex.
    + destruct (Z.ltb_spec e (now env)) as [L|L].
      * split; [discriminate|].
        intros (H & _ & [N|(e' & E' & Le)]); injection H as <-.
        -- congruence.
        -- rewrite Ex in E'. injection E' as <-. lia.
      * split.
        -- intro H. injection H as <-.
           split; [reflexivity|]. split; [exact En|].
           right. exists e. split; [exact Ex|exact L].
        -- intros (H & _). injection H as <-. reflexivity.
    + split.
      * intro H. injection H as <-.
        split; [reflexivity|]. split; [exact En|]. now left.
      * intros (H & _). injection H as <-. reflexivity.
  - split; [discriminate|]. intros (H & E' & _). injection H as <-.
    congruence.
  - split; [discriminate|]. intros (H & E' & _). injection H as <-.
    congruence.
Qed.

(** C5, as amended.  [get_by_share_token] never raises and leaves the
    session alone.  It returns the invoice exactly when the token is that
    of a stored invoice whose sharing is enabled and whose expiry is absent
    or not earlier than now; a token that is unknown, disabled or expired
    gives the one result [None]. *)
Theorem C5_share_token_resolution (token : string) (s : Session) :
  (exists r, get_by_share_token env token s = (Ok r, s))
  /\ (forall inv,
         get_by_share_token env token s = (Ok (Some inv), s)
         <-> find_by_token (working s) token = Some inv /\ share_open env inv)
  /\ ((forall inv, find_by_token (working s) token = Some inv ->
                   ~ share_open env inv) ->
      get_by_share_token env token s = (Ok None, s)).
Proof.
  split; [apply get_by_share_token_total|].
  split; [intro inv; apply get_by_share_token_some|].
  intro Hno.
  destruct (get_by_share_token_total token s) as ([inv|] & E);
    [|exact E].
  exfalso. apply get_by_share_token_some in E. destruct E as (F & O).
  exact (Hno inv F O).
Qed.

End ShareToken.

(** An expired token, a disabled one and an unknown one all give [None]. *)
Lemma C5_share_token_resolution_witness :
  get_by_share_token Fixture.env0 "token-c" Fixture.shared_session
  = (Ok None, Fixture.shared_session)
  /\ get_by_share_token Fixture.env0 "token-b" Fixture.shared_session
     = (Ok None, Fixture.shared_session)
  /\ get_by_share_token Fixture.env0 "token-z" Fixture.shared_session
     = (Ok None, Fixture.shared_session).
Proof.
  split; [|split];
    apply (proj2 (proj2 (C5_share_token_resolution Fixture.env0 _
                           Fixture.shared_session)));
    intros inv F; vm_compute in F; try discriminate F;
    injection F as <-; intros (En & Ex); vm_compute in En.
  - destruct Ex as [N|(e & E & Le)]; [discriminate N|].
    vm_compute in E. injection E as <-. vm_compute in Le. now apply Le.
  - discriminate En.
Defined.

(** C5 as stated fails at the boundary: a link whose expiry is the current
    instant is still resolved, although that expiry is not in the future. *)
Lemma C5_expiry_equal_to_now_resolves :
  get_by_share_token Fixture.env0 "token-a" Fixture.shared_session
  = (Ok (Some Fixture.expiring_now), Fixture.shared_session)
  /\ find_by_token (working Fixture.shared_session) "token-a"
     = Some Fixture.expiring_now
  /\ ~ share_open_strict Fixture.env0 Fixture.expiring_now.
Proof.
  split; [reflexivity|]. split; [reflexivity|].
  intros (_ & [N|(e & E & L)]).
  - discriminate N.
  - vm_compute in E. injection E as <-. vm_compute in L. discriminate L.
Qed.

(** ** C6: recording a view *)

Section RecordView.



(** The invoice a recorded view leaves in the table. *)
Lemma record_view_found (env : Env) (bid : string) (s : Session)
  (inv : InvoiceNew.t) (n : Z) :
  find_by_id (working s) bid = Some inv ->
  InvoiceNew.share_access_count inv = Some n ->
  (- 2 ^ 31 <= n + 1 <= 2 ^ 31 - 1)%Z ->
  let inv' :=
    InvoiceNew.set_updated_at (db_now env)
      (InvoiceNew.set_view (now env) (n + 1)%Z inv) in
  let tb' := with_invoices (replace_invoice inv' (invoices (working s)))
               (working s) in
  record_view env bid s = (Ok tt, {| committed := tb'; working := tb' |}).
Proof.
  intros Hf Hc Hr. unfold find_by_id in Hf.
  unfold record_view, get_by_id, bind, get_tables, ret. rewrite Hf, Hc.
  unfold integer.
  replace ((- 2 ^ 31 <=? n + 1)%Z && (n + 1 <=? 2 ^ 31 - 1)%Z) with true
    by (symmetry; apply andb_true_iff; split; apply Z.leb_le; lia).
  reflexivity.
Qed.







End RecordView.



(** ** C7 and C8: the voucher line and the sort orders *)

Section Lines.

Variable cfg : InvoiceSettings.
Variable env : Env.

(** Step 3 reads the vouchers only. *)
Lemma handle_voucher_ext (a : Args.t) (package : Package.t)
  (s s1 : Session) (v : Decimal) :
  vouchers (working s1) = vouchers (working s) ->
  handle_voucher a package s1 = (Ok v, s1) ->
  handle_voucher a package s = (Ok v, s).
Proof.
  intros Hv. unfold handle_voucher.
  destruct (Args.voucher_code a) as [code|];
    [|intro H; injection H as <-; reflexivity].
  destruct (truthy_str code);
    [|intro H; injection H as <-; reflexivity].
  unfold bind, get_tables, find_voucher. rewrite Hv.
  destruct (find _ (vouchers (working s))) as [vo|];
    [|intro H; injection H as <-; reflexivity].
  unfold amount_of_voucher, price_times, ret, raise.
  destruct (Voucher.discount_amount vo) as [amt|];
    [destruct (truthy_dec amt);
     [intro H; injection H as <-; reflexivity|]|];
    (destruct (truthy_oint (Voucher.discount_percent vo));
     [|intro H; injection H as <-; reflexivity]);
    (destruct (Voucher.discount_percent vo);
     [|intro H; injection H as <-; reflexivity]);
    (destruct (Package.price package);
     [intro H; injection H as <-; reflexivity|discriminate]).
Qed.

(** In a creation that returned, step 3 returned. *)
Lemma create_on_the_fly_voucher (a : Args.t) (s : Session)
  (inv : InvoiceNew.t) (s' : Session) (package : Package.t) :
  create_on_the_fly cfg env a s = (Ok inv, s') ->
  find_package (working s) (Args.package_id a) = Some package ->
  handle_voucher a package s
  = (Ok (resolved_voucher_amount (working s) a (price_or_zero package)), s).
Proof.
  intros E Fp. unfold create_on_the_fly in E.
  apply bind_ok in E. destruct E as (tb & s0 & E0 & E).
  cbv [get_tables] in E0. injection E0 as <- <-.
  unfold find_package in Fp. rewrite Fp in E.
  apply bind_ok in E. destruct E as (customer & s1 & Ec & E).
  pose proof (handle_customer_ok env a s customer s1 Ec)
    as (C1 & C2 & C3 & C4 & _).
  destruct customer as [[[[cid cname] cphone] caddr] cemail].
  cbv beta iota in E.
  apply bind_ok in E. destruct E as (v & s2 & Ev & _).
  pose proof (handle_voucher_ok a package s1 v s2 Ev) as (-> & Hv).
  apply (handle_voucher_ext a package s s1 v C4) in Ev.
  rewrite Ev. f_equal. f_equal. rewrite Hv.
  apply resolved_voucher_amount_ext. exact C4.
Qed.

(** What step 3 returns for a code that resolves to the voucher. *)
Lemma handle_voucher_rule (a : Args.t) (package : Package.t) (s : Session)
  (v : Decimal) (code : string) (voucher : Voucher.t) :
  Args.voucher_code a = Some code ->
  truthy_str code = true ->
  find_voucher (working s) code = Some voucher ->
  handle_voucher a package s = (Ok v, s) ->
  (forall amt,
      Voucher.discount_amount voucher = Some amt -> ~ amt == 0 -> v = amt)
  /\ (forall pct,
         truthy_odec (Voucher.discount_amount voucher) = false ->
         Voucher.discount_percent voucher = Some pct -> pct <> 0%Z ->
         exists P, Package.price package = Some P
                   /\ v = P * (inject_Z pct / 100))
  /\ (truthy_odec (Voucher.discount_amount voucher) = false ->
      truthy_oint (Voucher.discount_percent voucher) = false ->
      v = 0).
Proof.
  intros Hc Ht Hv. unfold handle_voucher. rewrite Hc, Ht.
  unfold bind, get_tables. rewrite Hv.
  unfold amount_of_voucher, price_times, ret, raise.
  destruct (Voucher.discount_amount voucher) as [amt|] eqn:Ha;
    cbn [truthy_odec].
  - destruct (truthy_dec amt) eqn:Ta.
    + intro H. injection H as <-.
      split; [intros ? [= <-] _; reflexivity|].
      split; [intros ? [=]|intros [=]].
    + apply truthy_dec_false in Ta.
      destruct (Voucher.discount_percent voucher) as [pct|] eqn:Hp;
        cbn [truthy_oint].
      * destruct (Z.eqb_spec pct 0) as [Z0|Z0]; cbn [negb].
        -- intro H. injection H as <-.
           split; [intros ? [= <-] N; contradiction|].
           split; [intros ? _ [= <-] N; contradiction|reflexivity].
        -- destruct (Package.price package) as [P|]; [|discriminate].
           intro H. injection H as <-.
           split; [intros ? [= <-] N; contradiction|].
           split; [intros ? _ [= <-] _; exists P; now split|intros _ [=]].
      * intro H. injection H as <-.
        split; [intros ? [= <-] N; contradiction|].
        split; [intros ? _ [=]|reflexivity].
  - destruct (Voucher.discount_percent voucher) as [pct|] eqn:Hp;
      cbn [truthy_oint].
    + destruct (Z.eqb_spec pct 0) as [Z0|Z0]; cbn [negb].
      * intro H. injection H as <-.
        split; [intros ? [=]|].
        split; [intros ? _ [= <-] N; contradiction|reflexivity].
      * destruct (Package.price package) as [P|]; [|discriminate].
        intro H. injection H as <-.
        split; [intros ? [=]|].
        split; [intros ? _ [= <-] _; exists P; now split|intros _ [=]].
    + intro H. injection H as <-.
      split; [intros ? [=]|].
      split; [intros ? _ [=]|reflexivity].
Qed.

(** Splits the goal on the four guards that decide which lines exist. *)
Ltac split_lines a v :=
  unfold created_lines, percent_lines, fixed_lines, voucher_lines,
    fee_lines;
  destruct (truthy_dec (Args.discount_fixed a)
            && Qgtb (Args.discount_fixed a) 0);
  destruct (truthy_dec (Args.discount_percent a)
            && Qgtb (Args.discount_percent a) 0);
  destruct (truthy_ostr (Args.voucher_code a) && Qgtb v 0);
  (destruct (Args.epp_fee_amount a) as [fee|];
   [destruct (truthy_dec fee && Qgtb fee 0
              && truthy_ostr (Args.epp_fee_description a))|]).

Lemma voucher_lines_of_created (package : Package.t) (P : Decimal)
  (a : Args.t) (v : Decimal) (inv : InvoiceNew.t) :
  filter (has_type "voucher") (created_lines env package P a v inv)
  = voucher_lines env a v inv.
Proof. split_lines a v; reflexivity. Qed.

Lemma discount_orders_of_created (package : Package.t) (P : Decimal)
  (a : Args.t) (v : Decimal) (inv : InvoiceNew.t) :
  Forall (fun it => has_type "discount" it = true ->
                    (100 <= InvoiceNewItem.sort_order it <= 101)%Z)
    (created_lines env package P a v inv).
Proof.
  split_lines a v;
    repeat (constructor;
            [cbn; intro; try discriminate; try lia|]);
    constructor.
Qed.

(** The store keeps the tag and the sort order of a line. *)
Lemma filter_as_stored (ty : string) (l : list InvoiceNewItem.t) :
  filter (has_type ty) (map InvoiceNewItem.as_stored l)
  = map InvoiceNewItem.as_stored (filter (has_type ty) l).
Proof.
  induction l as [|x l IH]; [reflexivity|].
  cbn [map filter].
  change (has_type ty (InvoiceNewItem.as_stored x)) with (has_type ty x).
  destruct (has_type ty x); cbn [map]; now rewrite IH.
Qed.

Lemma Forall_as_stored (Q : InvoiceNewItem.t -> Prop)
  (l : list InvoiceNewItem.t) :
  Forall (fun it => Q (InvoiceNewItem.as_stored it)) l ->
  Forall Q (map InvoiceNewItem.as_stored l).
Proof.
  induction 1; cbn [map]; constructor; assumption.
Qed.

(** The lines of a created invoice, as the call returns them. *)
Lemma created_items (a : Args.t) (s : Session) (inv : InvoiceNew.t)
  (s' : Session) (package : Package.t)
  (customer : option Z * string * option string * option string
              * option string)
  (s1 : Session) (fin : InvoiceNew.t) :
  Created cfg env a s inv s' package customer s1 fin ->
  InvoiceNew.items inv
  = map InvoiceNewItem.as_stored
      (created_lines env package (price_or_zero package) a
         (resolved_voucher_amount (working s) a (price_or_zero package))
         fin).
Proof.
  intro C. rewrite (cr_returned _ _ _ _ _ _ _ _ _ _ C).
  cbn [InvoiceNew.as_stored InvoiceNew.items].
  now rewrite <- (cr_lines _ _ _ _ _ _ _ _ _ _ C).
Qed.

Lemma created_package (a : Args.t) (s : Session) (inv : InvoiceNew.t)
  (s' : Session) (package package' : Package.t)
  (customer : option Z * string * option string * option string
              * option string)
  (s1 : Session) (fin : InvoiceNew.t) :
  Created cfg env a s inv s' package' customer s1 fin ->
  find_package (working s) (Args.package_id a) = Some package ->
  package' = package.
Proof.
  intros C Fp. pose proof (cr_package _ _ _ _ _ _ _ _ _ _ C) as Fp'.
  congruence.
Qed.

(** C7, as amended.  In a call of [create_on_the_fly] that returns, with a
    voucher code that resolves to an active voucher, step 3 computes the
    voucher amount [v] as follows: the flat [discount_amount] when that is
    set and not zero; otherwise, when [discount_percent] is set and not
    zero, that percentage of the package price, which is then not NULL;
    otherwise zero.  The returned invoice has at most one voucher line, and
    exactly one when [v] is positive; the line carries [- v] rounded to two
    decimals, which is never positive, and the sort order 101; it is
    attached after every discount line, and every discount line has the
    sort order 100 or 101, so that none is sorted after the voucher. *)
Theorem C7_voucher_amount_and_line (a : Args.t) (s : Session)
  (inv : InvoiceNew.t) (s' : Session) (package : Package.t) (code : string)
  (voucher : Voucher.t) :
  create_on_the_fly cfg env a s = (Ok inv, s') ->
  find_package (working s) (Args.package_id a) = Some package ->
  Args.voucher_code a = Some code ->
  truthy_str code = true ->
  find_voucher (working s) code = Some voucher ->
  exists v,
    handle_voucher a package s = (Ok v, s)
    /\ (forall amt,
           Voucher.discount_amount voucher = Some amt -> ~ amt == 0 ->
           v = amt)
    /\ (forall pct,
           truthy_odec (Voucher.discount_amount voucher) = false ->
           Voucher.discount_percent voucher = Some pct -> pct <> 0%Z ->
           exists P, Package.price package = Some P
                     /\ v = P * (inject_Z pct / 100))
    /\ (truthy_odec (Voucher.discount_amount voucher) = false ->
        truthy_oint (Voucher.discount_percent voucher) = false ->
        v = 0)
    /\ exists pre vl post,
         InvoiceNew.items inv = (pre ++ vl ++ post)%list
         /\ filter (has_type "voucher") (InvoiceNew.items inv) = vl
         /\ (List.length vl <= 1)%nat
         /\ (0 < v -> List.length vl = 1%nat)
         /\ (v <= 0 -> vl = [])
         /\ Forall (fun it =>
                      InvoiceNewItem.total_price it
                      == round_half_away 2 (- v)
                      /\ InvoiceNewItem.total_price it <= 0
                      /\ InvoiceNewItem.sort_order it = 101%Z) vl
         /\ Forall (fun it => has_type "discount" it = false) post
         /\ Forall (fun it => has_type "discount" it = true ->
                              (100 <= InvoiceNewItem.sort_order it <= 101)%Z)
              (InvoiceNew.items inv).
Proof.
  intros E Fp Hc Ht Hv.
  pose proof (create_on_the_fly_voucher a s inv s' package E Fp) as Ev.
  destruct (create_on_the_fly_returned cfg env a s inv s' E)
    as (package' & customer & s1 & fin & C).
  pose proof (created_package _ _ _ _ _ _ _ _ _ C Fp) as ->.
  pose proof (created_items _ _ _ _ _ _ _ _ C) as Hitems.
  set (P := price_or_zero package) in *.
  set (v := resolved_voucher_amount (working s) a P) in *.
  exists v. split; [exact Ev|].
  destruct (handle_voucher_rule a package s v code voucher Hc Ht Hv Ev)
    as (R1 & R2 & R3).
  split; [exact R1|]. split; [exact R2|]. split; [exact R3|].
  exists (map InvoiceNewItem.as_stored
            (package_line env package a fin
               :: fixed_lines env a fin ++ percent_lines env P a fin)),
    (map InvoiceNewItem.as_stored (voucher_lines env a v fin)),
    (map InvoiceNewItem.as_stored (fee_lines env a fin)).
  split.
  { rewrite Hitems. unfold created_lines. rewrite <- !map_app.
    cbn [app]. now rewrite <- app_assoc. }
  split.
  { rewrite Hitems, filter_as_stored. now rewrite voucher_lines_of_created. }
  assert (Hfee : Forall (fun it => has_type "discount" it = false)
                   (map InvoiceNewItem.as_stored (fee_lines env a fin))).
  { unfold fee_lines.
    destruct (Args.epp_fee_amount a) as [fee|]; [|constructor].
    destruct (truthy_dec fee && Qgtb fee 0
              && truthy_ostr (Args.epp_fee_description a));
      repeat constructor. }
  assert (Hdisc : Forall (fun it => has_type "discount" it = true ->
                            (100 <= InvoiceNewItem.sort_order it <= 101)%Z)
                    (InvoiceNew.items inv)).
  { rewrite Hitems. apply Forall_as_stored.
    apply (discount_orders_of_created package P a v fin). }
  assert (Hg : truthy_ostr (Args.voucher_code a) = true)
    by (rewrite Hc; exact Ht).
  unfold voucher_lines. rewrite Hg. cbn [andb].
  destruct (Qgtb v 0) eqn:G.
  - apply Qgtb_true in G.
    split; [cbn; lia|]. split; [reflexivity|].
    split; [intro L; exfalso; exact (Qlt_not_le _ _ G L)|].
    split; [|split; assumption].
    constructor; [|constructor].
    cbn [line_item InvoiceNewItem.as_stored InvoiceNewItem.total_price
         InvoiceNewItem.sort_order].
    split; [reflexivity|]. split; [|reflexivity].
    apply round_half_away_nonpos.
    apply (Qplus_le_l _ _ v). ring_simplify. now apply Qlt_le_weak.
  - apply Qgtb_false in G.
    split; [cbn; lia|].
    split; [intro Hpos; exfalso; exact (Qlt_not_le _ _ Hpos G)|].
    split; [reflexivity|].
    split; [constructor|]. split; assumption.
Qed.

Lemma created_lines_tags (package : Package.t) (P : Decimal) (a : Args.t)
  (v : Decimal) (inv : InvoiceNew.t) :
  exists first rest,
    created_lines env package P a v inv = first :: rest
    /\ InvoiceNewItem.item_type first = "package"
    /\ InvoiceNewItem.sort_order first = 0%Z
    /\ Forall adjustment_tag rest
    /\ Sorted Z.le
         (map InvoiceNewItem.sort_order
            (created_lines env package P a v inv)).
Proof.
  eexists _, _. split; [reflexivity|].
  split; [reflexivity|]. split; [reflexivity|].
  split.
  - split_lines a v; cbn [app List.length Z.of_nat Z.add Pos.add];
      repeat (constructor;
              [unfold adjustment_tag; cbn; intuition (auto; lia)|]);
      constructor.
  - split_lines a v; cbn;
      repeat (constructor; try lia).
Qed.

Lemma sort_order_as_stored (l : list InvoiceNewItem.t) :
  map InvoiceNewItem.sort_order (map InvoiceNewItem.as_stored l)
  = map InvoiceNewItem.sort_order l.
Proof. rewrite map_map. reflexivity. Qed.

(** C8.  In every call of [create_on_the_fly] that returns an invoice, the
    first line item of the invoice is the package item, at sort order 0;
    every other item is a discount at 100 or above, the voucher at 101, or
    the fee at 200; and the items are attached in non-decreasing sort
    order. *)
Theorem C8_sort_orders (a : Args.t) (s : Session) (inv : InvoiceNew.t)
  (s' : Session) :
  create_on_the_fly cfg env a s = (Ok inv, s') ->
  exists first rest,
    InvoiceNew.items inv = first :: rest
    /\ InvoiceNewItem.item_type first = "package"
    /\ InvoiceNewItem.sort_order first = 0%Z
    /\ Forall adjustment_tag rest
    /\ Sorted Z.le (map InvoiceNewItem.sort_order (InvoiceNew.items inv)).
Proof.
  intro E.
  destruct (create_on_the_fly_returned cfg env a s inv s' E)
    as (package & customer & s1 & fin & C).
  pose proof (created_items _ _ _ _ _ _ _ _ C) as Hitems.
  destruct (created_lines_tags package (price_or_zero package) a
              (resolved_voucher_amount (working s) a
                 (price_or_zero package)) fin)
    as (first & rest & L & T & O & F & S).
  exists (InvoiceNewItem.as_stored first),
    (map InvoiceNewItem.as_stored rest).
  rewrite Hitems, sort_order_as_stored.
  split; [rewrite L; reflexivity|].
  split; [exact T|]. split; [exact O|].
  split; [|exact S].
  apply Forall_as_stored. exact F.
Qed.

End Lines.

(** The voucher BOTH has a flat amount of 120 and a percentage of 10: the
    flat amount wins. *)
Lemma C7_voucher_amount_and_line_witness :
  exists inv s' v,
    create_on_the_fly invoice_settings Fixture.env0 Fixture.args_all
      Fixture.session0 = (Ok inv, s')
    /\ handle_voucher Fixture.args_all Fixture.pkg1000 Fixture.session0
       = (Ok v, Fixture.session0)
    /\ v = 120
    /\ exists pre vl post,
         InvoiceNew.items inv = (pre ++ vl ++ post)%list
         /\ filter (has_type "voucher") (InvoiceNew.items inv) = vl
         /\ List.length vl = 1%nat.
Proof.
  destruct (create_on_the_fly invoice_settings Fixture.env0
              Fixture.args_all Fixture.session0) as [[inv|e] s'] eqn:E.
  - destruct (C7_voucher_amount_and_line invoice_settings Fixture.env0
                Fixture.args_all Fixture.session0 inv s' Fixture.pkg1000
                "BOTH" Fixture.flat_and_percent
                E eq_refl eq_refl eq_refl eq_refl)
      as (v & Hv & R1 & _ & _ & pre & vl & post & I & F & _ & L & _).
    assert (V : v = 120).
    { apply R1; [reflexivity|]. intro H. discriminate H. }
    exists inv, s', v. split; [reflexivity|].
    split; [exact Hv|]. split; [exact V|].
    exists pre, vl, post.
    split; [exact I|]. split; [exact F|].
    apply L. rewrite V. reflexivity.
  - vm_compute in E. discriminate E.
Defined.

(** C7 as stated fails on two counts.  The voucher does not always come at
    a sort position after the discounts: with a fixed and a percent
    discount the percent line has the sort order 101, the very sort order
    of the voucher line.  And a flat amount that is set does not always
    take precedence: the voucher ZERO has the flat amount 0 and the
    percentage 10, and the voucher line on a package of 1000 is -100. *)
Lemma C7_voucher_shares_sort_order :
  (exists inv s',
      create_on_the_fly invoice_settings Fixture.env0 Fixture.args_all
        Fixture.session0 = (Ok inv, s')
      /\ map InvoiceNewItem.item_type (InvoiceNew.items inv)
         = ["package"; "discount"; "discount"; "voucher"; "epp_fee"]
      /\ map InvoiceNewItem.sort_order (InvoiceNew.items inv)
         = [0; 100; 101; 101; 200]%Z)
  /\ exists inv s',
       create_on_the_fly invoice_settings Fixture.env0
         Fixture.args_zero_flat Fixture.zero_flat_session = (Ok inv, s')
       /\ find_voucher (working Fixture.zero_flat_session) "ZERO"
          = Some Fixture.zero_flat
       /\ Voucher.discount_amount Fixture.zero_flat = Some 0
       /\ InvoiceNew.voucher_amount inv == 100
       /\ map InvoiceNewItem.total_price
            (filter (has_type "voucher") (InvoiceNew.items inv))
          = [round_half_away 2 (- (100))].
Proof.
  split.
  - eexists _, _. split; [vm_compute; reflexivity|].
    split; reflexivity.
  - eexists _, _. split; [vm_compute; reflexivity|].
    split; [reflexivity|]. split; [reflexivity|].
    split; vm_compute; reflexivity.
Qed.

Lemma C8_sort_orders_witness :
  exists inv s' first rest,
    create_on_the_fly invoice_settings Fixture.env0 Fixture.args_all
      Fixture.session0 = (Ok inv, s')
    /\ InvoiceNew.items inv = first :: rest
    /\ InvoiceNewItem.item_type first = "package"
    /\ InvoiceNewItem.sort_order first = 0%Z
    /\ Forall adjustment_tag rest
    /\ Sorted Z.le (map InvoiceNewItem.sort_order (InvoiceNew.items inv)).
Proof.
  destruct (create_on_the_fly invoice_settings Fixture.env0
              Fixture.args_all Fixture.session0) as [[inv|e] s'] eqn:E.
  - destruct (C8_sort_orders invoice_settings Fixture.env0
                Fixture.args_all Fixture.session0 inv s' E)
      as (first & rest & H).
    exists inv, s', first, rest. split; [reflexivity|exact H].
  - vm_compute in E. discriminate E.
Defined.

(** An invoice of a package without a price has its package line and
    nothing else wrong with it. *)
Example unpriced_package_lines :
  exists inv s',
    create_on_the_fly invoice_settings Fixture.env0
      (Fixture.args_unpriced 0) Fixture.unpriced_session = (Ok inv, s')
    /\ map InvoiceNewItem.sort_order (InvoiceNew.items inv) = [0%Z]
    /\ map InvoiceNewItem.item_type (InvoiceNew.items inv) = ["package"].
Proof.
  eexists _, _. split; [vm_compute; reflexivity|].
  split; reflexivity.
Qed.

(** ** C9: discounts larger than the price *)

Section Oversized.

Variable cfg : InvoiceSettings.
Variable env : Env.





End Oversized.


(** In that case the total is -500. *)
Example oversized_total :
  exists inv s',
    create_on_the_fly invoice_settings Fixture.env0 Fixture.args_over
      Fixture.session0 = (Ok inv, s')
    /\ InvoiceNew.total_amount inv == - (500).
Proof.
  eexists _, _. split; [vm_compute; reflexivity|].
  vm_compute. reflexivity.
Qed.


(** ** C3: invoice numbers within the width *)

Local Open Scope Z_scope.

Lemma pow10_0 : pow10 0 = 1.
Proof. reflexivity. Qed.

Lemma pow10_S (k : nat) : pow10 (S k) = 10 * pow10 k.
Proof.
  unfold pow10. rewrite Nat2Z.inj_succ. apply Z.pow_succ_r. lia.
Qed.

Lemma pow10_pos (k : nat) : 0 < pow10 k.
Proof. unfold pow10. apply Z.pow_pos_nonneg; lia. Qed.

Lemma append_nil_r (s : string) : s ++ "" = s.
Proof. induction s as [|c s IH]; simpl; [reflexivity|now rewrite IH]. Qed.

Lemma append_assoc (a b c : string) : (a ++ b) ++ c = a ++ (b ++ c).
Proof. induction a as [|x a IH]; simpl; [reflexivity|now rewrite IH]. Qed.

Lemma digit_char_spec (d : Z) :
  0 <= d <= 9 ->
  PyStr.is_digit (PyStr.digit_char d) = true
  /\ PyStr.digit_val (PyStr.digit_char d) = d.
Proof.
  intro H.
  assert (E : d = 0 \/ d = 1 \/ d = 2 \/ d = 3 \/ d = 4 \/ d = 5 \/ d = 6
              \/ d = 7 \/ d = 8 \/ d = 9) by lia.
  repeat (destruct E as [->|E]; [split; reflexivity|]).
  subst d. split; reflexivity.
Qed.

Lemma digit_char_compare (a b : Z) :
  0 <= a <= 9 -> 0 <= b <= 9 ->
  Ascii.compare (PyStr.digit_char a) (PyStr.digit_char b) = Z.compare a b.
Proof.
  intros Ha Hb.
  assert (Ea : a = 0 \/ a = 1 \/ a = 2 \/ a = 3 \/ a = 4 \/ a = 5 \/ a = 6
               \/ a = 7 \/ a = 8 \/ a = 9) by lia.
  assert (Eb : b = 0 \/ b = 1 \/ b = 2 \/ b = 3 \/ b = 4 \/ b = 5 \/ b = 6
               \/ b = 7 \/ b = 8 \/ b = 9) by lia.
  clear Ha Hb.
  repeat (destruct Ea as [->|Ea]);
    repeat (destruct Eb as [->|Eb]); subst; reflexivity.
Qed.

Lemma msd_bounds (k : nat) (n : Z) :
  0 <= n < pow10 (S k) ->
  0 <= n / pow10 k <= 9 /\ 0 <= n mod pow10 k < pow10 k.
Proof.
  intro H. rewrite pow10_S in H. pose proof (pow10_pos k) as Hp.
  split.
  - split; [apply Z.div_pos; lia|].
    assert (n / pow10 k < 10); [|lia].
    apply Z.div_lt_upper_bound; lia.
  - apply Z.mod_pos_bound. exact Hp.
Qed.

Lemma pad_length (k : nat) (n : Z) : String.length (pad k n) = k.
Proof.
  revert n. induction k as [|k IH]; intro n; simpl; [reflexivity|].
  now rewrite IH.
Qed.

Lemma pad_all_digits (k : nat) (n : Z) :
  0 <= n < pow10 k -> all_digits (pad k n) = true.
Proof.
  revert n. induction k as [|k IH]; intros n H; [reflexivity|].
  destruct (msd_bounds k n H) as [Hd Hr].
  cbn [pad all_digits].
  rewrite (proj1 (digit_char_spec _ Hd)), (IH _ Hr). reflexivity.
Qed.

Lemma parse_pad (k : nat) (n acc : Z) :
  0 <= n < pow10 k ->
  PyStr.parse_digits (pad k n) acc true = Some (acc * pow10 k + n).
Proof.
  revert n acc. induction k as [|k IH]; intros n acc H.
  - rewrite pow10_0 in *. cbn. f_equal. lia.
  - destruct (msd_bounds k n H) as [Hd Hr].
    cbn [pad PyStr.parse_digits].
    destruct (digit_char_spec _ Hd) as [-> ->].
    rewrite (IH _ _ Hr). f_equal. rewrite pow10_S.
    pose proof (Z.div_mod n (pow10 k)) as E.
    pose proof (pow10_pos k). nia.
Qed.

Lemma parse_pad_fresh (k : nat) (n : Z) :
  (1 <= k)%nat -> 0 <= n < pow10 k ->
  PyStr.parse_digits (pad k n) 0 false = Some n.
Proof.
  intros Hk H. destruct k as [|k]; [lia|].
  destruct (msd_bounds k n H) as [Hd Hr].
  cbn [pad PyStr.parse_digits].
  destruct (digit_char_spec _ Hd) as [-> ->].
  rewrite (parse_pad _ _ _ Hr). f_equal.
  pose proof (Z.div_mod n (pow10 k)) as E.
  pose proof (pow10_pos k). nia.
Qed.

Lemma compare_msd (P da db ra rb : Z) :
  0 <= ra < P -> 0 <= rb < P ->
  Z.compare (P * da + ra) (P * db + rb)
  = match Z.compare da db with
    | Eq => Z.compare ra rb
    | c => c
    end.
Proof.
  intros Ha Hb.
  destruct (Z.compare_spec da db) as [->|L|L].
  - destruct (Z.compare_spec ra rb) as [->|L|L].
    + apply Z.compare_refl.
    + apply Z.compare_lt_iff. lia.
    + apply Z.compare_gt_iff. lia.
  - apply Z.compare_lt_iff. nia.
  - apply Z.compare_gt_iff. nia.
Qed.

Lemma compare_pad (k : nat) (a b : Z) :
  0 <= a < pow10 k -> 0 <= b < pow10 k ->
  String.compare (pad k a) (pad k b) = Z.compare a b.
Proof.
  revert a b. induction k as [|k IH]; intros a b Ha Hb.
  - rewrite pow10_0 in *. assert (a = 0) by lia. assert (b = 0) by lia.
    subst. reflexivity.
  - destruct (msd_bounds k a Ha) as [Hda Hra].
    destruct (msd_bounds k b Hb) as [Hdb Hrb].
    cbn [pad String.compare].
    rewrite (digit_char_compare _ _ Hda Hdb), (IH _ _ Hra Hrb).
    pose proof (pow10_pos k) as Hp.
    rewrite (Z.div_mod a (pow10 k)) at 3 by lia.
    rewrite (Z.div_mod b (pow10 k)) at 3 by lia.
    rewrite (compare_msd (pow10 k)) by assumption.
    reflexivity.
Qed.

Lemma pad_snoc (k : nat) (n : Z) :
  0 <= n < pow10 (S k) ->
  pad (S k) n
  = pad k (n / 10) ++ String (PyStr.digit_char (n mod 10)) EmptyString.
Proof.
  revert n. induction k as [|k IH]; intros n H.
  - rewrite pow10_S, pow10_0 in H. cbn [pad append]. rewrite pow10_0.
    rewrite Z.div_1_r, Z.mod_small by lia. reflexivity.
  - pose proof (pow10_pos k) as Hp.
    assert (Hq : 0 <= n mod pow10 (S k) < pow10 (S k))
      by (apply Z.mod_pos_bound, pow10_pos).
    change (pad (S (S k)) n)
      with (String (PyStr.digit_char (n / pow10 (S k)))
              (pad (S k) (n mod pow10 (S k)))).
    rewrite (IH _ Hq).
    change (pad (S k) (n / 10))
      with (String (PyStr.digit_char (n / 10 / pow10 k))
              (pad k ((n / 10) mod pow10 k))).
    cbn [append].
    rewrite pow10_S.
    rewrite Z.div_div by lia.
    rewrite (Z.rem_mul_r n 10 (pow10 k)) by lia.
    pose proof (Z.mod_pos_bound n 10 ltac:(lia)) as Hr.
    set (r := n mod 10) in *. set (q := (n / 10) mod pow10 k).
    replace ((r + 10 * q) / 10) with q
      by (apply (Z.div_unique _ 10 q r); lia).
    replace ((r + 10 * q) mod 10) with r
      by (apply (Z.mod_unique _ 10 q r); lia).
    reflexivity.
Qed.

Lemma digits_aux_pad (fuel : nat) :
  forall (n : Z) (acc : string),
    0 <= n < pow10 (S fuel) ->
    exists k : nat,
      (1 <= k)%nat
      /\ PyStr.digits_aux (S fuel) n acc = pad k n ++ acc
      /\ n < pow10 k
      /\ (k = 1%nat \/ pow10 (k - 1) <= n).
Proof.
  induction fuel as [|fuel IH]; intros n acc H.
  - rewrite pow10_S, pow10_0 in H. exists 1%nat.
    split; [lia|]. split.
    + cbn [PyStr.digits_aux pad append]. rewrite pow10_0.
      destruct (Z.ltb_spec n 10) as [_|L]; [|lia].
      rewrite Z.div_1_r, Z.mod_small by lia. reflexivity.
    + split; [rewrite pow10_S, pow10_0; lia|now left].
  - change (PyStr.digits_aux (S (S fuel)) n acc)
      with (if n <? 10
            then String (PyStr.digit_char (n mod 10)) acc
            else PyStr.digits_aux (S fuel) (n / 10)
                   (String (PyStr.digit_char (n mod 10)) acc)).
    destruct (Z.ltb_spec n 10) as [L|L].
    + exists 1%nat. split; [lia|]. split.
      * cbn [pad append]. rewrite pow10_0.
        rewrite Z.div_1_r, Z.mod_small by lia. reflexivity.
      * split; [rewrite pow10_S, pow10_0; lia|now left].
    + assert (Hq : 0 <= n / 10 < pow10 (S fuel)).
      { rewrite (pow10_S (S fuel)) in H. split.
        - apply Z.div_pos; lia.
        - apply Z.div_lt_upper_bound; lia. }
      destruct (IH (n / 10) (String (PyStr.digit_char (n mod 10)) acc) Hq)
        as (k & Hk & E & Hlt & Hmin).
      exists (S k). split; [lia|].
      assert (Hn : 0 <= n < pow10 (S k)).
      { rewrite pow10_S. split; [lia|].
        pose proof (Z.div_mod n 10). pose proof (Z.mod_pos_bound n 10).
        lia. }
      split.
      * rewrite E, (pad_snoc k n Hn), append_assoc. reflexivity.
      * split; [lia|]. right.
        replace (S k - 1)%nat with k by lia.
        pose proof (Z.div_mod n 10). pose proof (Z.mod_pos_bound n 10).
        destruct Hmin as [->|Hmin].
        -- rewrite pow10_S, pow10_0. lia.
        -- destruct k as [|k]; [lia|].
           replace (S k - 1)%nat with k in Hmin by lia.
           rewrite pow10_S. lia.
Qed.

Lemma digits_fuel (n : Z) :
  0 <= n -> n < pow10 (S (Z.to_nat (Z.log2 n))).
Proof.
  intro H. unfold pow10.
  rewrite Nat2Z.inj_succ, Z2Nat.id by apply Z.log2_nonneg.
  destruct (Z.eq_dec n 0) as [->|Hn].
  - cbn. lia.
  - pose proof (Z.log2_spec n ltac:(lia)) as [_ Hu].
    apply (Z.lt_le_trans _ _ _ Hu).
    apply Z.pow_le_mono_l. lia.
Qed.

Lemma str_pad (n : Z) :
  0 <= n ->
  exists k : nat,
    (1 <= k)%nat /\ PyStr.str n = pad k n /\ n < pow10 k
    /\ (k = 1%nat \/ pow10 (k - 1) <= n).
Proof.
  intro H. unfold PyStr.str, PyStr.digits.
  destruct (Z.ltb_spec n 0) as [L|_]; [lia|].
  destruct (digits_aux_pad (Z.to_nat (Z.log2 n)) n EmptyString
              (conj H (digits_fuel n H)))
    as (k & Hk & E & Hlt & Hmin).
  exists k. rewrite E, append_nil_r. auto.
Qed.

Lemma pad_zeros (j k : nat) (n : Z) :
  0 <= n < pow10 k ->
  pad (j + k) n = PyStr.zeros j ++ pad k n.
Proof.
  intro H. induction j as [|j IH]; [reflexivity|].
  cbn [Nat.add pad PyStr.zeros append].
  assert (Hb : n < pow10 (j + k)).
  { clear IH. induction j as [|j IHj]; [exact (proj2 H)|].
    cbn [Nat.add]. rewrite pow10_S. pose proof (pow10_pos (j + k)). lia. }
  rewrite Z.div_small, Z.mod_small by lia.
  rewrite IH. reflexivity.
Qed.

Lemma pow10_mono (j k : nat) : (j <= k)%nat -> pow10 j <= pow10 k.
Proof.
  intro H. unfold pow10. apply Z.pow_le_mono_r; lia.
Qed.

(** A first character that is a digit is neither a sign nor white space. *)
Lemma digit_not_sign (c : ascii) :
  PyStr.is_digit c = true ->
  Ascii.eqb c "-" = false /\ Ascii.eqb c "+" = false
  /\ PyStr.is_space c = false.
Proof.
  destruct c as [[] [] [] [] [] [] [] []]; intro H;
    try discriminate H; repeat split.
Qed.

Lemma zfill_str (w : nat) (n : Z) :
  (1 <= w)%nat -> 0 <= n < pow10 w ->
  PyStr.zfill (Z.of_nat w) (PyStr.str n) = pad w n.
Proof.
  intros Hw H.
  destruct (str_pad n (proj1 H)) as (k & Hk & E & Hlt & Hmin).
  assert (Hkw : (k <= w)%nat).
  { destruct Hmin as [->|Hmin]; [exact Hw|].
    destruct (Nat.le_gt_cases k w) as [?|G]; [assumption|].
    pose proof (pow10_mono w (k - 1) ltac:(lia)). lia. }
  unfold PyStr.zfill. rewrite E, pad_length.
  destruct (Z.leb_spec (Z.of_nat w) (Z.of_nat k)) as [L|L].
  - assert (k = w) by lia. now subst.
  - replace (Z.to_nat (Z.of_nat w - Z.of_nat k)) with (w - k)%nat by lia.
    assert (Ew : pad w n = PyStr.zeros (w - k) ++ pad k n).
    { rewrite <- (pad_zeros (w - k) k n (conj (proj1 H) Hlt)).
      f_equal. lia. }
    rewrite Ew.
    destruct k as [|k]; [lia|].
    cbn [pad].
    assert (Hd : 0 <= n / pow10 k <= 9)
      by (apply msd_bounds; lia).
    destruct (digit_char_spec _ Hd) as [Hdig _].
    destruct (PyStr.digit_char (n / pow10 k))
      as [[] [] [] [] [] [] [] []]; try discriminate Hdig; reflexivity.
Qed.

Lemma rev_aux_rev_aux (s acc acc' : string) :
  PyStr.rev_aux (PyStr.rev_aux s acc) acc' = PyStr.rev_aux acc (s ++ acc').
Proof.
  revert acc acc'. induction s as [|c s IH]; intros acc acc';
    [reflexivity|].
  cbn [PyStr.rev_aux append]. rewrite IH. reflexivity.
Qed.

Lemma rev_rev (s : string) : PyStr.rev (PyStr.rev s) = s.
Proof.
  unfold PyStr.rev. rewrite rev_aux_rev_aux. cbn. apply append_nil_r.
Qed.

Lemma all_digits_rev_aux (s acc : string) :
  all_digits s = true -> all_digits acc = true ->
  all_digits (PyStr.rev_aux s acc) = true.
Proof.
  revert acc. induction s as [|c s IH]; intros acc Hs Ha; [exact Ha|].
  cbn [all_digits] in Hs. apply andb_true_iff in Hs. destruct Hs as [Hc Hs].
  cbn [PyStr.rev_aux]. apply IH; [exact Hs|].
  cbn [all_digits]. now rewrite Hc, Ha.
Qed.

Lemma lstrip_digits (s : string) :
  all_digits s = true -> PyStr.lstrip s = s.
Proof.
  destruct s as [|c s]; [reflexivity|].
  cbn [all_digits]. intro H. apply andb_true_iff in H. destruct H as [Hc _].
  cbn [PyStr.lstrip].
  destruct (digit_not_sign c Hc) as (_ & _ & ->). reflexivity.
Qed.

Lemma strip_digits (s : string) :
  all_digits s = true -> PyStr.strip s = s.
Proof.
  intro H. unfold PyStr.strip.
  rewrite (lstrip_digits s H).
  rewrite lstrip_digits; [apply rev_rev|].
  apply all_digits_rev_aux; [exact H|reflexivity].
Qed.

(** [int] reads the [k] digits of [n] back as [n]. *)
Lemma int_pad (k : nat) (n : Z) :
  (1 <= k)%nat -> 0 <= n < pow10 k -> PyStr.int (pad k n) = Some n.
Proof.
  intros Hk H. unfold PyStr.int.
  rewrite (strip_digits _ (pad_all_digits k n H)).
  rewrite <- (parse_pad_fresh k n Hk H).
  destruct k as [|k]; [lia|].
  cbn [pad].
  assert (Hd : 0 <= n / pow10 k <= 9) by (apply msd_bounds; exact H).
  destruct (digit_char_spec _ Hd) as [Hdig _].
  destruct (PyStr.digit_char (n / pow10 k))
    as [[] [] [] [] [] [] [] []]; try discriminate Hdig; reflexivity.
Qed.

Lemma strip_prefix_app (p s : string) :
  PyStr.strip_prefix p (p ++ s) = Some s.
Proof.
  induction p as [|c p IH]; [reflexivity|].
  cbn [append PyStr.strip_prefix]. now rewrite Ascii.eqb_refl.
Qed.

Lemma strip_prefix_some (p s r : string) :
  PyStr.strip_prefix p s = Some r -> s = p ++ r.
Proof.
  revert s. induction p as [|c p IH]; intros s H.
  - cbn in H. now injection H as ->.
  - destruct s as [|d s]; [discriminate H|].
    cbn [PyStr.strip_prefix] in H.
    destruct (Ascii.eqb_spec c d) as [->|]; [|discriminate H].
    cbn [append]. f_equal. now apply IH.
Qed.

Lemma all_digits_app (a b : string) :
  all_digits (a ++ b) = all_digits a && all_digits b.
Proof.
  induction a as [|c a IH]; [reflexivity|].
  cbn [append all_digits]. rewrite IH. apply andb_assoc.
Qed.

(** A string of digits holds no occurrence of a text that ends in "-". *)
Lemma strip_prefix_digits (p s : string) :
  all_digits s = true -> PyStr.strip_prefix (p ++ "-") s = None.
Proof.
  intro H. destruct (PyStr.strip_prefix (p ++ "-") s) as [r|] eqn:E;
    [|reflexivity].
  apply strip_prefix_some in E. subst s.
  rewrite !all_digits_app in H. cbn in H.
  rewrite andb_false_r in H. discriminate H.
Qed.

Lemma remove_all_aux_digits (fuel : nat) (p s : string) :
  all_digits s = true -> PyStr.remove_all_aux fuel (p ++ "-") s = s.
Proof.
  revert s. induction fuel as [|fuel IH]; intros s H; [reflexivity|].
  destruct s as [|c s]; [reflexivity|].
  cbn [PyStr.remove_all_aux].
  rewrite (strip_prefix_digits p _ H).
  cbn [all_digits] in H. apply andb_true_iff in H. destruct H as [_ H].
  now rewrite (IH s H).
Qed.

Lemma remove_all_prefix (p s : string) :
  all_digits s = true ->
  PyStr.remove_all (p ++ "-") (p ++ "-" ++ s) = s.
Proof.
  intro H. unfold PyStr.remove_all.
  destruct (p ++ "-") as [|c old] eqn:E.
  { destruct p; discriminate E. }
  rewrite <- E. rewrite <- append_assoc.
  destruct ((p ++ "-") ++ s) as [|d t] eqn:Et.
  { destruct p; discriminate Et. }
  rewrite <- Et. cbn [String.length PyStr.remove_all_aux].
  rewrite Et at 1. rewrite strip_prefix_app.
  apply remove_all_aux_digits. exact H.
Qed.

Lemma compare_app (p a b : string) :
  String.compare (p ++ a) (p ++ b) = String.compare a b.
Proof.
  induction p as [|c p IH]; [reflexivity|].
  cbn [append String.compare].
  unfold Ascii.compare. rewrite N.compare_refl. exact IH.
Qed.

Section WithinWidth.

Variable cfg : InvoiceSettings.

Hypothesis width_pos : 1 <= INVOICE_NUMBER_LENGTH cfg.

Let w : nat := Z.to_nat (INVOICE_NUMBER_LENGTH cfg).

Lemma number_text_pad (n : Z) :
  fits cfg n ->
  number_text cfg n = INVOICE_NUMBER_PREFIX cfg ++ "-" ++ pad w n.
Proof.
  intro H. unfold number_text, fits in *.
  rewrite <- (Z2Nat.id (INVOICE_NUMBER_LENGTH cfg)) by lia.
  fold w. rewrite zfill_str; [reflexivity|unfold w; lia|].
  unfold pow10. fold w in H. unfold w in *.
  rewrite Z2Nat.id by lia. exact H.
Qed.

Lemma fits_pow10 (n : Z) : fits cfg n -> 0 <= n < pow10 w.
Proof.
  unfold fits, pow10, w. now rewrite Z2Nat.id by lia.
Qed.

Lemma ltb_number_text (a b : Z) :
  fits cfg a -> fits cfg b ->
  String.ltb (number_text cfg a) (number_text cfg b) = (a <? b).
Proof.
  intros Ha Hb. unfold String.ltb.
  rewrite (number_text_pad a Ha), (number_text_pad b Hb).
  rewrite compare_app, (compare_app "-").
  rewrite (compare_pad w a b (fits_pow10 a Ha) (fits_pow10 b Hb)).
  unfold Z.ltb. destruct (a ?= b); reflexivity.
Qed.

Lemma int_number_text (n : Z) :
  fits cfg n ->
  PyStr.int (PyStr.remove_all (INVOICE_NUMBER_PREFIX cfg ++ "-")
               (number_text cfg n)) = Some n.
Proof.
  intro H. rewrite (number_text_pad n H).
  rewrite remove_all_prefix
    by (apply pad_all_digits, fits_pow10, H).
  apply int_pad; [unfold w; lia|apply fits_pow10, H].
Qed.

Variable suffix : InvoiceNew.t -> Z.

Lemma last_by_invoice_number_from (rows : list InvoiceNew.t) :
  forall b : InvoiceNew.t,
    well_numbered cfg suffix b ->
    (forall r, In r rows -> well_numbered cfg suffix r) ->
    exists last,
      fold_left
        (fun best inv =>
           match best with
           | None => Some inv
           | Some b =>
               if String.ltb (InvoiceNew.invoice_number b)
                    (InvoiceNew.invoice_number inv)
               then Some inv else Some b
           end) rows (Some b) = Some last
      /\ well_numbered cfg suffix last
      /\ suffix b <= suffix last
      /\ (forall r, In r rows -> suffix r <= suffix last).
Proof.
  induction rows as [|x rows IH]; intros b Hb Hall.
  - exists b. split; [reflexivity|]. split; [exact Hb|].
    split; [lia|]. intros r [].
  - cbn [fold_left].
    assert (Hx : well_numbered cfg suffix x) by (apply Hall; now left).
    assert (Hrest : forall r, In r rows -> well_numbered cfg suffix r)
      by (intros r Hr; apply Hall; now right).
    destruct Hb as [Fb Nb]. destruct Hx as [Fx Nx].
    rewrite Nb, Nx, (ltb_number_text _ _ Fb Fx).
    destruct (Z.ltb_spec (suffix b) (suffix x)) as [L|L].
    + destruct (IH x (conj Fx Nx) Hrest) as (last & E & Hl & Hle & Hmax).
      exists last. split; [exact E|]. split; [exact Hl|].
      split; [lia|]. intros r [<-|Hr]; [exact Hle|now apply Hmax].
    + destruct (IH b (conj Fb Nb) Hrest) as (last & E & Hl & Hle & Hmax).
      exists last. split; [exact E|]. split; [exact Hl|].
      split; [exact Hle|]. intros r [<-|Hr]; [lia|now apply Hmax].
Qed.

(** X19.  While every stored number is the text of a suffix that fits the
    width and the next suffix fits it too, the generator returns the text
    of the highest stored suffix plus one, and that text is greater than
    every stored number. *)
Theorem generate_invoice_number_within_width (s : Session) :
  invoices (working s) <> [] ->
  (forall r, In r (invoices (working s)) ->
             well_numbered cfg suffix r /\ fits cfg (suffix r + 1)) ->
  exists last,
    In last (invoices (working s))
    /\ (forall r, In r (invoices (working s)) -> suffix r <= suffix last)
    /\ _generate_invoice_number cfg s
       = (Ok (number_text cfg (suffix last + 1)), s)
    /\ (forall r, In r (invoices (working s)) ->
                  String.ltb (InvoiceNew.invoice_number r)
                    (number_text cfg (suffix last + 1)) = true).
Proof.
  intros Hne Hall.
  destruct (invoices (working s)) as [|r0 rows] eqn:Erows; [congruence|].
  assert (H0 : well_numbered cfg suffix r0) by (apply Hall; now left).
  assert (Hrest : forall r, In r rows -> well_numbered cfg suffix r)
    by (intros r Hr; apply Hall; now right).
  destruct (last_by_invoice_number_from rows r0 H0 Hrest)
    as (last & E & Hl & Hle & Hmax).
  assert (Hin : In last (r0 :: rows)).
  { clear - E. revert r0 E. induction rows as [|x rows IH]; intros b E.
    - cbn in E. injection E as ->. now left.
    - cbn [fold_left] in E.
      destruct (String.ltb _ _).
      + destruct (IH x E) as [<-|H]; [right; now left|right; now right].
      + destruct (IH b E) as [<-|H]; [now left|right; now right]. }
  exists last. split; [exact Hin|].
  assert (Hall_le : forall r, In r (r0 :: rows) -> suffix r <= suffix last).
  { intros r [<-|Hr]; [exact Hle|now apply Hmax]. }
  split; [exact Hall_le|].
  destruct (Hall last Hin) as [_ Hnext].
  split.
  - unfold _generate_invoice_number, bind, get_tables, ret.
    rewrite Erows. unfold last_by_invoice_number. cbn [fold_left].
    rewrite E. destruct Hl as [Fl Nl].
    rewrite Nl, (int_number_text _ Fl). reflexivity.
  - intros r Hr. destruct (Hall r Hr) as [[Fr Nr] _].
    rewrite Nr, (ltb_number_text _ _ Fr Hnext).
    apply Z.ltb_lt. specialize (Hall_le r Hr). lia.
Qed.

End WithinWidth.

(** After INV-000041 and INV-000007 comes INV-000042. *)
Lemma within_width_instance :
  exists last,
    In last
      (invoices
         (working
            (Fixture.with_invoice_rows
               [Fixture.invoice_row "inv_1" "INV-000041" None None None 0;
                Fixture.invoice_row "inv_2" "INV-000007" None None None
                  0])))
    /\ Fixture.suffix_of last = 41
    /\ _generate_invoice_number invoice_settings
         (Fixture.with_invoice_rows
            [Fixture.invoice_row "inv_1" "INV-000041" None None None 0;
             Fixture.invoice_row "inv_2" "INV-000007" None None None 0])
       = (Ok (number_text invoice_settings (Fixture.suffix_of last + 1)),
          Fixture.with_invoice_rows
            [Fixture.invoice_row "inv_1" "INV-000041" None None None 0;
             Fixture.invoice_row "inv_2" "INV-000007" None None None 0]).
Proof.
  destruct (generate_invoice_number_within_width invoice_settings
              ltac:(cbn; lia) Fixture.suffix_of
              (Fixture.with_invoice_rows
                 [Fixture.invoice_row "inv_1" "INV-000041" None None None 0;
                  Fixture.invoice_row "inv_2" "INV-000007" None None None
                    0]))
    as (last & Hin & Hmax & E & _).
  - discriminate.
  - intros r [<-|[<-|[]]]; repeat split; try reflexivity;
      try (cbn; lia); vm_compute; intro; discriminate.
  - exists last. split; [exact Hin|]. split; [|exact E].
    assert (H41 := Hmax _ (or_introl eq_refl)).
    destruct Hin as [<-|[<-|[]]]; [reflexivity|].
    vm_compute in H41. now contradiction H41.
Defined.

(** ** C3: invoice numbers *)

(** From an empty table the first number is INV-000001, and after
    INV-000041 comes INV-000042. *)
Example first_invoice_numbers :
  _generate_invoice_number invoice_settings Fixture.session0
  = (Ok "INV-000001", Fixture.session0)
  /\ (let s := Fixture.with_invoice_rows
                 [Fixture.invoice_row "inv_1" "INV-000041" None None None 0]
      in _generate_invoice_number invoice_settings s = (Ok "INV-000042", s)).
Proof. split; reflexivity. Qed.

(** Within the width, a single writer starting from an empty table gets
    consecutive numbers. *)
Example twelve_invoice_numbers :
  fst (Fixture.issue_numbers invoice_settings 12 Fixture.session0)
  = Ok ["INV-000001"; "INV-000002"; "INV-000003"; "INV-000004";
        "INV-000005"; "INV-000006"; "INV-000007"; "INV-000008";
        "INV-000009"; "INV-000010"; "INV-000011"; "INV-000012"].
Proof. vm_compute. reflexivity. Qed.

(** C3 fails on the code.  With the default settings (prefix INV, width 6)
    the generator answers INV-1000000 when the table holds INV-999999, and
    answers INV-1000000 again once that invoice is stored: the ordering of
    the text column keeps INV-999999 as the last invoice, so the number is
    repeated instead of increased.  With a width of 1 a single writer that
    starts from an empty table gets the same number twice at the eleventh
    invoice. *)
Theorem C3_number_repeats_past_width :
  _generate_invoice_number invoice_settings
    (Fixture.with_invoice_rows [Fixture.numbered_999999])
  = (Ok "INV-1000000", Fixture.with_invoice_rows [Fixture.numbered_999999])
  /\ _generate_invoice_number invoice_settings
       (Fixture.with_invoice_rows
          [Fixture.numbered_999999; Fixture.numbered_1000000])
     = (Ok "INV-1000000",
        Fixture.with_invoice_rows
          [Fixture.numbered_999999; Fixture.numbered_1000000])
  /\ last_by_invoice_number
       [Fixture.numbered_999999; Fixture.numbered_1000000]
     = Some Fixture.numbered_999999
  /\ fst (Fixture.issue_numbers Fixture.width1 11 Fixture.session0)
     = Ok ["INV-1"; "INV-2"; "INV-3"; "INV-4"; "INV-5"; "INV-6"; "INV-7";
           "INV-8"; "INV-9"; "INV-10"; "INV-10"].
Proof.
  split; [|split; [|split]]; vm_compute; reflexivity.
Qed.

Local Open Scope Q_scope.


(** ** Creation, then lookup *)

Section CreatedInvoice.

Variable cfg : InvoiceSettings.
Variable env : Env.

(** X1.  A creation that returns has committed the invoice together with
    its items: the invoice is the last invoice row, its items are the last
    item rows and carry its id, no invoice stored before carried its id or
    its number, [get_by_id] finds it under its id, and every other id
    resolves as before. *)
Theorem created_invoice_is_stored (a : Args.t) (s : Session)
  (inv : InvoiceNew.t) (s' : Session) :
  create_on_the_fly cfg env a s = (Ok inv, s') ->
  committed s' = working s'
  /\ invoices (committed s') = (invoices (working s) ++ [inv])%list
  /\ invoice_items (committed s')
     = (invoice_items (working s) ++ InvoiceNew.items inv)%list
  /\ Forall (fun it => InvoiceNewItem.invoice_id it
                       = InvoiceNew.bubble_id inv) (InvoiceNew.items inv)
  /\ find_by_id (working s) (InvoiceNew.bubble_id inv) = None
  /\ number_is_new (working s) (InvoiceNew.invoice_number inv)
  /\ get_by_id (InvoiceNew.bubble_id inv) s' = (Ok (Some inv), s')
  /\ (forall other, other <> InvoiceNew.bubble_id inv ->
        get_by_id other s' = (Ok (find_by_id (working s) other), s')).
Proof.
  intro E.
  destruct (create_on_the_fly_returned cfg env a s inv s' E)
    as (package & customer & s1 & fin & C).
  pose proof (cr_committed _ _ _ _ _ _ _ _ _ _ C) as Hc.
  pose proof (cr_invoices _ _ _ _ _ _ _ _ _ _ C) as Hi.
  pose proof (cr_items _ _ _ _ _ _ _ _ _ _ C) as Hit.
  pose proof (cr_new_id _ _ _ _ _ _ _ _ _ _ C) as Hfresh.
  split; [exact Hc|]. rewrite Hc.
  split; [exact Hi|]. split; [exact Hit|].
  split.
  { rewrite (created_items _ _ _ _ _ _ _ _ _ _ C).
    rewrite (cr_returned _ _ _ _ _ _ _ _ _ _ C).
    cbn [InvoiceNew.as_stored InvoiceNew.bubble_id].
    apply Forall_as_stored.
    unfold created_lines, package_line, fixed_lines,
      percent_lines, voucher_lines, fee_lines.
    destruct (truthy_dec (Args.discount_fixed a)
              && Qgtb (Args.discount_fixed a) 0);
      destruct (truthy_dec (Args.discount_percent a)
                && Qgtb (Args.discount_percent a) 0);
      destruct (truthy_ostr (Args.voucher_code a) && Qgtb _ 0);
      (destruct (Args.epp_fee_amount a) as [fee|];
       [destruct (truthy_dec fee && Qgtb fee 0
                  && truthy_ostr (Args.epp_fee_description a))|]);
      repeat constructor. }
  split; [exact Hfresh|].
  split; [exact (cr_new_number _ _ _ _ _ _ _ _ _ _ C)|].
  unfold get_by_id, bind, get_tables, ret. rewrite Hi.
  split.
  - rewrite (find_app_last _ _ inv); [reflexivity|exact Hfresh|].
    apply String.eqb_refl.
  - intros other Hne. unfold find_by_id.
    rewrite find_app_first; [reflexivity|].
    apply String.eqb_neq. congruence.
Qed.

(** X2.  The share link of an invoice a creation returned resolves to that
    invoice for every reader whose clock is not past
    [now + SHARE_LINK_EXPIRY_DAYS] days, and is not found by any later
    reader; no invoice stored before carried its token. *)
Theorem created_share_link_lifetime (a : Args.t) (s : Session)
  (inv : InvoiceNew.t) (s' : Session) :
  create_on_the_fly cfg env a s = (Ok inv, s') ->
  InvoiceNew.share_token inv = Some (share_urlsafe env)
  /\ find_by_token (working s) (share_urlsafe env) = None
  /\ forall reader : Env,
       ((now reader <= expiry_of_new_link cfg env)%Z ->
        get_by_share_token reader (share_urlsafe env) s'
        = (Ok (Some inv), s'))
       /\ ((expiry_of_new_link cfg env < now reader)%Z ->
           get_by_share_token reader (share_urlsafe env) s'
           = (Ok None, s')).
Proof.
  intro E.
  destruct (create_on_the_fly_returned cfg env a s inv s' E)
    as (package & customer & s1 & fin & C).
  pose proof (cr_invoices _ _ _ _ _ _ _ _ _ _ C) as Hi.
  pose proof (cr_new_token _ _ _ _ _ _ _ _ _ _ C) as Htok.
  pose proof (cr_returned _ _ _ _ _ _ _ _ _ _ C) as Hr.
  assert (Ht : InvoiceNew.share_token inv = Some (share_urlsafe env)).
  { rewrite Hr. cbn [InvoiceNew.as_stored InvoiceNew.share_token].
    exact (cr_share_token _ _ _ _ _ _ _ _ _ _ C). }
  assert (Hen : InvoiceNew.share_enabled inv = Some true).
  { rewrite Hr. cbn [InvoiceNew.as_stored InvoiceNew.share_enabled].
    exact (cr_share_enabled _ _ _ _ _ _ _ _ _ _ C). }
  assert (Hex : InvoiceNew.share_expires_at inv
                = Some (expiry_of_new_link cfg env)).
  { rewrite Hr. cbn [InvoiceNew.as_stored InvoiceNew.share_expires_at].
    exact (cr_share_expires_at _ _ _ _ _ _ _ _ _ _ C). }
  split; [exact Ht|]. split; [exact Htok|].
  intro reader.
  assert (F : find_by_token (working s') (share_urlsafe env) = Some inv).
  { unfold find_by_token in *. rewrite Hi.
    apply find_app_last; [exact Htok|].
    rewrite Ht. cbn [col_eq_str]. apply String.eqb_refl. }
  unfold find_by_token in F.
  unfold get_by_share_token, bind, get_tables, ret. rewrite F, Hen, Hex.
  cbn [truthy_obool].
  split; intro H.
  - destruct (Z.ltb_spec (expiry_of_new_link cfg env) (now reader));
      [lia|reflexivity].
  - destruct (Z.ltb_spec (expiry_of_new_link cfg env) (now reader));
      [reflexivity|lia].
Qed.

(** The customer of a returned invoice is what step 2 returned. *)
Lemma created_customer (a : Args.t) (s : Session) (inv : InvoiceNew.t)
  (s' : Session) (package : Package.t)
  (customer : option Z * string * option string * option string
              * option string)
  (s1 : Session) (fin : InvoiceNew.t) :
  Created cfg env a s inv s' package customer s1 fin ->
  customer = (InvoiceNew.customer_id inv,
              InvoiceNew.customer_name_snapshot inv,
              InvoiceNew.customer_phone_snapshot inv,
              InvoiceNew.customer_address_snapshot inv,
              InvoiceNew.customer_email_snapshot inv).
Proof.
  intro C. rewrite (cr_returned _ _ _ _ _ _ _ _ _ _ C).
  exact (cr_snapshots _ _ _ _ _ _ _ _ _ _ C).
Qed.

(** X3.  What a creation that returns has done with the customer.  Without
    a customer name (absent or empty) no customer row is written, the
    invoice has no customer id, its name snapshot is "Sample Quotation" and
    its phone and address snapshots are the arguments.  With the name of a
    stored customer, no row is written and the id and every snapshot come
    from the stored row, the phone and address arguments being ignored.
    With a new name, exactly one customer row is added, with the name,
    phone and address given, the row id the store assigned and a
    [customer_id] that, like the row id, no customer stored before carried,
    and the invoice refers to it. *)
Theorem created_invoice_customer (a : Args.t) (s : Session)
  (inv : InvoiceNew.t) (s' : Session) :
  create_on_the_fly cfg env a s = (Ok inv, s') ->
  (truthy_ostr (Args.customer_name a) = false ->
   customers (working s') = customers (working s)
   /\ InvoiceNew.customer_id inv = None
   /\ InvoiceNew.customer_name_snapshot inv = "Sample Quotation"
   /\ InvoiceNew.customer_phone_snapshot inv = Args.customer_phone a
   /\ InvoiceNew.customer_address_snapshot inv = Args.customer_address a
   /\ InvoiceNew.customer_email_snapshot inv = None)
  /\ (forall cname c,
         Args.customer_name a = Some cname ->
         truthy_str cname = true ->
         find_customer (working s) cname = Some c ->
         customers (working s') = customers (working s)
         /\ InvoiceNew.customer_id inv = Some (Customer.id c)
         /\ InvoiceNew.customer_name_snapshot inv = cname
         /\ InvoiceNew.customer_phone_snapshot inv = Customer.phone c
         /\ InvoiceNew.customer_address_snapshot inv = Customer.address c
         /\ InvoiceNew.customer_email_snapshot inv = Customer.email c)
  /\ (forall cname,
         Args.customer_name a = Some cname ->
         truthy_str cname = true ->
         find_customer (working s) cname = None ->
         exists c,
           customers (working s') = (customers (working s) ++ [c])%list
           /\ Customer.name c = cname
           /\ Customer.phone c = Args.customer_phone a
           /\ Customer.address c = Args.customer_address a
           /\ Customer.email c = None
           /\ Customer.created_by c = Args.created_by a
           /\ Customer.customer_id c = "cust_" ++ customer_hex env
           /\ Customer.id c = customer_row_id env
           /\ (forall old, In old (customers (working s)) ->
                 Customer.id old <> Customer.id c
                 /\ Customer.customer_id old <> Customer.customer_id c)
           /\ InvoiceNew.customer_id inv = Some (Customer.id c)
           /\ InvoiceNew.customer_name_snapshot inv = cname
           /\ InvoiceNew.customer_phone_snapshot inv = Args.customer_phone a
           /\ InvoiceNew.customer_address_snapshot inv
              = Args.customer_address a
           /\ InvoiceNew.customer_email_snapshot inv = None).
Proof.
  intro E.
  destruct (create_on_the_fly_returned cfg env a s inv s' E)
    as (package & customer & s1 & fin & C).
  pose proof (created_customer _ _ _ _ _ _ _ _ C) as Hr.
  pose proof (cr_customers _ _ _ _ _ _ _ _ _ _ C) as Hcu.
  pose proof (handle_customer_ok env a s customer s1
                (cr_customer _ _ _ _ _ _ _ _ _ _ C))
    as (_ & _ & _ & _ & _ & _ & _ & Hcase).
  rewrite Hr in Hcase. rewrite Hcu. clear E C Hr Hcu.
  split; [|split].
  - intro Hn. destruct (Args.customer_name a) as [cname|].
    + cbn [truthy_ostr] in Hn. rewrite Hn in Hcase.
      destruct Hcase as [Hc Ht]. injection Ht as -> -> -> -> ->.
      repeat split. exact Hc.
    + destruct Hcase as [Hc Ht]. injection Ht as -> -> -> -> ->.
      repeat split. exact Hc.
  - intros cname c Hname Htr Hc. rewrite Hname, Htr, Hc in Hcase.
    destruct Hcase as [Hcs Ht]. injection Ht as -> -> -> -> ->.
    assert (Customer.name c = cname).
    { unfold find_customer in Hc. apply find_some in Hc.
      destruct Hc as [_ Hc]. now apply String.eqb_eq in Hc. }
    repeat split; assumption.
  - intros cname Hname Htr Hc. rewrite Hname, Htr, Hc in Hcase.
    destruct Hcase as (Hcs & Ht & Hnew). injection Ht as -> -> -> -> ->.
    exists (new_customer env a cname).
    split; [exact Hcs|].
    cbn [new_customer Customer.name Customer.phone Customer.address
         Customer.email Customer.customer_id Customer.id
         Customer.created_by].
    repeat split; try apply (Hnew old); assumption.
Qed.

End CreatedInvoice.

Section CreatedTwice.

Variable cfg : InvoiceSettings.

(** X4.  Two creations in a row for the same customer name, both of which
    return, share one customer: the second creation writes no customer row
    and its invoice carries the customer id of the first. *)
Theorem same_name_shares_customer (env1 env2 : Env) (a1 a2 : Args.t)
  (s : Session) (cname : string) (inv1 inv2 : InvoiceNew.t)
  (s1 s2 : Session) :
  Args.customer_name a1 = Some cname ->
  Args.customer_name a2 = Some cname ->
  truthy_str cname = true ->
  create_on_the_fly cfg env1 a1 s = (Ok inv1, s1) ->
  create_on_the_fly cfg env2 a2 s1 = (Ok inv2, s2) ->
  exists cid,
    customers (working s2) = customers (working s1)
    /\ InvoiceNew.customer_id inv1 = Some cid
    /\ InvoiceNew.customer_id inv2 = Some cid
    /\ InvoiceNew.customer_name_snapshot inv2 = cname.
Proof.
  intros Hn1 Hn2 Htr E1 E2.
  destruct (create_on_the_fly_returned cfg env1 a1 s inv1 s1 E1)
    as (package1 & customer1 & m1 & fin1 & C1).
  destruct (create_on_the_fly_returned cfg env2 a2 s1 inv2 s2 E2)
    as (package2 & customer2 & m2 & fin2 & C2).
  pose proof (created_customer _ _ _ _ _ _ _ _ _ _ C1) as Hr1.
  pose proof (created_customer _ _ _ _ _ _ _ _ _ _ C2) as Hr2.
  pose proof (cr_customers _ _ _ _ _ _ _ _ _ _ C1) as Hcu1.
  pose proof (cr_customers _ _ _ _ _ _ _ _ _ _ C2) as Hcu2.
  pose proof (handle_customer_ok env1 a1 s customer1 m1
                (cr_customer _ _ _ _ _ _ _ _ _ _ C1))
    as (_ & _ & _ & _ & _ & _ & _ & Hcase1).
  pose proof (handle_customer_ok env2 a2 s1 customer2 m2
                (cr_customer _ _ _ _ _ _ _ _ _ _ C2))
    as (_ & _ & _ & _ & _ & _ & _ & Hcase2).
  rewrite Hn1, Htr, Hr1 in Hcase1.
  (* after the first creation the name is that of a stored customer *)
  assert (Hc : exists c,
             find_customer (working s1) cname = Some c
             /\ InvoiceNew.customer_id inv1 = Some (Customer.id c)).
  { unfold find_customer in *. rewrite Hcu1.
    destruct (find _ (customers (working s))) as [c|] eqn:Ec.
    - destruct Hcase1 as [Hcs Ht]. injection Ht as -> _ _ _ _.
      exists c. rewrite Hcs, Ec. split; reflexivity.
    - destruct Hcase1 as (Hcs & Ht & _). injection Ht as -> _ _ _ _.
      exists (new_customer env1 a1 cname).
      rewrite Hcs. split; [|reflexivity].
      apply find_app_last; [exact Ec|].
      cbn [new_customer Customer.name]. apply String.eqb_refl. }
  destruct Hc as (c & Hc & Hid1).
  rewrite Hn2, Htr, Hc, Hr2 in Hcase2.
  destruct Hcase2 as [Hcs2 Ht2]. injection Ht2 as Hid2 Hname2 _ _ _.
  exists (Customer.id c).
  split; [rewrite Hcu2; exact Hcs2|].
  split; [exact Hid1|]. split; [exact Hid2|].
  rewrite Hname2. unfold find_customer in Hc. apply find_some in Hc.
  destruct Hc as [_ Hc]. now apply String.eqb_eq in Hc.
Qed.

End CreatedTwice.

Section StoredAmounts.

Variable cfg : InvoiceSettings.
Variable env : Env.








End StoredAmounts.

(** ** Totals, again *)

Section TotalsAgain.

Lemma replace_invoice_twice (x : InvoiceNew.t) (l : list InvoiceNew.t) :
  replace_invoice x (replace_invoice x l) = replace_invoice x l.
Proof.
  induction l as [|y l IH]; [reflexivity|].
  cbn [replace_invoice].
  destruct (String.eqb (InvoiceNew.bubble_id y) (InvoiceNew.bubble_id x))
    eqn:E; cbn [replace_invoice].
  - now rewrite String.eqb_refl.
  - now rewrite E, IH.
Qed.

(** X6.  Computing the totals a second time changes nothing: on the invoice
    and the session that [_calculate_invoice_totals] returns, another call
    returns the same invoice and the same session. *)
Theorem calculate_invoice_totals_twice (invoice : InvoiceNew.t)
  (s : Session) :
  exists inv1 s1,
    _calculate_invoice_totals invoice s = (Ok inv1, s1)
    /\ _calculate_invoice_totals inv1 s1 = (Ok inv1, s1).
Proof.
  eexists _, _. split.
  { cbv beta iota zeta
      delta [_calculate_invoice_totals bind get_tables flush_invoice
             put_working ret].
    reflexivity. }
  cbv beta iota zeta
    delta [_calculate_invoice_totals bind get_tables flush_invoice
           put_working ret].
  cbn [working committed].
  assert (Hof : forall a b c d e l,
             items_of
               (with_invoices l (working s))
               (InvoiceNew.set_totals a b c d e invoice)
             = items_of (working s) invoice).
  { intros. reflexivity. }
  rewrite !Hof.
  cbn [InvoiceNew.sst_rate InvoiceNew.set_totals].
  unfold with_invoices at 1.
  cbn [invoices with_invoices packages customers vouchers templates
       invoice_items].
  rewrite replace_invoice_twice.
  reflexivity.
Qed.

(** X7.  With a rate that is not negative, the tax is not negative, the
    total is not below the subtotal, and the total is negative exactly when
    the subtotal is. *)
Theorem tax_never_lowers_the_total (invoice : InvoiceNew.t) (s : Session) :
  0 <= InvoiceNew.sst_rate invoice ->
  exists inv' s',
    _calculate_invoice_totals invoice s = (Ok inv', s')
    /\ 0 <= InvoiceNew.sst_amount inv'
    /\ InvoiceNew.subtotal inv' <= InvoiceNew.total_amount inv'
    /\ (InvoiceNew.total_amount inv' < 0 <-> InvoiceNew.subtotal inv' < 0).
Proof.
  intro Hr.
  destruct (calculate_invoice_totals_run invoice s)
    as (inv' & s' & E & _ & Hsst & Htot & _).
  exists inv', s'. split; [exact E|].
  assert (T : 0 <= InvoiceNew.sst_amount inv').
  { rewrite Hsst. destruct (Qgtb (InvoiceNew.subtotal inv') 0) eqn:G;
      [|apply Qle_refl].
    apply Qgtb_true in G.
    apply Qmult_le_0_compat; [now apply Qlt_le_weak|].
    apply Qle_shift_div_l; [reflexivity|]. now rewrite Qmult_0_l. }
  split; [exact T|]. rewrite Htot. split; [lra|].
  split; intro H; [lra|].
  assert (G : Qgtb (InvoiceNew.subtotal inv') 0 = false)
    by (apply Qgtb_false, Qlt_le_weak, H).
  rewrite Hsst, G. lra.
Qed.

End TotalsAgain.

(** ** Templates and the public share routes *)

Section Templates.

(** X8.  [get_default_template_data] reads only.  It finds a template
    exactly when some template is active; the template it finds is active,
    and is a default one whenever an active default template exists. *)
Theorem default_template_data_is_active (s : Session) :
  exists r,
    get_default_template_data s = (Ok r, s)
    /\ (r = None <->
        forall t, In t (templates (working s)) ->
                  col_is_true (InvoiceTemplate.active t) = false)
    /\ (forall t, r = Some t ->
          In t (templates (working s))
          /\ InvoiceTemplate.active t = Some true
          /\ ((exists d, In d (templates (working s))
                         /\ InvoiceTemplate.is_default d = Some true
                         /\ InvoiceTemplate.active d = Some true) ->
              InvoiceTemplate.is_default t = Some true)).
Proof.
  unfold get_default_template_data, bind, get_tables, ret.
  set (l := templates (working s)).
  assert (Htrue : forall o, col_is_true o = true <-> o = Some true).
  { intros [[|]|]; cbn; split; congruence. }
  destruct (find (fun t => col_is_true (InvoiceTemplate.is_default t)
                           && col_is_true (InvoiceTemplate.active t)) l)
    as [d|] eqn:Ed.
  - exists (Some d). split; [reflexivity|].
    apply find_some in Ed. destruct Ed as [Hin Hd].
    apply andb_true_iff in Hd. destruct Hd as [Hdef Hact].
    split.
    + split; [discriminate|]. intro H. rewrite (H d Hin) in Hact.
      discriminate.
    + intros t Ht. injection Ht as <-.
      split; [exact Hin|]. split; [now apply Htrue|].
      intros _. now apply Htrue.
  - destruct (find (fun t => col_is_true (InvoiceTemplate.active t)) l)
      as [t0|] eqn:Ea.
    + exists (Some t0). split; [reflexivity|].
      apply find_some in Ea. destruct Ea as [Hin Hact].
      split.
      * split; [discriminate|]. intro H. rewrite (H t0 Hin) in Hact.
        discriminate.
      * intros t Ht. injection Ht as <-.
        split; [exact Hin|]. split; [now apply Htrue|].
        intros (d & Hd & Hdd & Hda). exfalso.
        pose proof (find_none _ _ Ed d Hd) as Hn. cbn in Hn.
        rewrite Hdd, Hda in Hn. discriminate Hn.
    + exists None. split; [reflexivity|].
      split.
      * split; [|reflexivity]. intros _ t Ht.
        exact (find_none _ _ Ea t Ht).
      * intros t Ht. discriminate Ht.
Qed.

End Templates.
(** ** Templates and the public share routes, continued *)

Section ShareRoutes.

Variable env : Env.
Variable generate_invoice_html :
  InvoiceNew.t -> option InvoiceTemplate.t -> option string ->
  option string -> string.
Variable generate_invoice_pdf : string -> string -> string + string.
Variable company_name : InvoiceTemplate.t -> string.

Lemma get_by_share_token_none (token : string) (s : Session) :
  (forall inv, find_by_token (working s) token = Some inv ->
               ~ share_open env inv) ->
  get_by_share_token env token s = (Ok None, s).
Proof.
  intro Hno.
  destruct (get_by_share_token_total env token s) as ([inv|] & E);
    [|exact E].
  exfalso. apply get_by_share_token_some in E. destruct E as (F & O).
  exact (Hno inv F O).
Qed.

Lemma fetch_template_data_reads (invoice : InvoiceNew.t) (s : Session) :
  exists t, PublicInvoice.fetch_template_data invoice s = (Ok t, s).
Proof.
  unfold PublicInvoice.fetch_template_data, get_template,
    get_default_template_data, bind, get_tables, ret.
  destruct (truthy_ostr (InvoiceNew.template_id invoice)).
  - destruct (find _ (templates (working s))); [eexists; reflexivity|].
    destruct (find _ (templates (working s))); eexists; reflexivity.
  - destruct (find _ (templates (working s))); eexists; reflexivity.
Qed.

(** The row a token selects is still selected after a view of it is
    recorded, and carries the view. *)
Lemma find_by_token_after_view (l : list InvoiceNew.t) (token : string)
  (inv inv' : InvoiceNew.t) :
  find (fun i => col_eq_str (InvoiceNew.share_token i) token) l = Some inv ->
  find (fun i => String.eqb (InvoiceNew.bubble_id i)
                   (InvoiceNew.bubble_id inv)) l = Some inv ->
  InvoiceNew.bubble_id inv' = InvoiceNew.bubble_id inv ->
  InvoiceNew.share_token inv' = InvoiceNew.share_token inv ->
  find (fun i => col_eq_str (InvoiceNew.share_token i) token)
    (replace_invoice inv' l) = Some inv'.
Proof.
  intros Ht Hi Hb Hs.
  assert (Htok : col_eq_str (InvoiceNew.share_token inv) token = true).
  { apply find_some in Ht. apply Ht. }
  induction l as [|h l IH]; [discriminate Ht|].
  cbn [find] in Ht, Hi. cbn [replace_invoice]. rewrite Hb.
  destruct (String.eqb (InvoiceNew.bubble_id h) (InvoiceNew.bubble_id inv))
    eqn:Eh.
  - cbn [find]. now rewrite Hs, Htok.
  - cbn [find].
    destruct (col_eq_str (InvoiceNew.share_token h) token) eqn:Et.
    + injection Ht as ->. rewrite String.eqb_refl in Eh. discriminate Eh.
    + now apply IH.
Qed.

(** A view of an invoice the token resolves to. *)
Lemma view_shared_invoice_found (share_token : string)
  (accept : option string) (base_url : string) (s : Session)
  (inv : InvoiceNew.t) (n : Z) :
  find_by_token (working s) share_token = Some inv ->
  share_open env inv ->
  find_by_id (working s) (InvoiceNew.bubble_id inv) = Some inv ->
  InvoiceNew.share_access_count inv = Some n ->
  (- 2 ^ 31 <= n + 1 <= 2 ^ 31 - 1)%Z ->
  exists out s' inv',
    PublicInvoice.view_shared_invoice env generate_invoice_html
      share_token accept base_url s = (out, s')
    /\ committed s' = working s'
    /\ find_by_token (working s') share_token = Some inv'
    /\ InvoiceNew.share_access_count inv' = Some (n + 1)%Z
    /\ InvoiceNew.viewed_at inv' = Some (now env)
    /\ InvoiceNew.updated_at inv' = Some (db_now env)
    /\ same_but_view inv inv'
    /\ (PyMore.contains "text/html"
          (match accept with Some h => h | None => "" end) = true ->
        exists template_data,
          PublicInvoice.fetch_template_data inv' s'
          = (Ok template_data, s')
          /\ out = Ok (PublicInvoice.HTMLResponse
                         (generate_invoice_html inv' template_data
                            (Some share_token) None)))
    /\ (PyMore.contains "text/html"
          (match accept with Some h => h | None => "" end) = false ->
        out = Raise (TypeError "Cannot instantiate typing.Union")).
Proof.
  intros Ht Ho Hid Hc Hr.
  assert (E : get_by_share_token env share_token s = (Ok (Some inv), s))
    by (apply get_by_share_token_some; split; assumption).
  unfold PublicInvoice.view_shared_invoice. unfold bind at 1. rewrite E.
  unfold bind at 1.
  rewrite (record_view_found env _ s inv n Hid Hc Hr).
  set (inv' := InvoiceNew.set_updated_at (db_now env)
                 (InvoiceNew.set_view (now env) (n + 1)%Z inv)).
  set (tb' := with_invoices (replace_invoice inv' (invoices (working s)))
                (working s)).
  assert (F : find_by_token tb' share_token = Some inv').
  { unfold find_by_token, tb'. cbn [invoices with_invoices].
    apply (find_by_token_after_view _ _ inv); try reflexivity;
      assumption. }
  unfold bind at 1. unfold PublicInvoice.reloaded at 1.
  unfold bind at 1. cbn [get_tables working]. rewrite F. cbn [ret].
  destruct (PyMore.contains "text/html"
              (match accept with Some h => h | None => "" end)) eqn:Ea.
  + destruct (fetch_template_data_reads inv'
                {| committed := tb'; working := tb' |}) as (t & Et).
    unfold bind at 1. rewrite Et. cbn [ret].
    eexists _, _, inv'. split; [reflexivity|].
    split; [reflexivity|].
    split; [exact F|]. split; [reflexivity|]. split; [reflexivity|].
    split; [reflexivity|].
    split; [repeat split|].
    split; [|discriminate].
    intros _. exists t. split; [exact Et|reflexivity].
  + eexists _, _, inv'. split; [reflexivity|].
    split; [reflexivity|].
    split; [exact F|]. split; [reflexivity|]. split; [reflexivity|].
    split; [reflexivity|].
    split; [repeat split|].
    split; [discriminate|]. reflexivity.
Qed.

(** X9.  A view through the public route.  A token that does not resolve
    gets the 404 answer and leaves the session alone.  For a token that
    resolves to an invoice whose counter holds [n], with [n + 1] within the
    column, exactly one view is recorded on the invoice and committed,
    whatever the request accepts: the counter becomes [n + 1], the viewed
    timestamp now, [updated_at] the instant of the store, and nothing else
    of the invoice changes.  A client that accepts HTML then gets the page
    rendered from the invoice as it is after the view; for any other
    client the route cannot build its answer and the request ends in
    [TypeError], after the view has been committed. *)
Theorem view_shared_invoice_records_a_view (share_token : string)
  (accept : option string) (base_url : string) (s : Session) :
  ((forall inv, find_by_token (working s) share_token = Some inv ->
                ~ share_open env inv) ->
   PublicInvoice.view_shared_invoice env generate_invoice_html share_token
     accept base_url s
   = (Ok (PublicInvoice.HTTPException 404
            "Invoice not found or link expired"), s))
  /\ (forall inv n,
         find_by_token (working s) share_token = Some inv ->
         share_open env inv ->
         find_by_id (working s) (InvoiceNew.bubble_id inv) = Some inv ->
         InvoiceNew.share_access_count inv = Some n ->
         (- 2 ^ 31 <= n + 1 <= 2 ^ 31 - 1)%Z ->
         exists out s' inv',
           PublicInvoice.view_shared_invoice env generate_invoice_html
             share_token accept base_url s = (out, s')
           /\ committed s' = working s'
           /\ find_by_token (working s') share_token = Some inv'
           /\ InvoiceNew.share_access_count inv' = Some (n + 1)%Z
           /\ InvoiceNew.viewed_at inv' = Some (now env)
           /\ InvoiceNew.updated_at inv' = Some (db_now env)
           /\ same_but_view inv inv'
           /\ (PyMore.contains "text/html"
                 (match accept with Some h => h | None => "" end) = true ->
               exists template_data,
                 PublicInvoice.fetch_template_data inv' s'
                 = (Ok template_data, s')
                 /\ out = Ok (PublicInvoice.HTMLResponse
                                (generate_invoice_html inv' template_data
                                   (Some share_token) None)))
           /\ (PyMore.contains "text/html"
                 (match accept with Some h => h | None => "" end) = false ->
               out = Raise (TypeError "Cannot instantiate typing.Union"))).
Proof.
  split.
  - intro Hno. unfold PublicInvoice.view_shared_invoice. unfold bind at 1.
    rewrite (get_by_share_token_none _ _ Hno). reflexivity.
  - intros inv n Ht Ho Hid Hc Hr.
    now apply view_shared_invoice_found.
Qed.

(** X10.  A download through the public route never writes: whatever the
    token and whatever the PDF generator does, the session is returned as
    it was; in particular no view is recorded.  A token that does not
    resolve gets the 404 answer; a failure of the generator gets a 500
    answer; otherwise the answer is the PDF. *)
Theorem download_invoice_pdf_reads_only (share_token base_url : string)
  (s : Session) :
  exists resp,
    PublicInvoice.download_invoice_pdf env generate_invoice_html
      generate_invoice_pdf company_name share_token base_url s
    = (Ok resp, s)
    /\ ((forall inv, find_by_token (working s) share_token = Some inv ->
                     ~ share_open env inv) ->
        resp = PublicInvoice.HTTPException 404
                 "Invoice not found or link expired")
    /\ (forall inv,
           find_by_token (working s) share_token = Some inv ->
           share_open env inv ->
           exists template_data,
             PublicInvoice.fetch_template_data inv s
             = (Ok template_data, s)
             /\ match generate_invoice_pdf
                        (generate_invoice_html inv template_data None None)
                        base_url with
                | inr e =>
                    resp = PublicInvoice.HTTPException 500
                             ("Failed to generate PDF: " ++ e)
                | inl pdf =>
                    resp = PublicInvoice.PDFResponse pdf
                             (PdfGenerator.sanitize_filename
                                (match template_data with
                                 | Some t => company_name t
                                 | None => "Invoice"
                                 end)
                                (InvoiceNew.invoice_number inv))
                end).
Proof.
  unfold PublicInvoice.download_invoice_pdf.
  destruct (get_by_share_token_total env share_token s) as (r & E).
  unfold bind at 1. rewrite E.
  destruct r as [inv|].
  - destruct (fetch_template_data_reads inv s) as (t & Et).
    unfold bind at 1. rewrite Et.
    apply get_by_share_token_some in E. destruct E as (F & O).
    destruct (generate_invoice_pdf
                (generate_invoice_html inv t None None) base_url)
      as [pdf|e] eqn:Eg.
    + eexists. split; [reflexivity|]. split.
      * intro Hno. exfalso. exact (Hno inv F O).
      * intros inv2 F2 _. rewrite F in F2. injection F2 as <-.
        exists t. split; [exact Et|]. rewrite Eg. reflexivity.
    + eexists. split; [reflexivity|]. split.
      * intro Hno. exfalso. exact (Hno inv F O).
      * intros inv2 F2 _. rewrite F in F2. injection F2 as <-.
        exists t. split; [exact Et|]. rewrite Eg. reflexivity.
  - eexists. split; [reflexivity|]. split; [reflexivity|].
    intros inv F O. exfalso.
    assert (E' : get_by_share_token env share_token s = (Ok (Some inv), s))
      by (apply get_by_share_token_some; split; assumption).
    rewrite E in E'. discriminate E'.
Qed.

End ShareRoutes.
(** ** Text *)

Section Characters.

Variable p : ascii -> bool.

Lemma all_chars_app (a b : string) :
  PyMore.all_chars p (a ++ b)
  = PyMore.all_chars p a && PyMore.all_chars p b.
Proof.
  induction a as [|c a IH]; [reflexivity|].
  cbn [append PyMore.all_chars]. rewrite IH. apply andb_assoc.
Qed.

Lemma all_chars_rev_aux (s acc : string) :
  PyMore.all_chars p (PyStr.rev_aux s acc)
  = PyMore.all_chars p s && PyMore.all_chars p acc.
Proof.
  revert acc. induction s as [|c s IH]; intro acc; [reflexivity|].
  cbn [PyStr.rev_aux]. rewrite IH. cbn [PyMore.all_chars].
  destruct (p c), (PyMore.all_chars p s), (PyMore.all_chars p acc);
    reflexivity.
Qed.

Lemma all_chars_rev (s : string) :
  PyMore.all_chars p (PyStr.rev s) = PyMore.all_chars p s.
Proof.
  unfold PyStr.rev. rewrite all_chars_rev_aux. cbn. apply andb_true_r.
Qed.

Lemma all_chars_lstrip (s : string) :
  PyMore.all_chars p s = true -> PyMore.all_chars p (PyStr.lstrip s) = true.
Proof.
  induction s as [|c s IH]; intro H; [reflexivity|].
  cbn [PyStr.lstrip]. destruct (PyStr.is_space c); [|exact H].
  cbn [PyMore.all_chars] in H. apply andb_true_iff in H. now apply IH.
Qed.

Lemma all_chars_strip (s : string) :
  PyMore.all_chars p s = true -> PyMore.all_chars p (PyStr.strip s) = true.
Proof.
  intro H. unfold PyStr.strip. rewrite all_chars_rev.
  apply all_chars_lstrip. rewrite all_chars_rev. now apply all_chars_lstrip.
Qed.

Lemma all_chars_filter (q : ascii -> bool) (s : string) :
  PyMore.all_chars p s = true ->
  PyMore.all_chars p (PyMore.filter_chars q s) = true.
Proof.
  induction s as [|c s IH]; intro H; [reflexivity|].
  cbn [PyMore.all_chars] in H. apply andb_true_iff in H.
  destruct H as [Hc Hs]. cbn [PyMore.filter_chars].
  destruct (q c); [|now apply IH].
  cbn [PyMore.all_chars]. now rewrite Hc, IH.
Qed.

Lemma all_chars_filter_self (s : string) :
  PyMore.all_chars p (PyMore.filter_chars p s) = true.
Proof.
  induction s as [|c s IH]; [reflexivity|].
  cbn [PyMore.filter_chars]. destruct (p c) eqn:E; [|exact IH].
  cbn [PyMore.all_chars]. now rewrite E, IH.
Qed.

Lemma filter_chars_all (s : string) :
  PyMore.all_chars p s = true -> PyMore.filter_chars p s = s.
Proof.
  induction s as [|c s IH]; intro H; [reflexivity|].
  cbn [PyMore.all_chars] in H. apply andb_true_iff in H.
  destruct H as [Hc Hs]. cbn [PyMore.filter_chars]. rewrite Hc.
  now rewrite IH.
Qed.

Lemma filter_chars_app (a b : string) :
  PyMore.filter_chars p (a ++ b)
  = PyMore.filter_chars p a ++ PyMore.filter_chars p b.
Proof.
  induction a as [|c a IH]; [reflexivity|].
  cbn [append PyMore.filter_chars]. destruct (p c); [|exact IH].
  cbn [append]. now rewrite IH.
Qed.

Lemma filter_chars_rev_aux (s acc : string) :
  PyMore.filter_chars p (PyStr.rev_aux s acc)
  = PyStr.rev_aux (PyMore.filter_chars p s) (PyMore.filter_chars p acc).
Proof.
  revert acc. induction s as [|c s IH]; intro acc; [reflexivity|].
  cbn [PyStr.rev_aux PyMore.filter_chars]. rewrite IH.
  cbn [PyMore.filter_chars]. destruct (p c); reflexivity.
Qed.

Lemma filter_chars_rev (s : string) :
  PyMore.filter_chars p (PyStr.rev s) = PyStr.rev (PyMore.filter_chars p s).
Proof. unfold PyStr.rev. now rewrite filter_chars_rev_aux. Qed.

Lemma all_chars_weaken (q : ascii -> bool) (s : string) :
  (forall c, p c = true -> q c = true) ->
  PyMore.all_chars p s = true -> PyMore.all_chars q s = true.
Proof.
  intros Hpq. induction s as [|c s IH]; intro H; [reflexivity|].
  cbn [PyMore.all_chars] in *. apply andb_true_iff in H.
  destruct H as [Hc Hs]. now rewrite (Hpq c Hc), IH.
Qed.

End Characters.

Lemma filter_chars_lstrip (p : ascii -> bool) (s : string) :
  (forall c, PyStr.is_space c = true -> p c = false) ->
  PyMore.filter_chars p (PyStr.lstrip s) = PyMore.filter_chars p s.
Proof.
  intro Hp. induction s as [|c s IH]; [reflexivity|].
  cbn [PyStr.lstrip]. destruct (PyStr.is_space c) eqn:E; [|reflexivity].
  cbn [PyMore.filter_chars]. now rewrite (Hp c E).
Qed.

Lemma filter_chars_strip (p : ascii -> bool) (s : string) :
  (forall c, PyStr.is_space c = true -> p c = false) ->
  PyMore.filter_chars p (PyStr.strip s) = PyMore.filter_chars p s.
Proof.
  intro Hp. unfold PyStr.strip.
  rewrite filter_chars_rev, (filter_chars_lstrip p _ Hp), filter_chars_rev,
    (filter_chars_lstrip p _ Hp).
  apply rev_rev.
Qed.

Lemma filter_chars_lstrip_char (p : ascii -> bool) (c : ascii) (s : string) :
  p c = false ->
  PyMore.filter_chars p (PyMore.lstrip_char c s) = PyMore.filter_chars p s.
Proof.
  intro Hp. induction s as [|d s IH]; [reflexivity|].
  cbn [PyMore.lstrip_char]. destruct (Ascii.eqb d c) eqn:E; [|reflexivity].
  apply Ascii.eqb_eq in E. subst d.
  cbn [PyMore.filter_chars]. now rewrite Hp.
Qed.

Lemma filter_chars_strip_char (p : ascii -> bool) (c : ascii) (s : string) :
  p c = false ->
  PyMore.filter_chars p (PyMore.strip_char c s) = PyMore.filter_chars p s.
Proof.
  intro Hp. unfold PyMore.strip_char.
  rewrite filter_chars_rev, (filter_chars_lstrip_char p c _ Hp),
    filter_chars_rev, (filter_chars_lstrip_char p c _ Hp).
  apply rev_rev.
Qed.

Lemma filter_chars_filter (p q : ascii -> bool) (s : string) :
  (forall c, p c = true -> q c = true) ->
  PyMore.filter_chars p (PyMore.filter_chars q s) = PyMore.filter_chars p s.
Proof.
  intro Hpq. induction s as [|c s IH]; [reflexivity|].
  cbn [PyMore.filter_chars]. destruct (q c) eqn:Eq.
  - cbn [PyMore.filter_chars]. now rewrite IH.
  - destruct (p c) eqn:Ep; [|exact IH].
    rewrite (Hpq c Ep) in Eq. discriminate Eq.
Qed.

Lemma filter_chars_sub_spaces (p : ascii -> bool) (s : string) (b : bool) :
  (forall c, PyStr.is_space c = true -> p c = false) ->
  p "_"%char = false ->
  PyMore.filter_chars p (PdfGenerator.sub_spaces s b)
  = PyMore.filter_chars p s.
Proof.
  intros Hs Hu. revert b. induction s as [|c s IH]; intro b; [reflexivity|].
  cbn [PdfGenerator.sub_spaces PyMore.filter_chars].
  destruct (PyStr.is_space c) eqn:E.
  - rewrite (Hs c E). destruct b; [apply IH|].
    cbn [PyMore.filter_chars]. rewrite Hu. apply IH.
  - cbn [PyMore.filter_chars]. now rewrite IH.
Qed.

Lemma filter_chars_sub_underscores (p : ascii -> bool) (s : string)
  (b : bool) :
  p "_"%char = false ->
  PyMore.filter_chars p (PdfGenerator.sub_underscores s b)
  = PyMore.filter_chars p s.
Proof.
  intro Hu. revert b. induction s as [|c s IH]; intro b; [reflexivity|].
  cbn [PdfGenerator.sub_underscores PyMore.filter_chars].
  destruct (Ascii.eqb c "_") eqn:E.
  - apply Ascii.eqb_eq in E. subst c. rewrite Hu.
    destruct b; [apply IH|].
    cbn [PyMore.filter_chars]. rewrite Hu. apply IH.
  - cbn [PyMore.filter_chars]. now rewrite IH.
Qed.

Lemma all_chars_sub_underscores (p : ascii -> bool) (s : string) (b : bool) :
  PyMore.all_chars p s = true ->
  PyMore.all_chars p (PdfGenerator.sub_underscores s b) = true.
Proof.
  revert b. induction s as [|c s IH]; intros b H; [reflexivity|].
  cbn [PyMore.all_chars] in H. apply andb_true_iff in H.
  destruct H as [Hc Hs]. cbn [PdfGenerator.sub_underscores].
  destruct (Ascii.eqb c "_") eqn:E.
  - apply Ascii.eqb_eq in E. subst c. destruct b; [now apply IH|].
    cbn [PyMore.all_chars]. now rewrite Hc, IH.
  - cbn [PyMore.all_chars]. now rewrite Hc, IH.
Qed.

Lemma all_chars_lstrip_char (p : ascii -> bool) (c : ascii) (s : string) :
  PyMore.all_chars p s = true ->
  PyMore.all_chars p (PyMore.lstrip_char c s) = true.
Proof.
  induction s as [|d s IH]; intro H; [reflexivity|].
  cbn [PyMore.lstrip_char]. destruct (Ascii.eqb d c); [|exact H].
  cbn [PyMore.all_chars] in H. apply andb_true_iff in H. now apply IH.
Qed.

Lemma all_chars_strip_char (p : ascii -> bool) (c : ascii) (s : string) :
  PyMore.all_chars p s = true ->
  PyMore.all_chars p (PyMore.strip_char c s) = true.
Proof.
  intro H. unfold PyMore.strip_char. rewrite all_chars_rev.
  apply all_chars_lstrip_char. rewrite all_chars_rev.
  now apply all_chars_lstrip_char.
Qed.

(** *** Reversal, ends and doubles *)

Lemma rev_aux_app (s acc : string) :
  PyStr.rev_aux s acc = PyStr.rev s ++ acc.
Proof.
  unfold PyStr.rev. revert acc.
  induction s as [|c s IH]; intro acc; [reflexivity|].
  cbn [PyStr.rev_aux]. rewrite IH, (IH (String c EmptyString)).
  now rewrite append_assoc.
Qed.

Lemma rev_app (a b : string) :
  PyStr.rev (a ++ b) = PyStr.rev b ++ PyStr.rev a.
Proof.
  unfold PyStr.rev at 1. revert b.
  assert (G : forall a acc b,
             PyStr.rev_aux (a ++ b) acc = PyStr.rev_aux b (PyStr.rev_aux a acc)).
  { clear. induction a as [|c a IH]; intros acc b; [reflexivity|].
    cbn [append PyStr.rev_aux]. apply IH. }
  intro b. rewrite G. apply rev_aux_app.
Qed.

Lemma rev_copies (k : nat) (c : ascii) :
  PyStr.rev (copies k c) = copies k c.
Proof.
  assert (G : forall k acc,
             PyStr.rev_aux (copies k c) acc = copies k c ++ acc).
  { clear. induction k as [|k IH]; intro acc; [reflexivity|].
    cbn [copies PyStr.rev_aux]. rewrite IH.
    clear IH. induction k as [|k IH]; [reflexivity|].
    cbn [copies append]. now rewrite IH. }
  unfold PyStr.rev. rewrite G. apply append_nil_r.
Qed.

Lemma lstrip_char_decomp (c : ascii) (s : string) :
  exists k,
    s = copies k c ++ PyMore.lstrip_char c s
    /\ starts_with_char c (PyMore.lstrip_char c s) = false.
Proof.
  induction s as [|d s IH].
  - exists O. split; reflexivity.
  - cbn [PyMore.lstrip_char]. destruct (Ascii.eqb d c) eqn:E.
    + destruct IH as (k & Hk & Hs). exists (S k).
      apply Ascii.eqb_eq in E. subst d.
      split; [|exact Hs]. cbn [copies append]. now rewrite <- Hk.
    + exists O. split; [reflexivity|]. exact E.
Qed.

Lemma starts_with_char_app (c : ascii) (a b : string) :
  a <> "" -> starts_with_char c (a ++ b) = starts_with_char c a.
Proof. destruct a; [congruence|reflexivity]. Qed.

(** What [strip] by a character leaves: the text without the copies of the
    character at both ends. *)
Lemma strip_char_decomp (c : ascii) (s : string) :
  exists j k,
    s = copies j c ++ PyMore.strip_char c s ++ copies k c
    /\ starts_with_char c (PyMore.strip_char c s) = false
    /\ ends_with_char c (PyMore.strip_char c s) = false.
Proof.
  unfold PyMore.strip_char, ends_with_char.
  destruct (lstrip_char_decomp c s) as (j & Hj & Hs).
  set (u := PyMore.lstrip_char c s) in *.
  destruct (lstrip_char_decomp c (PyStr.rev u)) as (k & Hk & Hw).
  set (w := PyMore.lstrip_char c (PyStr.rev u)) in *.
  assert (Hu : u = PyStr.rev w ++ copies k c).
  { rewrite <- (rev_rev u), Hk, rev_app, rev_copies. reflexivity. }
  exists j, k. split; [|split].
  - now rewrite <- Hu.
  - destruct (PyStr.rev w) as [|d r] eqn:Er; [reflexivity|].
    rewrite Hu in Hs. exact Hs.
  - now rewrite rev_rev.
Qed.

Lemma has_double_app (c : ascii) (a b : string) :
  has_double c (a ++ b) = false ->
  has_double c a = false /\ has_double c b = false.
Proof.
  induction a as [|x a IH]; intro H; [now split|].
  cbn [append has_double] in H. apply orb_false_iff in H.
  destruct H as [H1 H2]. destruct (IH H2) as [Ha Hb].
  split; [|exact Hb]. cbn [has_double]. rewrite Ha, orb_false_r.
  destruct (Ascii.eqb x c); [|reflexivity]. cbn in H1 |- *.
  destruct a; [reflexivity|exact H1].
Qed.

Lemma sub_underscores_shape (s : string) (b : bool) :
  has_double "_" (PdfGenerator.sub_underscores s b) = false
  /\ (b = true ->
      starts_with_char "_" (PdfGenerator.sub_underscores s b) = false).
Proof.
  revert b. induction s as [|c s IH]; intro b; [now split|].
  cbn [PdfGenerator.sub_underscores].
  destruct (Ascii.eqb c "_") eqn:E.
  - destruct b; [apply IH|].
    destruct (IH true) as [Hd Hs]. split; [|discriminate].
    cbn [has_double]. now rewrite Hd, (Hs eq_refl).
  - destruct (IH false) as [Hd _]. split.
    + cbn [has_double]. now rewrite E, Hd.
    + intros _. exact E.
Qed.

Lemma sub_underscores_id (s : string) :
  has_double "_" s = false -> PdfGenerator.sub_underscores s false = s.
Proof.
  induction s as [|c s IH]; intro H; [reflexivity|].
  cbn [has_double] in H. apply orb_false_iff in H. destruct H as [H1 H2].
  cbn [PdfGenerator.sub_underscores].
  destruct (Ascii.eqb c "_") eqn:E.
  - apply Ascii.eqb_eq in E. subst c. f_equal.
    destruct s as [|d s]; [reflexivity|].
    cbn in H1. cbn [PdfGenerator.sub_underscores]. rewrite H1.
    specialize (IH H2). cbn [PdfGenerator.sub_underscores] in IH.
    rewrite H1 in IH. exact IH.
  - f_equal. now apply IH.
Qed.

Lemma lstrip_char_id (c : ascii) (s : string) :
  starts_with_char c s = false -> PyMore.lstrip_char c s = s.
Proof.
  destruct s as [|d s]; [reflexivity|]. cbn. now intros ->.
Qed.

Lemma strip_char_id (c : ascii) (s : string) :
  starts_with_char c s = false -> ends_with_char c s = false ->
  PyMore.strip_char c s = s.
Proof.
  intros Hs He. unfold PyMore.strip_char.
  rewrite (lstrip_char_id c s Hs), (lstrip_char_id c _ He).
  apply rev_rev.
Qed.

Lemma lstrip_id (s : string) :
  match s with String c _ => PyStr.is_space c = false | _ => True end ->
  PyStr.lstrip s = s.
Proof.
  destruct s as [|c s]; [reflexivity|]. cbn [PyStr.lstrip]. now intros ->.
Qed.

Lemma strip_no_space (s : string) :
  PyMore.all_chars (fun c => negb (PyStr.is_space c)) s = true ->
  PyStr.strip s = s.
Proof.
  intro H. unfold PyStr.strip.
  assert (L : forall t,
             PyMore.all_chars (fun c => negb (PyStr.is_space c)) t = true ->
             PyStr.lstrip t = t).
  { intros [|c t] Ht; [reflexivity|]. cbn [PyMore.all_chars] in Ht.
    apply andb_true_iff in Ht. destruct Ht as [Hc _].
    cbn [PyStr.lstrip]. apply negb_true_iff in Hc. now rewrite Hc. }
  rewrite (L s H), L; [apply rev_rev|]. now rewrite all_chars_rev.
Qed.

(** ** The file name of a PDF *)

Ltac by_cases_on_char c :=
  destruct c as [[] [] [] [] [] [] [] []]; vm_compute;
  try reflexivity; try discriminate; try (intros; discriminate);
  try (intros; reflexivity).

Lemma space_not_letter_like (c : ascii) :
  PyStr.is_space c = true -> is_letter_like c = false.
Proof. by_cases_on_char c. Qed.

Lemma space_not_kept (c : ascii) :
  PdfGenerator.keeps c = true -> PyStr.is_space c = false.
Proof. by_cases_on_char c. Qed.

Lemma letter_like_kept (c : ascii) :
  is_letter_like c = true -> PdfGenerator.keeps c = true.
Proof. by_cases_on_char c. Qed.

Lemma kept_not_letter_like (c : ascii) :
  PdfGenerator.keeps c = true -> is_letter_like c = false -> c = "_"%char.
Proof. by_cases_on_char c. Qed.

Lemma kept_is_filename_char (c : ascii) :
  PdfGenerator.keeps c = true -> is_filename_char c = true.
Proof. unfold is_filename_char. now intros ->. Qed.

(** The company part before the fallback: safe characters only, no
    underscore at either end, no two underscores in a row, and the letters,
    digits and hyphens of the name in their order. *)
Lemma sanitize_company_shape (company_name : string) :
  PyMore.all_chars PdfGenerator.keeps
    (PdfGenerator.sanitize_company company_name) = true
  /\ starts_with_char "_" (PdfGenerator.sanitize_company company_name)
     = false
  /\ ends_with_char "_" (PdfGenerator.sanitize_company company_name) = false
  /\ has_double "_" (PdfGenerator.sanitize_company company_name) = false
  /\ PyMore.filter_chars is_letter_like
       (PdfGenerator.sanitize_company company_name)
     = PyMore.filter_chars is_letter_like company_name.
Proof.
  unfold PdfGenerator.sanitize_company.
  set (a := PdfGenerator.sub_spaces (PyStr.strip company_name) false).
  set (b := PyMore.filter_chars PdfGenerator.keeps a).
  set (c := PdfGenerator.sub_underscores b false).
  destruct (strip_char_decomp "_" c) as (j & k & Hc & Hs & He).
  split; [|split; [exact Hs|split; [exact He|split]]].
  - apply all_chars_strip_char, all_chars_sub_underscores.
    apply all_chars_filter_self.
  - destruct (sub_underscores_shape b false) as [Hd _]. fold c in Hd.
    rewrite Hc in Hd. apply has_double_app in Hd. destruct Hd as [_ Hd].
    apply has_double_app in Hd. apply Hd.
  - rewrite filter_chars_strip_char by reflexivity.
    unfold c. rewrite filter_chars_sub_underscores by reflexivity.
    unfold b. rewrite (filter_chars_filter _ _ _ letter_like_kept).
    unfold a. rewrite filter_chars_sub_spaces;
      [|exact space_not_letter_like|reflexivity].
    apply filter_chars_strip. exact space_not_letter_like.
Qed.

Lemma only_underscores (s : string) :
  PyMore.all_chars PdfGenerator.keeps s = true ->
  PyMore.filter_chars is_letter_like s = "" ->
  starts_with_char "_" s = false ->
  s = "".
Proof.
  destruct s as [|c s]; [reflexivity|]. intros Hk Hf Hs. exfalso.
  cbn [PyMore.all_chars] in Hk. apply andb_true_iff in Hk.
  destruct Hk as [Hc _]. cbn [PyMore.filter_chars] in Hf.
  destruct (is_letter_like c) eqn:El; [discriminate Hf|].
  rewrite (kept_not_letter_like c Hc El) in Hs. discriminate Hs.
Qed.

(** X11.  The file name of a PDF, for ASCII input: it is made of letters,
    digits, underscores, hyphens and dots only; it is the company part, an
    underscore, the kept characters of the invoice number and ".pdf"; the
    company part is not empty, has no underscore at either end and no two
    underscores in a row. *)
Theorem sanitize_filename_is_safe (company_name invoice_number : string) :
  PyMore.all_chars PyMore.is_ascii company_name = true ->
  PyMore.all_chars PyMore.is_ascii invoice_number = true ->
  PyMore.all_chars is_filename_char
    (PdfGenerator.sanitize_filename company_name invoice_number) = true
  /\ exists company,
       PdfGenerator.sanitize_filename company_name invoice_number
       = company ++ "_"
         ++ PyMore.filter_chars PdfGenerator.keeps
              (PyStr.strip invoice_number)
         ++ ".pdf"
       /\ company <> ""
       /\ PyMore.all_chars PdfGenerator.keeps company = true
       /\ starts_with_char "_" company = false
       /\ ends_with_char "_" company = false
       /\ has_double "_" company = false.
Proof.
  intros _ _.
  destruct (sanitize_company_shape company_name)
    as (Hk & Hs & He & Hd & _).
  unfold PdfGenerator.sanitize_filename.
  set (n := PyMore.filter_chars PdfGenerator.keeps
              (PyStr.strip invoice_number)).
  assert (Hn : PyMore.all_chars PdfGenerator.keeps n = true)
    by apply all_chars_filter_self.
  assert (G : forall company,
             PyMore.all_chars PdfGenerator.keeps company = true ->
             PyMore.all_chars is_filename_char
               (company ++ "_" ++ n ++ ".pdf") = true).
  { intros company Hc. rewrite !all_chars_app.
    rewrite (all_chars_weaken _ _ _ kept_is_filename_char Hc).
    rewrite (all_chars_weaken _ _ _ kept_is_filename_char Hn).
    reflexivity. }
  destruct (PdfGenerator.sanitize_company company_name) as [|c r] eqn:E.
  - split; [now apply G|]. exists "Invoice".
    split; [reflexivity|]. split; [discriminate|]. now vm_compute.
  - split; [now apply G|]. exists (String c r).
    split; [reflexivity|]. split; [discriminate|]. now repeat split.
Qed.

(** X12.  The company part of the file name, for ASCII input.  A company
    name without any letter, digit or hyphen gives the part "Invoice"; any
    other name gives a part with exactly the letters, digits and hyphens
    of the name, in their order. *)
Theorem sanitize_filename_keeps_letters
  (company_name invoice_number : string) :
  PyMore.all_chars PyMore.is_ascii company_name = true ->
  PyMore.all_chars PyMore.is_ascii invoice_number = true ->
  exists company,
    PdfGenerator.sanitize_filename company_name invoice_number
    = company ++ "_"
      ++ PyMore.filter_chars PdfGenerator.keeps (PyStr.strip invoice_number)
      ++ ".pdf"
    /\ (PyMore.filter_chars is_letter_like company_name = "" ->
        company = "Invoice")
    /\ (PyMore.filter_chars is_letter_like company_name <> "" ->
        PyMore.filter_chars is_letter_like company
        = PyMore.filter_chars is_letter_like company_name).
Proof.
  intros _ _.
  destruct (sanitize_company_shape company_name)
    as (Hk & Hs & _ & _ & Hl).
  unfold PdfGenerator.sanitize_filename.
  destruct (PdfGenerator.sanitize_company company_name) as [|c r] eqn:E.
  - exists "Invoice". split; [reflexivity|]. split; [reflexivity|].
    intro Hne. exfalso. apply Hne. now rewrite <- Hl.
  - exists (String c r). split; [reflexivity|]. split; [|now intros _].
    intro He. rewrite <- Hl in He.
    discriminate (only_underscores _ Hk He Hs).
Qed.

(** *** Names made of words *)

Lemma map_chars_rev_aux (f : ascii -> ascii) (s acc : string) :
  PyMore.map_chars f (PyStr.rev_aux s acc)
  = PyStr.rev_aux (PyMore.map_chars f s) (PyMore.map_chars f acc).
Proof.
  revert acc. induction s as [|c s IH]; intro acc; [reflexivity|].
  cbn [PyStr.rev_aux PyMore.map_chars]. now rewrite IH.
Qed.

Lemma map_chars_rev (f : ascii -> ascii) (s : string) :
  PyMore.map_chars f (PyStr.rev s) = PyStr.rev (PyMore.map_chars f s).
Proof. unfold PyStr.rev. now rewrite map_chars_rev_aux. Qed.

Lemma word_or_space_cases (c : ascii) :
  is_word_or_space c = true ->
  (Ascii.eqb c " " = true /\ PyStr.is_space c = true)
  \/ (Ascii.eqb c " " = false /\ PyStr.is_space c = false
      /\ Ascii.eqb c "_" = false).
Proof.
  destruct c as [[] [] [] [] [] [] [] []]; vm_compute; intro H;
    try discriminate H; (left; now split) || (right; now repeat split).
Qed.

Lemma underscore_of_space (c : ascii) :
  is_word_or_space c = true ->
  Ascii.eqb (space_to_underscore c) "_" = Ascii.eqb c " ".
Proof. by_cases_on_char c. Qed.

Lemma starts_space_to_underscore (s : string) :
  PyMore.all_chars is_word_or_space s = true ->
  starts_with_char "_" (PyMore.map_chars space_to_underscore s)
  = starts_with_char " " s.
Proof.
  destruct s as [|c s]; [reflexivity|]. intro H.
  cbn [PyMore.all_chars] in H. apply andb_true_iff in H.
  cbn. now apply underscore_of_space.
Qed.

Lemma has_double_space_to_underscore (s : string) :
  PyMore.all_chars is_word_or_space s = true ->
  has_double "_" (PyMore.map_chars space_to_underscore s)
  = has_double " " s.
Proof.
  induction s as [|c s IH]; intro H; [reflexivity|].
  pose proof (starts_space_to_underscore _ H) as Hst.
  cbn [PyMore.all_chars] in H. apply andb_true_iff in H.
  destruct H as [Hc Hs].
  cbn [PyMore.map_chars has_double].
  rewrite (underscore_of_space c Hc), (IH Hs),
    (starts_space_to_underscore s Hs).
  reflexivity.
Qed.

Lemma kept_space_to_underscore (s : string) :
  PyMore.all_chars is_word_or_space s = true ->
  PyMore.all_chars PdfGenerator.keeps
    (PyMore.map_chars space_to_underscore s) = true.
Proof.
  induction s as [|c s IH]; intro H; [reflexivity|].
  cbn [PyMore.all_chars] in H. apply andb_true_iff in H.
  destruct H as [Hc Hs].
  cbn [PyMore.map_chars PyMore.all_chars]. rewrite (IH Hs), andb_true_r.
  revert Hc. clear. by_cases_on_char c.
Qed.

Lemma sub_spaces_words (s : string) :
  PyMore.all_chars is_word_or_space s = true ->
  has_double " " s = false ->
  PdfGenerator.sub_spaces s false = PyMore.map_chars space_to_underscore s
  /\ (starts_with_char " " s = false ->
      PdfGenerator.sub_spaces s true
      = PyMore.map_chars space_to_underscore s).
Proof.
  induction s as [|c s IH]; intros H Hd; [now split|].
  cbn [PyMore.all_chars] in H. apply andb_true_iff in H.
  destruct H as [Hc Hs].
  cbn [has_double] in Hd. apply orb_false_iff in Hd.
  destruct Hd as [Hd1 Hd2].
  destruct (IH Hs Hd2) as [IH1 IH2].
  cbn [PdfGenerator.sub_spaces PyMore.map_chars starts_with_char].
  unfold space_to_underscore at 1 3.
  destruct (word_or_space_cases c Hc) as [[E1 E2]|[E1 [E2 _]]];
    rewrite E1, E2.
  - rewrite E1 in Hd1. cbn in Hd1. split; [|discriminate].
    now rewrite (IH2 Hd1).
  - split; [now rewrite IH1|]. intros _. now rewrite IH1.
Qed.

Lemma lstrip_words (s : string) :
  PyMore.all_chars is_word_or_space s = true ->
  starts_with_char " " s = false ->
  PyStr.lstrip s = s.
Proof.
  destruct s as [|c s]; [reflexivity|]. intros H Hs.
  cbn [PyMore.all_chars] in H. apply andb_true_iff in H.
  destruct H as [Hc _]. cbn in Hs. cbn [PyStr.lstrip].
  destruct (word_or_space_cases c Hc) as [[E1 _]|[_ [E2 _]]];
    [congruence|now rewrite E2].
Qed.

(** X13.  A company name made of words of letters, digits and hyphens with
    single spaces between them, and an invoice number of word characters
    and hyphens, give the name with its spaces turned into underscores, an
    underscore, the number as it is and ".pdf". *)
Theorem sanitize_filename_of_words (company_name invoice_number : string) :
  company_name <> "" ->
  PyMore.all_chars is_word_or_space company_name = true ->
  starts_with_char " " company_name = false ->
  ends_with_char " " company_name = false ->
  has_double " " company_name = false ->
  PyMore.all_chars PdfGenerator.keeps invoice_number = true ->
  PdfGenerator.sanitize_filename company_name invoice_number
  = PyMore.map_chars space_to_underscore company_name
    ++ "_" ++ invoice_number ++ ".pdf".
Proof.
  intros Hne Hw Hs He Hd Hn.
  set (m := PyMore.map_chars space_to_underscore company_name).
  assert (Hstrip : PyStr.strip company_name = company_name).
  { unfold PyStr.strip. rewrite (lstrip_words _ Hw Hs).
    rewrite lstrip_words; [apply rev_rev| |exact He].
    now rewrite all_chars_rev. }
  assert (Hc : PdfGenerator.sanitize_company company_name = m).
  { unfold PdfGenerator.sanitize_company, m. rewrite Hstrip.
    rewrite (proj1 (sub_spaces_words _ Hw Hd)).
    rewrite (filter_chars_all _ _ (kept_space_to_underscore _ Hw)).
    rewrite sub_underscores_id
      by now rewrite has_double_space_to_underscore.
    apply strip_char_id.
    - now rewrite starts_space_to_underscore.
    - unfold ends_with_char. rewrite <- map_chars_rev.
      rewrite starts_space_to_underscore; [exact He|].
      now rewrite all_chars_rev. }
  assert (Hnum : PyMore.filter_chars PdfGenerator.keeps
                   (PyStr.strip invoice_number) = invoice_number).
  { rewrite strip_no_space; [now apply filter_chars_all|].
    apply (all_chars_weaken PdfGenerator.keeps); [|exact Hn].
    intros c Hk. now rewrite (space_not_kept c Hk). }
  unfold PdfGenerator.sanitize_filename. rewrite Hc, Hnum.
  destruct m as [|c r] eqn:Em; [|reflexivity].
  exfalso. destruct company_name; [now apply Hne|discriminate Em].
Qed.

(** ** The discount text of a request *)

Lemma contains_char_all (c : ascii) (s : string) :
  PyMore.contains_char c s = false
  <-> PyMore.all_chars (fun d => negb (Ascii.eqb c d)) s = true.
Proof.
  induction s as [|d s IH]; [now split|].
  cbn [PyMore.contains_char PyMore.all_chars].
  rewrite orb_false_iff, andb_true_iff, negb_true_iff. now rewrite IH.
Qed.

Lemma contains_char_app (c : ascii) (a b : string) :
  PyMore.contains_char c (a ++ b)
  = PyMore.contains_char c a || PyMore.contains_char c b.
Proof.
  induction a as [|d a IH]; [reflexivity|].
  cbn [append PyMore.contains_char]. rewrite IH. apply orb_assoc.
Qed.

Lemma all_chars_map (p : ascii -> bool) (f : ascii -> ascii) (s : string) :
  (forall c, p c = true -> p (f c) = true) ->
  PyMore.all_chars p s = true ->
  PyMore.all_chars p (PyMore.map_chars f s) = true.
Proof.
  intro Hf. induction s as [|c s IH]; intro H; [reflexivity|].
  cbn [PyMore.all_chars] in H. apply andb_true_iff in H.
  destruct H as [Hc Hs]. cbn [PyMore.map_chars PyMore.all_chars].
  now rewrite (Hf c Hc), IH.
Qed.

Lemma map_chars_id (f : ascii -> ascii) (s : string) :
  PyMore.all_chars (fun c => Ascii.eqb (f c) c) s = true ->
  PyMore.map_chars f s = s.
Proof.
  induction s as [|c s IH]; intro H; [reflexivity|].
  cbn [PyMore.all_chars] in H. apply andb_true_iff in H.
  destruct H as [Hc Hs]. apply Ascii.eqb_eq in Hc.
  cbn [PyMore.map_chars]. now rewrite Hc, IH.
Qed.

(** The tokens of [split] are made of the characters of the text, hold no
    white space and are not empty. *)
Lemma split_tok_tokens (p : ascii -> bool) (s : string) :
  PyMore.all_chars p s = true ->
  let good t :=
    PyMore.all_chars p t = true
    /\ PyMore.all_chars (fun c => negb (PyStr.is_space c)) t = true in
  good (fst (PyMore.split_tok s))
  /\ Forall (fun t => good t /\ t <> "") (snd (PyMore.split_tok s)).
Proof.
  intros H good. induction s as [|c s IH].
  - split; [now split|constructor].
  - cbn [PyMore.all_chars] in H. apply andb_true_iff in H.
    destruct H as [Hc Hs]. specialize (IH Hs).
    cbn [PyMore.split_tok]. destruct (PyMore.split_tok s) as [t rest].
    cbn [fst snd] in IH. destruct IH as [[Ht1 Ht2] Hrest].
    destruct (PyStr.is_space c) eqn:E; cbn [fst snd].
    + split; [now split|].
      destruct t as [|d t]; [exact Hrest|].
      constructor; [|exact Hrest]. split; [now split|discriminate].
    + split; [|exact Hrest]. split; cbn [PyMore.all_chars].
      * now rewrite Hc, Ht1.
      * now rewrite E, Ht2.
Qed.

Lemma split_tokens (p : ascii -> bool) (s : string) :
  PyMore.all_chars p s = true ->
  Forall (fun t =>
            PyMore.all_chars p t = true
            /\ PyMore.all_chars (fun c => negb (PyStr.is_space c)) t = true)
    (PyMore.split s).
Proof.
  intro H. pose proof (split_tok_tokens p s H) as G. cbn zeta in G.
  unfold PyMore.split. destruct (PyMore.split_tok s) as [t rest].
  cbn [fst snd] in G. destruct G as [Gt Grest].
  assert (R : Forall (fun t =>
                 PyMore.all_chars p t = true
                 /\ PyMore.all_chars (fun c => negb (PyStr.is_space c)) t
                    = true) rest).
  { eapply Forall_impl; [|exact Grest]. now intros a [Ha _]. }
  destruct t; [exact R|]. now constructor.
Qed.

Lemma split_one_token (s : string) :
  s <> "" ->
  PyMore.all_chars (fun c => negb (PyStr.is_space c)) s = true ->
  PyMore.split s = [s].
Proof.
  intros Hne H. unfold PyMore.split.
  assert (G : PyMore.split_tok s = (s, [])).
  { clear Hne. induction s as [|c s IH]; [reflexivity|].
    cbn [PyMore.all_chars] in H. apply andb_true_iff in H.
    destruct H as [Hc Hs]. apply negb_true_iff in Hc.
    cbn [PyMore.split_tok]. now rewrite (IH Hs), Hc. }
  rewrite G. destruct s; [congruence|reflexivity].
Qed.

Lemma remove_all_char (c : ascii) (s : string) :
  PyStr.remove_all (String c "") s
  = PyMore.filter_chars (fun d => negb (Ascii.eqb c d)) s.
Proof.
  unfold PyStr.remove_all.
  assert (G : forall fuel t,
             (String.length t < fuel)%nat ->
             PyStr.remove_all_aux fuel (String c "") t
             = PyMore.filter_chars (fun d => negb (Ascii.eqb c d)) t).
  { induction fuel as [|fuel IH]; intros t Hl; [lia|].
    destruct t as [|d t]; [reflexivity|].
    cbn [String.length] in Hl.
    cbn [PyStr.remove_all_aux PyStr.strip_prefix PyMore.filter_chars].
    destruct (Ascii.eqb c d); cbn [negb].
    - apply IH. lia.
    - f_equal. apply IH. lia. }
  apply G. lia.
Qed.

Section DiscountText.

Variable Decimal_of_str : string -> option InvoiceApi.decimal_value.

Lemma parse_parts_without_percent (parts : list string)
  (acc : InvoiceApi.decimal_value * InvoiceApi.decimal_value) :
  Forall (fun t =>
            PyMore.all_chars (fun d => negb (Ascii.eqb "%" d)) t = true
            /\ PyMore.all_chars (fun c => negb (PyStr.is_space c)) t = true)
    parts ->
  exists fixed,
    InvoiceApi.parse_parts Decimal_of_str parts acc = Some (fixed, snd acc)
    /\ (fixed = fst acc
        \/ exists part,
             In part parts
             /\ Decimal_of_str
                  (PyStr.remove_all "," (PyStr.remove_all "RM" part))
                = Some fixed).
Proof.
  intro H. revert acc. induction H as [|t parts [Ht Hsp] _ IH]; intro acc.
  - exists (fst acc). split; [now destruct acc|now left].
  - cbn [InvoiceApi.parse_parts]. unfold InvoiceApi.parse_part.
    rewrite (strip_no_space t Hsp).
    rewrite (proj2 (contains_char_all "%" t) Ht).
    destruct (Decimal_of_str
                (PyStr.remove_all "," (PyStr.remove_all "RM" t)))
      as [f|] eqn:E.
    + destruct (IH (f, snd acc)) as (fixed & Hp & Hf).
      exists fixed. split; [exact Hp|].
      cbn [fst] in Hf. destruct Hf as [->|(part & Hin & Hd)].
      * right. exists t. split; [now left|exact E].
      * right. exists part. split; [now right|exact Hd].
    + destruct (IH acc) as (fixed & Hp & Hf).
      exists fixed. split; [exact Hp|].
      destruct Hf as [->|(part & Hin & Hd)]; [now left|].
      right. exists part. split; [now right|exact Hd].
Qed.

(** X14.  A discount text without a percent sign.  The conversion never
    fails, the percent discount is zero whatever [discount_percent] the
    request carries, and the fixed discount is zero or what [Decimal] makes
    of one of the parts of the text, RM and commas removed. *)
Theorem discount_given_without_percent
  (request_data : InvoiceApi.discount_fields) (text : string) :
  InvoiceApi.discount_given request_data = Some text ->
  text <> "" ->
  PyMore.contains_char "%" text = false ->
  exists fixed,
    InvoiceApi.final_discounts Decimal_of_str request_data
    = Some (fixed, InvoiceApi.Finite 0)
    /\ (fixed = InvoiceApi.Finite 0
        \/ exists part,
             In part (InvoiceApi.parts_of text)
             /\ Decimal_of_str
                  (PyStr.remove_all "," (PyStr.remove_all "RM" part))
                = Some fixed).
Proof.
  intros Hg Hne Hp. unfold InvoiceApi.final_discounts. rewrite Hg.
  assert (Ht : truthy_str text = true) by (destruct text; [congruence|reflexivity]).
  cbn [truthy_ostr or_str]. rewrite Ht.
  apply (parse_parts_without_percent _
           (InvoiceApi.Finite 0, InvoiceApi.Finite 0)).
  unfold InvoiceApi.parts_of. apply split_tokens.
  apply all_chars_map.
  - intros c Hc. destruct (Ascii.eqb c "+"); [reflexivity|exact Hc].
  - apply all_chars_strip. now apply contains_char_all.
Qed.

(** X15.  A discount text that is one percentage: a part without white
    space, plus sign or percent sign, followed by a percent sign.  The
    percent discount is what [Decimal] makes of the part, with no bound
    applied, the fixed discount is zero, and the explicit fields of the
    request are ignored; when [Decimal] rejects the part the error is not
    handled. *)
Theorem discount_given_single_percent
  (request_data : InvoiceApi.discount_fields) (d : string) :
  InvoiceApi.discount_given request_data = Some (d ++ "%") ->
  PyMore.all_chars
    (fun c => negb (PyStr.is_space c) && negb (Ascii.eqb c "+")
              && negb (Ascii.eqb "%" c)) d = true ->
  InvoiceApi.final_discounts Decimal_of_str request_data
  = match Decimal_of_str d with
    | Some p => Some (InvoiceApi.Finite 0, p)
    | None => None
    end.
Proof.
  intros Hg Hd. unfold InvoiceApi.final_discounts. rewrite Hg.
  set (text := d ++ "%").
  assert (Hne : text <> "") by (unfold text; destruct d; discriminate).
  assert (Ht : truthy_str text = true) by (destruct text; [congruence|reflexivity]).
  cbn [truthy_ostr or_str]. rewrite Ht.
  assert (Hsp : PyMore.all_chars (fun c => negb (PyStr.is_space c)) text
                = true).
  { unfold text. rewrite all_chars_app, andb_true_iff. split; [|reflexivity].
    revert Hd. apply all_chars_weaken. intros c H.
    apply andb_true_iff in H. destruct H as [H _].
    apply andb_true_iff in H. apply H. }
  assert (Hplus : PyMore.all_chars
                    (fun c => Ascii.eqb
                                (if Ascii.eqb c "+" then " "%char else c) c)
                    text = true).
  { unfold text. rewrite all_chars_app, andb_true_iff. split; [|reflexivity].
    revert Hd. apply all_chars_weaken.
    intros c H. apply andb_true_iff in H. destruct H as [H _].
    apply andb_true_iff in H. destruct H as [_ H].
    apply negb_true_iff in H. rewrite H. apply Ascii.eqb_refl. }
  unfold InvoiceApi.parts_of.
  rewrite (strip_no_space text Hsp), (map_chars_id _ text Hplus),
    (split_one_token text Hne Hsp).
  cbn [InvoiceApi.parse_parts]. unfold InvoiceApi.parse_part.
  rewrite (strip_no_space text Hsp).
  assert (Hc : PyMore.contains_char "%" text = true).
  { unfold text. rewrite contains_char_app. cbn. apply orb_true_r. }
  rewrite Hc, remove_all_char. unfold text.
  rewrite filter_chars_app, filter_chars_all.
  - cbn [PyMore.filter_chars Ascii.eqb Bool.eqb negb append].
    rewrite append_nil_r. cbn [fst].
    destruct (Decimal_of_str d); reflexivity.
  - revert Hd. apply all_chars_weaken.
    intros c H. apply andb_true_iff in H. apply H.
Qed.

End DiscountText.

(** ** The database URL *)

(** X16.  The URL the engine is created with.  The module raises exactly
    when neither variable holds a non-empty text.  Otherwise the URL comes
    from [DATABASE_URL] when that is set and not empty, else from
    [DATABASE_PRIVATE_URL]; a URL that starts with postgres:// has that
    start replaced by postgresql:// and the rest kept, any other URL is
    kept as it is, so the result never starts with postgres://. *)
Theorem database_url_for_sqlalchemy
  (DATABASE_URL DATABASE_PRIVATE_URL : option string) :
  match Database.database_url DATABASE_URL DATABASE_PRIVATE_URL with
  | Raise e =>
      (DATABASE_URL = None \/ DATABASE_URL = Some "")
      /\ (DATABASE_PRIVATE_URL = None \/ DATABASE_PRIVATE_URL = Some "")
      /\ e = ValueError "DATABASE_URL environment variable is required"
  | Ok url =>
      exists chosen,
        configured_url DATABASE_URL DATABASE_PRIVATE_URL = Some chosen
        /\ chosen <> ""
        /\ PyStr.strip_prefix "postgres://" url = None
        /\ (forall rest, chosen = "postgres://" ++ rest ->
                         url = "postgresql://" ++ rest)
        /\ (PyStr.strip_prefix "postgres://" chosen = None -> url = chosen)
  end.
Proof.
  assert (G : forall chosen : string,
             chosen <> "" ->
             match PyStr.strip_prefix "postgres://" chosen with
             | Some _ =>
                 Ok (PyMore.replace_first "postgres://" "postgresql://"
                       chosen)
             | None => Ok chosen
             end
             = Ok (match PyStr.strip_prefix "postgres://" chosen with
                   | Some rest => "postgresql://" ++ rest
                   | None => chosen
                   end)).
  { intros chosen _.
    destruct (PyStr.strip_prefix "postgres://" chosen) as [rest|] eqn:E;
      [|reflexivity].
    destruct chosen as [|c r]; [discriminate E|].
    unfold PyMore.replace_first. now rewrite E. }
  assert (K : forall chosen : string,
             chosen <> "" ->
             Database.database_url (Some chosen) DATABASE_PRIVATE_URL
             = Ok (match PyStr.strip_prefix "postgres://" chosen with
                   | Some rest => "postgresql://" ++ rest
                   | None => chosen
                   end)
             /\ (DATABASE_URL = None \/ DATABASE_URL = Some "" ->
                 Database.database_url DATABASE_URL (Some chosen)
                 = Ok (match PyStr.strip_prefix "postgres://" chosen with
                       | Some rest => "postgresql://" ++ rest
                       | None => chosen
                       end))).
  { intros chosen Hne. unfold Database.database_url.
    destruct chosen as [|c r]; [congruence|]. split.
    - cbn [truthy_ostr truthy_str negb or_str]. now apply G.
    - intros [->| ->]; cbn [truthy_ostr truthy_str negb or_str];
        now apply G. }
  assert (R : forall chosen : string,
             chosen <> "" ->
             exists chosen',
               Some chosen = Some chosen'
               /\ chosen' <> ""
               /\ PyStr.strip_prefix "postgres://"
                    (match PyStr.strip_prefix "postgres://" chosen with
                     | Some rest => "postgresql://" ++ rest
                     | None => chosen
                     end) = None
               /\ (forall rest, chosen' = "postgres://" ++ rest ->
                     match PyStr.strip_prefix "postgres://" chosen with
                     | Some rest => "postgresql://" ++ rest
                     | None => chosen
                     end = "postgresql://" ++ rest)
               /\ (PyStr.strip_prefix "postgres://" chosen' = None ->
                   match PyStr.strip_prefix "postgres://" chosen with
                   | Some rest => "postgresql://" ++ rest
                   | None => chosen
                   end = chosen')).
  { intros chosen Hne. exists chosen. split; [reflexivity|].
    split; [exact Hne|].
    destruct (PyStr.strip_prefix "postgres://" chosen) as [rest|] eqn:E.
    - split; [reflexivity|]. split; [|discriminate].
      intros rest' ->. rewrite strip_prefix_app in E. now injection E as ->.
    - split; [exact E|]. split; [|reflexivity].
      intros rest' ->. rewrite strip_prefix_app in E. discriminate E. }
  destruct DATABASE_URL as [[|c r]|].
  - destruct DATABASE_PRIVATE_URL as [[|c r]|].
    + cbn. split; [now right|]. split; [now right|reflexivity].
    + rewrite (proj2 (K (String c r) ltac:(discriminate))
                 (or_intror eq_refl)).
      apply (R (String c r)). discriminate.
    + cbn. split; [now right|]. split; [now left|reflexivity].
  - rewrite (proj1 (K (String c r) ltac:(discriminate))).
    apply (R (String c r)). discriminate.
  - destruct DATABASE_PRIVATE_URL as [[|c r]|].
    + cbn. split; [now left|]. split; [now right|reflexivity].
    + rewrite (proj2 (K (String c r) ltac:(discriminate))
                 (or_introl eq_refl)).
      apply (R (String c r)). discriminate.
    + cbn. split; [now left|]. split; [now left|reflexivity].
Qed.

(** ** The template of a shared invoice *)

(** X17.  The template a shared invoice is rendered with.  The lookup
    reads only.  A template the invoice names is used whenever it is
    stored, active or not; no template is found only when the invoice
    names no stored template and no template is active. *)
Theorem template_of_shared_invoice (invoice : InvoiceNew.t) (s : Session) :
  exists r,
    PublicInvoice.fetch_template_data invoice s = (Ok r, s)
    /\ (forall tid t,
           InvoiceNew.template_id invoice = Some tid ->
           tid <> "" ->
           find (fun t => String.eqb (InvoiceTemplate.bubble_id t) tid)
             (templates (working s)) = Some t ->
           r = Some t)
    /\ (r = None ->
        (forall tid,
            InvoiceNew.template_id invoice = Some tid ->
            tid <> "" ->
            find (fun t => String.eqb (InvoiceTemplate.bubble_id t) tid)
              (templates (working s)) = None)
        /\ forall t, In t (templates (working s)) ->
                     col_is_true (InvoiceTemplate.active t) = false).
Proof.
  assert (D : forall r,
             get_default_template_data s = (Ok r, s) ->
             r = None ->
             forall t, In t (templates (working s)) ->
                       col_is_true (InvoiceTemplate.active t) = false).
  { intros r E ->. revert E.
    unfold get_default_template_data, bind, get_tables, ret.
    destruct (find _ (templates (working s))); [discriminate|].
    destruct (find (fun t => col_is_true (InvoiceTemplate.active t))
                (templates (working s))) eqn:Ea; [discriminate|].
    intros _ t Ht. exact (find_none _ _ Ea t Ht). }
  assert (T : exists r, get_default_template_data s = (Ok r, s)).
  { unfold get_default_template_data, bind, get_tables, ret.
    destruct (find _ (templates (working s))); eexists; reflexivity. }
  unfold PublicInvoice.fetch_template_data.
  destruct (InvoiceNew.template_id invoice) as [tid|] eqn:Etid.
  - destruct tid as [|c tid'].
    + cbn [truthy_ostr truthy_str]. unfold bind at 1. cbn [ret].
      destruct T as (r & E). exists r. split; [exact E|].
      split; [intros tid t H; injection H as <-; congruence|].
      intro Hr. split; [|exact (D r E Hr)].
      intros tid H; injection H as <-; congruence.
    + cbn [truthy_ostr truthy_str or_str].
      unfold bind at 1. unfold get_template at 1.
      unfold bind at 1. cbn [get_tables ret].
      destruct (find (fun t => String.eqb (InvoiceTemplate.bubble_id t)
                                 (String c tid'))
                  (templates (working s))) as [t0|] eqn:Ef.
      * exists (Some t0). split; [reflexivity|].
        split; [|discriminate].
        intros tid t H _ Ht. injection H as <-. congruence.
      * destruct T as (r & E). exists r. split; [exact E|].
        split.
        { intros tid t H _ Ht. injection H as <-. congruence. }
        intro Hr. split; [|exact (D r E Hr)].
        intros tid H _. injection H as <-. exact Ef.
  - cbn [truthy_ostr]. unfold bind at 1. cbn [ret].
    destruct T as (r & E). exists r. split; [exact E|].
    split; [discriminate|].
    intro Hr. split; [discriminate|exact (D r E Hr)].
Qed.
(** ** From the creation endpoint to the view route *)

Section RoundTrip.

Variable cfg : InvoiceSettings.
Variable env reader : Env.
Variable generate_invoice_html :
  InvoiceNew.t -> option InvoiceTemplate.t -> option string ->
  option string -> string.

(** X18.  The link the creation endpoint answers with can be followed.
    When the endpoint has answered with a link, a reader whose clock is not
    past the expiry, asking the view route for the token of that link,
    records one view: the invoice the token selects is the one the
    endpoint answered about, with the same number and total, and it then
    counts one view, dated at the reader's clock.  A reader that accepts
    HTML gets the page of that invoice; for any other reader the route
    ends in [TypeError], the view being recorded all the same. *)
Theorem created_link_round_trip (base_url : string) (a : Args.t)
  (s : Session) (r : InvoiceOnTheFlyResponse) (s' : Session)
  (accept : option string) :
  create_invoice_on_the_fly cfg env base_url a s = (Response r, s') ->
  (now reader <= expiry_of_new_link cfg env)%Z ->
  invoice_link r = base_url ++ "/view/" ++ share_urlsafe env
  /\ exists out s'' inv',
       PublicInvoice.view_shared_invoice reader generate_invoice_html
         (share_urlsafe env) accept base_url s' = (out, s'')
       /\ committed s'' = working s''
       /\ find_by_token (working s'') (share_urlsafe env) = Some inv'
       /\ InvoiceNew.bubble_id inv' = bubble_id r
       /\ InvoiceNew.invoice_number inv' = invoice_number r
       /\ InvoiceNew.total_amount inv' = total_amount r
       /\ InvoiceNew.share_access_count inv' = Some 1%Z
       /\ InvoiceNew.viewed_at inv' = Some (now reader)
       /\ (PyMore.contains "text/html"
             (match accept with Some h => h | None => "" end) = true ->
           exists template_data,
             PublicInvoice.fetch_template_data inv' s''
             = (Ok template_data, s'')
             /\ out = Ok (PublicInvoice.HTMLResponse
                            (generate_invoice_html inv' template_data
                               (Some (share_urlsafe env)) None)))
       /\ (PyMore.contains "text/html"
             (match accept with Some h => h | None => "" end) = false ->
           out = Raise (TypeError "Cannot instantiate typing.Union")).
Proof.
  intros Hr Hclock. unfold create_invoice_on_the_fly in Hr.
  destruct (create_on_the_fly cfg env a s) as [[inv|e] s0] eqn:E;
    [|destruct e; discriminate Hr].
  injection Hr as <- <-.
  destruct (create_on_the_fly_returned cfg env a s inv s0 E)
    as (package & customer & s1 & fin & C).
  pose proof (cr_invoices _ _ _ _ _ _ _ _ _ _ C) as Hi.
  pose proof (cr_new_token _ _ _ _ _ _ _ _ _ _ C) as Htok.
  pose proof (cr_new_id _ _ _ _ _ _ _ _ _ _ C) as Hfresh.
  pose proof (cr_returned _ _ _ _ _ _ _ _ _ _ C) as Hret.
  assert (Ht : InvoiceNew.share_token inv = Some (share_urlsafe env)).
  { rewrite Hret. cbn [InvoiceNew.as_stored InvoiceNew.share_token].
    exact (cr_share_token _ _ _ _ _ _ _ _ _ _ C). }
  assert (Hen : InvoiceNew.share_enabled inv = Some true).
  { rewrite Hret. cbn [InvoiceNew.as_stored InvoiceNew.share_enabled].
    exact (cr_share_enabled _ _ _ _ _ _ _ _ _ _ C). }
  assert (Hex : InvoiceNew.share_expires_at inv
                = Some (expiry_of_new_link cfg env)).
  { rewrite Hret. cbn [InvoiceNew.as_stored InvoiceNew.share_expires_at].
    exact (cr_share_expires_at _ _ _ _ _ _ _ _ _ _ C). }
  assert (Hcnt : InvoiceNew.share_access_count inv = Some 0%Z).
  { rewrite Hret. cbn [InvoiceNew.as_stored InvoiceNew.share_access_count].
    exact (cr_share_access_count _ _ _ _ _ _ _ _ _ _ C). }
  assert (F : find_by_token (working s0) (share_urlsafe env) = Some inv).
  { unfold find_by_token in *. rewrite Hi.
    apply find_app_last; [exact Htok|].
    rewrite Ht. cbn [col_eq_str]. apply String.eqb_refl. }
  assert (Fid : find_by_id (working s0) (InvoiceNew.bubble_id inv)
                = Some inv).
  { unfold find_by_id in *. rewrite Hi.
    apply find_app_last; [exact Hfresh|].
    apply String.eqb_refl. }
  assert (O : share_open reader inv).
  { split; [exact Hen|]. right. eexists. split; [exact Hex|exact Hclock]. }
  destruct (view_shared_invoice_found reader generate_invoice_html
              (share_urlsafe env) accept base_url s0 inv 0%Z F O Fid Hcnt)
    as (out & s'' & inv' & V & Hc & F' & Cn & W & _ & S & H & J).
  { lia. }
  cbn [invoice_link bubble_id invoice_number total_amount].
  split; [rewrite Ht; reflexivity|].
  exists out, s'', inv'.
  split; [exact V|]. split; [exact Hc|]. split; [exact F'|].
  unfold same_but_view in S.
  destruct S as (S1 & S2 & S3 & S4 & S5 & S6 & S7 & S8 & S9 & S10 & S11
                 & S12 & S13 & S14 & S15 & S16 & S17 & S18 & S19 & S20
                 & S21 & S22 & S23 & S24 & S25 & S26 & S27).
  split; [symmetry; exact S1|]. split; [symmetry; exact S2|].
  split; [symmetry; exact S26|].
  split; [exact Cn|]. split; [exact W|].
  split; [exact H|exact J].
Qed.

End RoundTrip.

(** ** Instances *)

(** The package of 1000 with a markup of 50 and the voucher FLAT100, on the
    store that holds no invoice yet. *)
Lemma created_invoice_is_stored_witness :
  exists inv s',
    create_on_the_fly invoice_settings Fixture.env0 Fixture.args_voucher
      Fixture.session0 = (Ok inv, s')
    /\ committed s' = working s'
    /\ invoices (committed s')
       = (invoices (working Fixture.session0) ++ [inv])%list
    /\ invoice_items (committed s')
       = (invoice_items (working Fixture.session0)
          ++ InvoiceNew.items inv)%list
    /\ get_by_id (InvoiceNew.bubble_id inv) s' = (Ok (Some inv), s').
Proof.
  destruct (create_on_the_fly invoice_settings Fixture.env0
              Fixture.args_voucher Fixture.session0)
    as [[inv|e] s'] eqn:E.
  - destruct (created_invoice_is_stored invoice_settings Fixture.env0
                Fixture.args_voucher Fixture.session0 inv s' E)
      as (H1 & H2 & H3 & _ & _ & _ & H7 & _).
    exists inv, s'. split; [reflexivity|].
    split; [exact H1|]. split; [exact H2|]. split; [exact H3|exact H7].
  - vm_compute in E. discriminate E.
Defined.

Lemma created_share_link_lifetime_witness :
  exists inv s',
    create_on_the_fly invoice_settings Fixture.env0 Fixture.args_voucher
      Fixture.session0 = (Ok inv, s')
    /\ InvoiceNew.share_token inv = Some (share_urlsafe Fixture.env0)
    /\ forall reader : Env,
         ((now reader
           <= expiry_of_new_link invoice_settings Fixture.env0)%Z ->
          get_by_share_token reader (share_urlsafe Fixture.env0) s'
          = (Ok (Some inv), s'))
         /\ ((expiry_of_new_link invoice_settings Fixture.env0
              < now reader)%Z ->
             get_by_share_token reader (share_urlsafe Fixture.env0) s'
             = (Ok None, s')).
Proof.
  destruct (create_on_the_fly invoice_settings Fixture.env0
              Fixture.args_voucher Fixture.session0)
    as [[inv|e] s'] eqn:E.
  - destruct (created_share_link_lifetime invoice_settings Fixture.env0
                Fixture.args_voucher Fixture.session0 inv s' E)
      as (H1 & _ & H3).
    exists inv, s'. split; [reflexivity|]. split; [exact H1|exact H3].
  - vm_compute in E. discriminate E.
Defined.

(** A creation for the new customer Aina writes her row and refers to
    it. *)
Lemma created_invoice_customer_witness :
  exists inv s' c,
    create_on_the_fly invoice_settings Fixture.env0 Fixture.args_all
      Fixture.session0 = (Ok inv, s')
    /\ customers (working s') = [c]
    /\ Customer.name c = "Aina"
    /\ Customer.customer_id c = "cust_0a1b2c3d"
    /\ InvoiceNew.customer_id inv = Some (Customer.id c)
    /\ InvoiceNew.customer_name_snapshot inv = "Aina".
Proof.
  destruct (create_on_the_fly invoice_settings Fixture.env0
              Fixture.args_all Fixture.session0) as [[inv|e] s'] eqn:E.
  - destruct (created_invoice_customer invoice_settings Fixture.env0
                Fixture.args_all Fixture.session0 inv s' E)
      as (_ & _ & Hnew).
    destruct (Hnew "Aina" eq_refl eq_refl eq_refl)
      as (c & Hc & Hn & _ & _ & _ & _ & Hcid & _ & _ & Hid & Hsnap & _).
    exists inv, s', c.
    split; [reflexivity|]. split; [exact Hc|]. split; [exact Hn|].
    split; [exact Hcid|]. split; [exact Hid|exact Hsnap].
  - vm_compute in E. discriminate E.
Defined.

Lemma same_name_shares_customer_witness :
  exists inv1 s1 inv2 s2 cid,
    create_on_the_fly invoice_settings Fixture.env0 Fixture.args_all
      Fixture.session0 = (Ok inv1, s1)
    /\ create_on_the_fly invoice_settings Sample.env1 Fixture.args_all s1
       = (Ok inv2, s2)
    /\ customers (working s2) = customers (working s1)
    /\ InvoiceNew.customer_id inv1 = Some cid
    /\ InvoiceNew.customer_id inv2 = Some cid
    /\ InvoiceNew.customer_name_snapshot inv2 = "Aina".
Proof.
  destruct (create_on_the_fly invoice_settings Fixture.env0
              Fixture.args_all Fixture.session0) as [[inv1|e] s1] eqn:E1;
    [|vm_compute in E1; discriminate E1].
  destruct (create_on_the_fly invoice_settings Sample.env1
              Fixture.args_all s1) as [[inv2|e] s2] eqn:E2.
  - destruct (same_name_shares_customer invoice_settings Fixture.env0
                Sample.env1 Fixture.args_all Fixture.args_all
                Fixture.session0 "Aina" inv1 inv2 s1 s2
                eq_refl eq_refl eq_refl E1 E2) as (cid & H).
    exists inv1, s1, inv2, s2, cid.
    split; [reflexivity|]. split; [exact E2|exact H].
  - vm_compute in E1. injection E1 as <- <-.
    vm_compute in E2. discriminate E2.
Defined.


(** A view of the invoice shared without expiry, seen three times before,
    by a browser. *)
Lemma view_shared_invoice_records_a_view_witness :
  exists out s' inv',
    PublicInvoice.view_shared_invoice Fixture.env0 Sample.page_of "token-d"
      (Some "text/html,application/xhtml+xml")
      "https://calculator.atap.solar" Fixture.shared_session
    = (out, s')
    /\ find_by_token (working s') "token-d" = Some inv'
    /\ InvoiceNew.share_access_count inv' = Some 4%Z
    /\ InvoiceNew.viewed_at inv' = Some (now Fixture.env0)
    /\ out = Ok (PublicInvoice.HTMLResponse "INV-000004").
Proof.
  destruct (proj2 (view_shared_invoice_records_a_view Fixture.env0
                     Sample.page_of "token-d"
                     (Some "text/html,application/xhtml+xml")
                     "https://calculator.atap.solar" Fixture.shared_session)
              Fixture.unlimited 3%Z eq_refl
              (conj eq_refl (or_introl eq_refl)) eq_refl eq_refl)
    as (out & s' & inv' & E & _ & F & C & V & _ & S & H & _).
  { lia. }
  exists out, s', inv'.
  split; [exact E|]. split; [exact F|]. split; [exact C|].
  split; [exact V|].
  destruct (H eq_refl) as (t & _ & ->).
  unfold Sample.page_of.
  destruct S as (_ & <- & _). reflexivity.
Defined.

Lemma tax_never_lowers_the_total_witness :
  exists inv' s',
    _calculate_invoice_totals Fixture.discount_only_invoice Fixture.session0
    = (Ok inv', s')
    /\ 0 <= InvoiceNew.sst_amount inv'
    /\ InvoiceNew.subtotal inv' <= InvoiceNew.total_amount inv'
    /\ (InvoiceNew.total_amount inv' < 0 <-> InvoiceNew.subtotal inv' < 0).
Proof.
  apply (tax_never_lowers_the_total Fixture.discount_only_invoice
           Fixture.session0).
  unfold Qle; simpl; lia.
Defined.

Lemma sanitize_filename_is_safe_witness :
  PyMore.all_chars is_filename_char
    (PdfGenerator.sanitize_filename "  A&B Solar (M) Sdn. Bhd. "
       "INV 00123/A") = true
  /\ exists company,
       PdfGenerator.sanitize_filename "  A&B Solar (M) Sdn. Bhd. "
         "INV 00123/A"
       = company ++ "_"
         ++ PyMore.filter_chars PdfGenerator.keeps
              (PyStr.strip "INV 00123/A")
         ++ ".pdf"
       /\ company <> ""
       /\ PyMore.all_chars PdfGenerator.keeps company = true
       /\ starts_with_char "_" company = false
       /\ ends_with_char "_" company = false
       /\ has_double "_" company = false.
Proof.
  apply (sanitize_filename_is_safe "  A&B Solar (M) Sdn. Bhd. "
           "INV 00123/A").
  - reflexivity.
  - reflexivity.
Defined.

(** A company name of punctuation only falls back to Invoice. *)
Lemma sanitize_filename_keeps_letters_witness :
  PdfGenerator.sanitize_filename " (***) _ " "INV-000001"
  = "Invoice_INV-000001.pdf".
Proof.
  destruct (sanitize_filename_keeps_letters " (***) _ " "INV-000001"
              eq_refl eq_refl) as (company & E & Hf & _).
  rewrite E, (Hf eq_refl). reflexivity.
Defined.

(** The example of the docstring. *)
Lemma sanitize_filename_of_words_witness :
  PdfGenerator.sanitize_filename "ABC Company Sdn Bhd" "INV-00123"
  = "ABC_Company_Sdn_Bhd_INV-00123.pdf".
Proof.
  apply (sanitize_filename_of_words "ABC Company Sdn Bhd" "INV-00123").
  - discriminate.
  - reflexivity.
  - reflexivity.
  - reflexivity.
  - reflexivity.
  - reflexivity.
Defined.

(** The text RM 500 beside an explicit percent discount of 50. *)
Lemma discount_given_without_percent_witness :
  exists fixed,
    InvoiceApi.final_discounts Sample.decimal_of_int_text
      {| InvoiceApi.discount_fixed := None;
         InvoiceApi.discount_percent := Some 50;
         InvoiceApi.discount_given := Some "RM 500" |}
    = Some (fixed, InvoiceApi.Finite 0)
    /\ (fixed = InvoiceApi.Finite 0
        \/ exists part,
             In part (InvoiceApi.parts_of "RM 500")
             /\ Sample.decimal_of_int_text
                  (PyStr.remove_all "," (PyStr.remove_all "RM" part))
                = Some fixed).
Proof.
  apply (discount_given_without_percent Sample.decimal_of_int_text
           {| InvoiceApi.discount_fixed := None;
              InvoiceApi.discount_percent := Some 50;
              InvoiceApi.discount_given := Some "RM 500" |} "RM 500").
  - reflexivity.
  - discriminate.
  - reflexivity.
Defined.

(** The text 150% gives a percent discount of 150. *)
Lemma discount_given_single_percent_witness :
  InvoiceApi.final_discounts Sample.decimal_of_int_text
    {| InvoiceApi.discount_fixed := Some 20;
       InvoiceApi.discount_percent := Some 5;
       InvoiceApi.discount_given := Some "150%" |}
  = Some (InvoiceApi.Finite 0, InvoiceApi.Finite 150).
Proof.
  apply (discount_given_single_percent Sample.decimal_of_int_text
           {| InvoiceApi.discount_fixed := Some 20;
              InvoiceApi.discount_percent := Some 5;
              InvoiceApi.discount_given := Some "150%" |} "150").
  - reflexivity.
  - reflexivity.
Defined.

(** A browser one day after the creation. *)
Lemma created_link_round_trip_witness :
  exists r s' out s'' inv',
    create_invoice_on_the_fly invoice_settings Fixture.env0
      "https://calculator.atap.solar" Fixture.args_voucher Fixture.session0
    = (Response r, s')
    /\ invoice_link r
       = "https://calculator.atap.solar" ++ "/view/"
         ++ share_urlsafe Fixture.env0
    /\ PublicInvoice.view_shared_invoice Sample.env1 Sample.page_of
         (share_urlsafe Fixture.env0) (Some "text/html")
         "https://calculator.atap.solar" s'
       = (out, s'')
    /\ find_by_token (working s'') (share_urlsafe Fixture.env0) = Some inv'
    /\ InvoiceNew.bubble_id inv' = bubble_id r
    /\ InvoiceNew.share_access_count inv' = Some 1%Z
    /\ InvoiceNew.viewed_at inv' = Some (now Sample.env1).
Proof.
  destruct (create_invoice_on_the_fly invoice_settings Fixture.env0
              "https://calculator.atap.solar" Fixture.args_voucher
              Fixture.session0) as [[r|code detail] s'] eqn:E.
  - destruct (created_link_round_trip invoice_settings Fixture.env0
                Sample.env1 Sample.page_of "https://calculator.atap.solar"
                Fixture.args_voucher Fixture.session0 r s'
                (Some "text/html") E)
      as (L & out & s'' & inv' & V & _ & F & B & _ & _ & C & W & _).
    { vm_compute. discriminate. }
    exists r, s', out, s'', inv'.
    split; [reflexivity|]. split; [exact L|]. split; [exact V|].
    split; [exact F|]. split; [exact B|]. split; [exact C|exact W].
  - vm_compute in E. discriminate E.
Defined.

(** ** A discount text with an amount and a percentage *)

Lemma part_chars (s : string) :
  PyMore.all_chars is_part_char s = true ->
  PyMore.all_chars (fun c => negb (PyStr.is_space c)) s = true
  /\ PyMore.all_chars (fun c => negb (Ascii.eqb c "+")) s = true
  /\ PyMore.all_chars (fun c => negb (Ascii.eqb "%" c)) s = true.
Proof.
  intro H. repeat split; revert H; apply all_chars_weaken; intros c H;
    unfold is_part_char in H; apply andb_true_iff in H;
    destruct H as [H H3]; apply andb_true_iff in H; destruct H as [H1 H2];
    assumption.
Qed.

Lemma split_tok_two (f t : string) :
  t <> "" ->
  PyMore.all_chars (fun c => negb (PyStr.is_space c)) f = true ->
  PyMore.all_chars (fun c => negb (PyStr.is_space c)) t = true ->
  PyMore.split_tok (f ++ String " " t) = (f, [t]).
Proof.
  intros Hne Hf Ht.
  assert (G : PyMore.split_tok t = (t, [])).
  { clear Hne. induction t as [|c t IH]; [reflexivity|].
    cbn [PyMore.all_chars] in Ht. apply andb_true_iff in Ht.
    destruct Ht as [Hc Ht]. apply negb_true_iff in Hc.
    cbn [PyMore.split_tok]. now rewrite (IH Ht), Hc. }
  induction f as [|c f IH].
  - cbn [append PyMore.split_tok]. rewrite G.
    destruct t; [congruence|reflexivity].
  - cbn [PyMore.all_chars] in Hf. apply andb_true_iff in Hf.
    destruct Hf as [Hc Hf]. apply negb_true_iff in Hc.
    cbn [append PyMore.split_tok]. now rewrite (IH Hf), Hc.
Qed.

Lemma map_chars_app (g : ascii -> ascii) (a b : string) :
  PyMore.map_chars g (a ++ b) = PyMore.map_chars g a ++ PyMore.map_chars g b.
Proof.
  induction a as [|c a IH]; [reflexivity|].
  cbn [append PyMore.map_chars]. now rewrite IH.
Qed.

Lemma plus_free (s : string) :
  PyMore.all_chars (fun c => negb (Ascii.eqb c "+")) s = true ->
  PyMore.map_chars (fun c => if Ascii.eqb c "+" then " "%char else c) s = s.
Proof.
  intro H. apply map_chars_id. revert H. apply all_chars_weaken.
  intros c Hc. apply negb_true_iff in Hc. rewrite Hc. apply Ascii.eqb_refl.
Qed.

Section DiscountParts.

Variable Decimal_of_str : string -> option InvoiceApi.decimal_value.

Lemma parse_part_amount (acc : InvoiceApi.decimal_value
                               * InvoiceApi.decimal_value) (t : string) :
  PyMore.all_chars is_part_char t = true ->
  InvoiceApi.parse_part Decimal_of_str acc t
  = Some (match Decimal_of_str
                  (PyStr.remove_all "," (PyStr.remove_all "RM" t)) with
          | Some f => f
          | None => fst acc
          end, snd acc).
Proof.
  intro H. destruct (part_chars t H) as (Hs & _ & Hp).
  unfold InvoiceApi.parse_part. rewrite (strip_no_space t Hs).
  rewrite (proj2 (contains_char_all "%" t) Hp).
  destruct (Decimal_of_str _); [reflexivity|now destruct acc].
Qed.

Lemma parse_part_percent (acc : InvoiceApi.decimal_value
                                * InvoiceApi.decimal_value) (p : string) :
  PyMore.all_chars is_part_char p = true ->
  InvoiceApi.parse_part Decimal_of_str acc (p ++ "%")
  = match Decimal_of_str p with
    | Some pv => Some (fst acc, pv)
    | None => None
    end.
Proof.
  intro H. destruct (part_chars p H) as (Hs & _ & Hp).
  unfold InvoiceApi.parse_part.
  rewrite strip_no_space
    by (rewrite all_chars_app, Hs; reflexivity).
  rewrite contains_char_app. cbn [PyMore.contains_char Ascii.eqb Bool.eqb].
  rewrite orb_true_r, remove_all_char, filter_chars_app,
    (filter_chars_all _ p Hp).
  cbn [PyMore.filter_chars Ascii.eqb Bool.eqb negb].
  now rewrite append_nil_r.
Qed.

(** X20.  A discount text made of an amount and a percentage, as the
    schema documents it: two parts without white space, plus sign or
    percent sign, separated by a space or a plus sign, the second followed
    by a percent sign.  The percent discount is what [Decimal] makes of the
    second part, and the fixed discount what it makes of the first with RM
    and commas removed, or zero when it rejects that; when [Decimal]
    rejects the second part the error is not handled. *)
Theorem discount_given_amount_and_percent
  (request_data : InvoiceApi.discount_fields) (f p : string) (sep : ascii) :
  InvoiceApi.discount_given request_data
  = Some (f ++ String sep (p ++ "%")) ->
  sep = " "%char \/ sep = "+"%char ->
  f <> "" ->
  PyMore.all_chars is_part_char f = true ->
  PyMore.all_chars is_part_char p = true ->
  InvoiceApi.final_discounts Decimal_of_str request_data
  = match Decimal_of_str p with
    | Some pv =>
        Some (match Decimal_of_str
                      (PyStr.remove_all "," (PyStr.remove_all "RM" f)) with
              | Some fv => fv
              | None => InvoiceApi.Finite 0
              end, pv)
    | None => None
    end.
Proof.
  intros Hg Hsep Hne Hf Hp.
  destruct (part_chars f Hf) as (Hfs & Hfp & _).
  destruct (part_chars p Hp) as (Hps & Hpp & _).
  unfold InvoiceApi.final_discounts. rewrite Hg.
  set (text := f ++ String sep (p ++ "%")).
  assert (Ht : truthy_str text = true).
  { unfold text. destruct f; [congruence|reflexivity]. }
  cbn [truthy_ostr or_str]. rewrite Ht.
  assert (Hparts : InvoiceApi.parts_of text = [f; p ++ "%"]).
  { unfold InvoiceApi.parts_of.
    assert (Hstrip : PyStr.strip text = text).
    { unfold PyStr.strip.
      assert (L : PyStr.lstrip text = text).
      { unfold text. destruct f as [|c f']; [congruence|].
        cbn [PyMore.all_chars] in Hfs. apply andb_true_iff in Hfs.
        destruct Hfs as [Hc _]. apply negb_true_iff in Hc.
        cbn [append PyStr.lstrip]. now rewrite Hc. }
      rewrite L.
      assert (R : PyStr.rev text
                  = String "%" (PyStr.rev (f ++ String sep p))).
      { unfold text.
        replace (f ++ String sep (p ++ "%"))
          with ((f ++ String sep p) ++ "%")
          by (rewrite append_assoc; reflexivity).
        rewrite rev_app. reflexivity. }
      rewrite R. cbn [PyStr.lstrip]. 
      change (PyStr.is_space "%") with false. cbn iota.
      rewrite <- R. apply rev_rev. }
    rewrite Hstrip. unfold text.
    rewrite map_chars_app. cbn [PyMore.map_chars].
    rewrite map_chars_app. cbn [PyMore.map_chars].
    rewrite (plus_free f Hfp), (plus_free p Hpp).
    assert (Es : (if Ascii.eqb sep "+" then " "%char else sep) = " "%char)
      by (destruct Hsep as [-> | ->]; reflexivity).
    rewrite Es. change (if Ascii.eqb "%" "+" then " "%char else "%"%char)
      with "%"%char.
    unfold PyMore.split. rewrite split_tok_two.
    - destruct f; [congruence|reflexivity].
    - destruct p; discriminate.
    - exact Hfs.
    - rewrite all_chars_app, Hps. reflexivity. }
  rewrite Hparts. cbn [InvoiceApi.parse_parts].
  rewrite (parse_part_amount _ f Hf). rewrite parse_part_percent by exact Hp.
  cbn [fst snd]. destruct (Decimal_of_str p); reflexivity.
Qed.

End DiscountParts.

(** The example of the schema: 500 and 10 percent. *)
Lemma discount_given_amount_and_percent_witness :
  InvoiceApi.final_discounts Sample.decimal_of_int_text
    {| InvoiceApi.discount_fixed := None;
       InvoiceApi.discount_percent := None;
       InvoiceApi.discount_given := Some "500 10%" |}
  = Some (InvoiceApi.Finite 500, InvoiceApi.Finite 10).
Proof.
  apply (discount_given_amount_and_percent Sample.decimal_of_int_text
           {| InvoiceApi.discount_fixed := None;
              InvoiceApi.discount_percent := None;
              InvoiceApi.discount_given := Some "500 10%" |}
           "500" "10" " "%char).
  - reflexivity.
  - now left.
  - discriminate.
  - reflexivity.
  - reflexivity.
Defined.
